(** * skein.model: a shallow embedding of the schema layer

    The Python module [skein/model.py] defines six entity classes
    ([Resources], [File], [Service], [Job], [ResourceUsageReport],
    [ApplicationReport]) over a common [Base] class.  Python values are
    embedded as the inductive type [value]; a raised exception is the
    [Raise] branch of [result].  Every function below follows the source
    statement by statement. *)

From Stdlib Require Import ZArith List String Ascii Bool Lia.
From Stdlib Require Import Floats.SpecFloat.
Import ListNotations.

Open Scope string_scope.
Open Scope Z_scope.

(** ** Python values *)

(** The six classes of the module. *)
Inductive class :=
| cResources | cFile | cService | cJob
| cResourceUsageReport | cApplicationReport.

Definition class_eqb (a b : class) : bool :=
  match a, b with
  | cResources, cResources | cFile, cFile | cService, cService
  | cJob, cJob | cResourceUsageReport, cResourceUsageReport
  | cApplicationReport, cApplicationReport => true
  | _, _ => false
  end.

(** The [__slots__] tuple of each class. *)
Definition __slots__ (c : class) : list string :=
  match c with
  | cResources => ["memory"; "vcores"]
  | cFile => ["source"; "type"; "visibility"; "size"; "timestamp"]
  | cService =>
      ["commands"; "resources"; "instances"; "files"; "env"; "depends"]
  | cJob => ["name"; "queue"; "services"]
  | cResourceUsageReport =>
      ["memory_seconds"; "vcore_seconds"; "num_used_containers";
       "needed_resources"; "reserved_resources"; "used_resources"]
  | cApplicationReport =>
      ["id"; "name"; "user"; "queue"; "tags"; "host"; "port";
       "tracking_url"; "state"; "final_status"; "progress"; "usage";
       "diagnostics"; "start_time"; "finish_time"]
  end.

(** Python objects.  A [dict] is an association list in insertion order.
    An instance of a class is the class with the contents of its slots, in
    the order of [__slots__]; a wire message is the message type (named
    after the entity) with the contents of its fields, in the same order.
    A [float] is an IEEE-754 binary64 value; a naive [datetime] is the
    number of microseconds since 1970-01-01T00:00:00. *)
#[local] Set Warnings "-register-all".
Inductive value :=
| VNone
| VRequired
| VBool (b : bool)
| VInt (z : Z)
| VFloat (f : spec_float)
| VStr (s : string)
| VList (l : list value)
| VDict (d : list (value * value))
| VDatetime (us : Z)
| VObj (c : class) (attrs : list value)
| VMsg (c : class) (fields : list value).
#[local] Set Warnings "register-all".

(** ** Exceptions *)

(** The text of an exception, one constructor per [raise] of the module.
    [Python] stands for an exception raised by the interpreter or by a
    library, whose text is not modelled. *)
Inductive message :=
| Expected_mapping_for (name : string)
| Unknown_extra_keys_for (name : string) (extra : list value)
| is_required_but_wasnt_provided (k : string)
| must_be_in (field : string) (values : list string)
| must_be_an_instance_of (field ty : string) (nullable : bool)
| must_be_a_list_of (field ty : string) (nullable : bool)
| must_be_a_dict_of (field kty vty : string) (nullable : bool)
| must_be_ge (field : string) (min : Z)
| Expected_message_of_type (name : string)
| Both_archive_and_file_specified
| Distributed_files_must_be_files
| There_must_be_at_least_one_command
| There_must_be_at_least_one_service
| Python (what : string).

(** The exceptions, by class.  [Unmodelled] is no exception of Python: it
    ends a run at a library call that the model does not follow.  These are
    [urlparse] of an object that is no [str] and the container methods of a
    wire field that holds no container, where Python raises, there or in
    the validation that follows, an exception that depends on the library;
    and [timedelta] of a [float], where Python goes on with the rounded
    instant.  No property below names the outcome of such a call. *)
Inductive exn :=
| TypeError (m : message)
| ValueError (m : message)
| KeyError (k : string)
| AttributeError (name : string)
| OverflowError (what : string)
| Unmodelled (what : string).

Inductive result (A : Type) :=
| Ok (a : A)
| Raise (e : exn).
Arguments Ok {A} a.
Arguments Raise {A} e.

Definition bind {A B} (r : result A) (k : A -> result B) : result B :=
  match r with
  | Ok a => k a
  | Raise e => Raise e
  end.

Notation "x <- e ;; k" := (bind e (fun x => k))
  (at level 61, e at next level, right associativity).
Notation "e ;;; k" := (bind e (fun _ => k))
  (at level 61, right associativity).

(** [for x in l: body(x)] *)
Fixpoint for_each {A} (l : list A) (body : A -> result unit) : result unit :=
  match l with
  | [] => Ok tt
  | x :: l' => body x ;;; for_each l' body
  end.

Section Comprehensions.

Context {A B : Type}.
Variable f : A -> result B.

(** [[f(x) for x in l]] *)
Fixpoint map_result (l : list A) : result (list B) :=
  match l with
  | [] => Ok []
  | x :: l' => y <- f x ;; ys <- map_result l' ;; Ok (y :: ys)
  end.

(** [{k: f(v) for k, v in d.items()}] *)
Fixpoint map_values {K : Type} (d : list (K * A)) : result (list (K * B)) :=
  match d with
  | [] => Ok []
  | (k, v) :: d' =>
      v' <- f v ;; rest <- map_values d' ;; Ok ((k, v') :: rest)
  end.

(** [{k: f(getattr(self, k)) for k in slots}], where [attrs] holds the
    contents of the slots in order. *)
Fixpoint map_slots {K : Type} (key : string -> K) (slots : list string)
    (attrs : list A) {struct attrs} : result (list (K * B)) :=
  match slots, attrs with
  | [], _ => Ok []
  | k :: _, [] => Raise (AttributeError k)
  | k :: slots', v :: attrs' =>
      v' <- f v ;; rest <- map_slots key slots' attrs' ;;
      Ok ((key k, v') :: rest)
  end.

End Comprehensions.

(** ** Built-ins *)

Inductive pytype :=
| Tstr | Tint | Tfloat | Tdatetime | Tlist | Tdict | Tclass (c : class).

Definition class_name (c : class) : string :=
  match c with
  | cResources => "Resources"
  | cFile => "File"
  | cService => "Service"
  | cJob => "Job"
  | cResourceUsageReport => "ResourceUsageReport"
  | cApplicationReport => "ApplicationReport"
  end.

Definition type_name (t : pytype) : string :=
  match t with
  | Tstr => "str" | Tint => "int" | Tfloat => "float"
  | Tdatetime => "datetime" | Tlist => "list" | Tdict => "dict"
  | Tclass c => class_name c
  end.

(** [isinstance(x, t)]; [bool] is a subclass of [int]. *)
Definition isinstance (x : value) (t : pytype) : bool :=
  match t, x with
  | Tstr, VStr _ => true
  | Tint, VInt _ => true
  | Tint, VBool _ => true
  | Tfloat, VFloat _ => true
  | Tdatetime, VDatetime _ => true
  | Tlist, VList _ => true
  | Tdict, VDict _ => true
  | Tclass c, VObj c' _ => class_eqb c c'
  | _, _ => false
  end.

Definition is_None (x : value) : bool :=
  match x with VNone => true | _ => false end.

Definition Z_of_bool (b : bool) : Z := if b then 1 else 0.

(** *** Floats *)

Definition prec : Z := 53.
Definition emax : Z := 1024.

(** The integer a float is equal to, when it is one. *)
Definition Z_of_float_exact (f : spec_float) : option Z :=
  match f with
  | S754_zero _ => Some 0
  | S754_finite s m e =>
      let sign := if s then (-1) else 1 in
      if 0 <=? e then Some (sign * (Z.pos m * 2 ^ e))
      else if Z.pos m mod 2 ^ (- e) =? 0
           then Some (sign * (Z.pos m / 2 ^ (- e)))
           else None
  | _ => None
  end.

(** [0 < f] *)
Definition float_is_positive (f : spec_float) : bool :=
  match f with
  | S754_infinity false => true
  | S754_finite false _ _ => true
  | _ => false
  end.

(** *** Equality, [a == b] *)

(** Numbers compare by value across [bool], [int] and [float]; lists
    compare element-wise; dicts compare as finite maps; instances compare
    by [Base.__eq__]: same class and equal slots; messages compare field by
    field.  Objects of unrelated types are unequal. *)
Fixpoint py_eq (a b : value) {struct a} : bool :=
  let fix list_eq (l m : list value) {struct l} : bool :=
    match l, m with
    | [], [] => true
    | x :: l', y :: m' => py_eq x y && list_eq l' m'
    | _, _ => false
    end in
  match a, b with
  | VNone, VNone => true
  | VRequired, VRequired => true
  | VBool x, VBool y => Bool.eqb x y
  | VBool x, VInt y => Z_of_bool x =? y
  | VInt x, VBool y => x =? Z_of_bool y
  | VInt x, VInt y => x =? y
  | VBool x, VFloat f =>
      match Z_of_float_exact f with
      | Some y => Z_of_bool x =? y | None => false end
  | VInt x, VFloat f =>
      match Z_of_float_exact f with Some y => x =? y | None => false end
  | VFloat f, VBool y =>
      match Z_of_float_exact f with
      | Some x => x =? Z_of_bool y | None => false end
  | VFloat f, VInt y =>
      match Z_of_float_exact f with Some x => x =? y | None => false end
  | VFloat f, VFloat g => SFeqb f g
  | VStr s, VStr t => String.eqb s t
  | VList l, VList m => list_eq l m
  | VDict d, VDict e =>
      (Nat.eqb (List.length d) (List.length e))
      && (fix all (d : list (value * value)) : bool :=
            match d with
            | [] => true
            | (k, v) :: d' =>
                (fix find (e : list (value * value)) : bool :=
                   match e with
                   | [] => false
                   | (k', v') :: e' =>
                       if py_eq k k' then py_eq v v' else find e'
                   end) e
                && all d'
            end) d
  | VDatetime x, VDatetime y => x =? y
  | VObj c l, VObj c' m => class_eqb c c' && list_eq l m
  | VMsg c l, VMsg c' m => class_eqb c c' && list_eq l m
  | _, _ => false
  end.

(** *** Dicts *)

(** A key equal to the string [k]. *)
Definition is_key (k : string) (x : value) : bool :=
  match x with VStr s => String.eqb k s | _ => false end.

Fixpoint assoc (k : string) (d : list (value * value)) : option value :=
  match d with
  | [] => None
  | (k', v) :: d' => if is_key k k' then Some v else assoc k d'
  end.

(** [k in d] *)
Definition mem_key (k : string) (d : list (value * value)) : bool :=
  match assoc k d with Some _ => true | None => false end.

(** [d.get(k, default)]; [d.get(k)] is [dict_get d k VNone]. *)
Definition dict_get (d : list (value * value)) (k : string) (default : value)
  : value :=
  match assoc k d with Some v => v | None => default end.

(** [d[k]] *)
Definition getitem (d : list (value * value)) (k : string) : result value :=
  match assoc k d with Some v => Ok v | None => Raise (KeyError k) end.

(** [d[k] = v] for an arbitrary hashable key: an existing key keeps its
    place and takes the new value. *)
Fixpoint setitem (d : list (value * value)) (k v : value)
  : list (value * value) :=
  match d with
  | [] => [(k, v)]
  | (k', v') :: d' =>
      if py_eq k' k then (k', v) :: d' else (k', v') :: setitem d' k v
  end.

Definition keys (d : list (value * value)) : list value := map fst d.
Definition values (d : list (value * value)) : list value := map snd d.

(** Objects that can be members of a [set] or keys of a [dict]: lists,
    dicts, instances of [Base] (which defines [__eq__] and no [__hash__])
    and messages are unhashable. *)
Definition hashable (x : value) : bool :=
  match x with
  | VList _ | VDict _ | VObj _ _ | VMsg _ _ => false
  | _ => true
  end.

Definition mem_str (s : string) (l : list string) : bool :=
  existsb (String.eqb s) l.

(** [x in keys] for a tuple of strings [keys]. *)
Definition in_strings (x : value) (l : list string) : bool :=
  match x with VStr s => mem_str s l | _ => false end.

Fixpoint index_of (k : string) (l : list string) : option nat :=
  match l with
  | [] => None
  | k' :: l' =>
      if String.eqb k k' then Some O
      else match index_of k l' with Some i => Some (S i) | None => None end
  end.

(** [getattr(self, k)] on an instance or a message. *)
Definition getattr (self : value) (k : string) : result value :=
  match self with
  | VObj c attrs | VMsg c attrs =>
      match index_of k (__slots__ c) with
      | Some i =>
          match nth_error attrs i with
          | Some v => Ok v
          | None => Raise (AttributeError k)
          end
      | None => Raise (AttributeError k)
      end
  | _ => Raise (AttributeError k)
  end.

(** Truth value of an object, as tested by [if not x]. *)
Definition truthy (x : value) : bool :=
  match x with
  | VNone => false
  | VBool b => b
  | VInt z => negb (z =? 0)
  | VFloat f => match f with S754_zero _ => false | _ => true end
  | VStr s => negb (String.eqb s "")
  | VList l => match l with [] => false | _ => true end
  | VDict d => match d with [] => false | _ => true end
  | _ => true
  end.

(** [max(0, x)]: [x] when [x > 0], else [0]. *)
Definition max0 (x : value) : result value :=
  match x with
  | VInt z => Ok (if 0 <? z then x else VInt 0)
  | VBool b => Ok (if b then x else VInt 0)
  | VFloat f => Ok (if float_is_positive f then x else VInt 0)
  | _ => Raise (TypeError (Python "'>' not supported"))
  end.

(** *** Strings *)

Definition chars := list_ascii_of_string.
Definition str := string_of_list_ascii.

Definition is_lower (c : ascii) : bool :=
  let n := nat_of_ascii c in ((97 <=? n) && (n <=? 122))%nat.
Definition is_upper (c : ascii) : bool :=
  let n := nat_of_ascii c in ((65 <=? n) && (n <=? 90))%nat.
Definition is_digit (c : ascii) : bool :=
  let n := nat_of_ascii c in ((48 <=? n) && (n <=? 57))%nat.
Definition to_upper (c : ascii) : ascii :=
  if is_lower c then ascii_of_nat (nat_of_ascii c - 32) else c.
Definition to_lower (c : ascii) : ascii :=
  if is_upper c then ascii_of_nat (nat_of_ascii c + 32) else c.

(** [s.upper()] and [s.lower()], on ASCII letters. *)
Definition upper (s : string) : string := str (map to_upper (chars s)).
Definition lower (s : string) : string := str (map to_lower (chars s)).

(** [s.title()]: a letter that follows a letter is lowered, any other
    letter is raised. *)
Fixpoint title_from (after_letter : bool) (l : list ascii) : list ascii :=
  match l with
  | [] => []
  | c :: l' =>
      if is_lower c || is_upper c
      then (if after_letter then to_lower c else to_upper c)
             :: title_from true l'
      else c :: title_from false l'
  end.
Definition title (s : string) : string := str (title_from false (chars s)).

(** [s.split(sep)] for a one-character separator. *)
Fixpoint split_on (sep : ascii) (cur : list ascii) (l : list ascii)
  : list string :=
  match l with
  | [] => [str (rev cur)]
  | c :: l' =>
      if Ascii.eqb c sep then str (rev cur) :: split_on sep [] l'
      else split_on sep (c :: cur) l'
  end.
Definition split (s : string) (sep : ascii) : list string :=
  split_on sep [] (chars s).

(** [s.endswith(ext)] *)
Definition endswith (s ext : string) : bool :=
  let n := String.length s in
  let m := String.length ext in
  (m <=? n)%nat && String.eqb (substring (n - m) m s) ext.

(** [s[:-n]] for [n > 0] *)
Definition drop_last (s : string) (n : nat) : string :=
  substring 0 (String.length s - n) s.

(** [os.path.split(p)] of [posixpath]: the text up to the last slash,
    without trailing slashes unless it consists of slashes only, and the
    text after the last slash. *)
Fixpoint rsplit_sep (l : list ascii) : option (list ascii * list ascii) :=
  match l with
  | [] => None
  | c :: l' =>
      match rsplit_sep l' with
      | Some (h, t) => Some (c :: h, t)
      | None => if Ascii.eqb c "/" then Some ([c], l') else None
      end
  end.

Fixpoint rstrip_sep_rev (r : list ascii) : list ascii :=
  match r with
  | c :: r' => if Ascii.eqb c "/" then rstrip_sep_rev r' else r
  | [] => []
  end.

Definition os_path_split (p : string) : string * string :=
  match rsplit_sep (chars p) with
  | None => ("", p)
  | Some (head, tail) =>
      let head' := if forallb (fun c => Ascii.eqb c "/") head then head
                   else rev (rstrip_sep_rev (rev head)) in
      (str head', str tail)
  end.

(** A URL parser to instantiate [urlparse(...).path] with, after
    [urllib.parse] of Python 3: scheme, network location, fragment, query
    and parameters are split off in that order.  The entity code below takes
    the parser as a parameter. *)
Module urllib.

Definition scheme_char (c : ascii) : bool :=
  is_lower c || is_upper c || is_digit c
  || Ascii.eqb c "+" || Ascii.eqb c "-" || Ascii.eqb c ".".

(** The text before the first character satisfying [p], and the text from
    that character on. *)
Fixpoint break_at (p : ascii -> bool) (l : list ascii)
  : list ascii * list ascii :=
  match l with
  | [] => ([], [])
  | c :: l' =>
      if p c then ([], l)
      else let '(a, b) := break_at p l' in (c :: a, b)
  end.

Definition uses_params : list string :=
  [""; "ftp"; "hdl"; "prospero"; "http"; "imap"; "https"; "shttp"; "rtsp";
   "rtspu"; "sip"; "sips"; "mms"; "sftp"; "tel"].

Definition split_scheme (url : list ascii) : string * list ascii :=
  match break_at (fun c => Ascii.eqb c ":") url with
  | (_, []) => ("", url)
  | ([], _) => ("", url)
  | (pre, _ :: rest) =>
      if forallb scheme_char pre
         && (match rest with [] => true | _ => false end
             || negb (forallb is_digit rest))
      then (lower (str pre), rest)
      else ("", url)
  end.

Definition split_netloc (url : list ascii)
  : result (list ascii * list ascii) :=
  match url with
  | "/"%char :: "/"%char :: rest =>
      let '(netloc, url') :=
        break_at (fun c => Ascii.eqb c "/" || Ascii.eqb c "?"
                           || Ascii.eqb c "#") rest in
      let has c := existsb (Ascii.eqb c) netloc in
      if xorb (has "["%char) (has "]"%char)
      then Raise (ValueError (Python "Invalid IPv6 URL"))
      else Ok (netloc, url')
  | _ => Ok ([], url)
  end.

Definition split_params (url : list ascii) : list ascii :=
  match rsplit_sep url with
  | Some (head, tail) =>
      head ++ fst (break_at (fun c => Ascii.eqb c ";") tail)
  | None => fst (break_at (fun c => Ascii.eqb c ";") url)
  end.

Definition urlparse_path (url : string) : result string :=
  let '(scheme, url) := split_scheme (chars url) in
  r <- split_netloc url ;;
  let url := snd r in
  let url := fst (break_at (fun c => Ascii.eqb c "#") url) in
  let url := fst (break_at (fun c => Ascii.eqb c "?") url) in
  let url := if mem_str scheme uses_params then split_params url else url in
  Ok (str url).

End urllib.

(** ** Module-level helpers *)

Definition _if_none (x y : value) : value :=
  match x with VNone => y | _ => x end.

Definition is_list_of (x : value) (typ : pytype) : bool :=
  match x with
  | VList l => forallb (fun i => isinstance i typ) l
  | _ => false
  end.

Definition is_dict_of (x : value) (ktyp vtyp : pytype) : bool :=
  match x with
  | VDict d =>
      forallb (fun k => isinstance k ktyp) (keys d)
      && forallb (fun v => isinstance v vtyp) (values d)
  | _ => false
  end.

(** ** Calls with keyword arguments *)

(** A call that unpacks a dict of keyword arguments binds each parameter
    of the callee to the argument of its name or to its default; a keyword
    that names no parameter, or a parameter left without a value, is a
    [TypeError] of the interpreter. *)
Definition check_keywords (params : list string)
    (kwargs : list (value * value)) : result unit :=
  if forallb (fun k => in_strings k params) (keys kwargs) then Ok tt
  else Raise (TypeError (Python "unexpected keyword argument")).

Definition arg (kwargs : list (value * value)) (k : string)
    (default : option value) : result value :=
  match assoc k kwargs, default with
  | Some v, _ => Ok v
  | None, Some v => Ok v
  | None, None => Raise (TypeError (Python "missing required argument"))
  end.

(** [x.items()], [dict(x)] and [list(x)] for the map and repeated fields
    of a message; on other objects they are outside the model. *)
Definition items (x : value) : result (list (value * value)) :=
  match x with
  | VDict d => Ok d
  | _ => Raise (Unmodelled "items of an object that is no map")
  end.

Definition dict_of (x : value) : result value :=
  match x with
  | VDict _ => Ok x
  | _ => Raise (Unmodelled "dict of an object that is no map")
  end.

Definition list_of (x : value) : result value :=
  match x with
  | VList _ => Ok x
  | _ => Raise (Unmodelled "list of an object that is no sequence")
  end.

(** [dict(f(x) for x in l)]: each pair is inserted as it is produced. *)
Fixpoint dict_from (f : value -> result (value * value))
    (acc : list (value * value)) (l : list value)
  : result (list (value * value)) :=
  match l with
  | [] => Ok acc
  | x :: l' =>
      p <- f x ;;
      if hashable (fst p) then dict_from f (setitem acc (fst p) (snd p)) l'
      else Raise (TypeError (Python "unhashable type"))
  end.

(** [val[k]] for a string [k] *)
Definition subscript (val : value) (k : string) : result value :=
  match val with
  | VDict d => getitem d k
  | _ => Raise (TypeError (Python "object is not subscriptable by a str"))
  end.

(** ** The wire messages *)

(** Modelled from the spec: the message types of the [proto] module, which
    is not part of the sources.  Each entity has a message type of its
    name whose fields correspond one to one to the fields of the entity;
    enum fields hold integer codes; integer fields are bounded.  A message
    is built from keyword arguments, where [None] leaves a field at its
    default, and holds for every field a value of the field's type. *)
Module proto.

Inductive field_type :=
| int_field
| string_field
| float_field
| enum_field (names : list string)
| message_field (c : class)
| repeated_string
| map_string_string
| map_string_message (c : class).

(** What the spec leaves open: the range of each integer field and the
    names of the two enums of the application report. *)
Record declarations := {
  int_fits : class -> string -> Z -> bool;
  ApplicationState_Type : list string;
  FinalStatus_Type : list string
}.

Definition File_Type : list string := ["FILE"; "ARCHIVE"].
Definition File_Visibility : list string :=
  ["APPLICATION"; "PUBLIC"; "PRIVATE"].

Section Messages.

Variable P : declarations.

Definition descriptor (c : class) : list field_type :=
  match c with
  | cResources => [int_field; int_field]
  | cFile => [string_field; enum_field File_Type;
              enum_field File_Visibility; int_field; int_field]
  | cService => [repeated_string; message_field cResources; int_field;
                 map_string_message cFile; map_string_string;
                 repeated_string]
  | cJob => [string_field; string_field; map_string_message cService]
  | cResourceUsageReport =>
      [int_field; int_field; int_field; message_field cResources;
       message_field cResources; message_field cResources]
  | cApplicationReport =>
      [string_field; string_field; string_field; string_field;
       repeated_string; string_field; int_field; string_field;
       enum_field (ApplicationState_Type P);
       enum_field (FinalStatus_Type P);
       float_field; message_field cResourceUsageReport; string_field;
       int_field; int_field]
  end.

(** The message with every field at its default. *)
Definition default_Resources : value := VMsg cResources [VInt 0; VInt 0].
Definition default_ResourceUsageReport : value :=
  VMsg cResourceUsageReport
    [VInt 0; VInt 0; VInt 0;
     default_Resources; default_Resources; default_Resources].

Definition default_message (c : class) : value :=
  match c with
  | cResources => default_Resources
  | cFile => VMsg cFile [VStr ""; VInt 0; VInt 0; VInt 0; VInt 0]
  | cService =>
      VMsg cService [VList []; default_Resources; VInt 0; VDict [];
                     VDict []; VList []]
  | cJob => VMsg cJob [VStr ""; VStr ""; VDict []]
  | cResourceUsageReport => default_ResourceUsageReport
  | cApplicationReport =>
      VMsg cApplicationReport
        [VStr ""; VStr ""; VStr ""; VStr ""; VList []; VStr ""; VInt 0;
         VStr ""; VInt 0; VInt 0; VFloat (S754_zero false);
         default_ResourceUsageReport; VStr ""; VInt 0; VInt 0]
  end.

Definition is_message (c : class) (v : value) : bool :=
  match v with VMsg c' _ => class_eqb c c' | _ => false end.

Definition wrong_type : exn := TypeError (Python "wrong type for the field").

(** The value a field of type [t] named [k] takes from the argument [v]. *)
Definition set_field (c : class) (k : string) (t : field_type) (v : value)
  : result value :=
  match t with
  | int_field =>
      let store (z : Z) :=
        if int_fits P c k z then Ok (VInt z)
        else Raise (ValueError (Python "Value out of range")) in
      match v with
      | VNone => Ok (VInt 0)
      | VInt z => store z
      | VBool b => store (Z_of_bool b)
      | _ => Raise wrong_type
      end
  | string_field =>
      match v with
      | VNone => Ok (VStr "")
      | VStr _ => Ok v
      | _ => Raise wrong_type
      end
  | float_field =>
      match v with
      | VNone => Ok (VFloat (S754_zero false))
      | VFloat _ => Ok v
      | VInt z => Ok (VFloat (binary_normalize prec emax z 0 false))
      | VBool b =>
          Ok (VFloat (binary_normalize prec emax (Z_of_bool b) 0 false))
      | _ => Raise wrong_type
      end
  | enum_field names =>
      match v with
      | VNone => Ok (VInt 0)
      | VStr s =>
          match index_of s names with
          | Some i => Ok (VInt (Z.of_nat i))
          | None => Raise (ValueError (Python "unknown enum label"))
          end
      | VInt z =>
          if (0 <=? z) && (z <? Z.of_nat (List.length names)) then Ok v
          else Raise (ValueError (Python "unknown enum value"))
      | _ => Raise wrong_type
      end
  | message_field c' =>
      match v with
      | VNone => Ok (default_message c')
      | _ => if is_message c' v then Ok v else Raise wrong_type
      end
  | repeated_string =>
      match v with
      | VNone => Ok (VList [])
      | _ => if is_list_of v Tstr then Ok v else Raise wrong_type
      end
  | map_string_string =>
      match v with
      | VNone => Ok (VDict [])
      | _ => if is_dict_of v Tstr Tstr then Ok v else Raise wrong_type
      end
  | map_string_message c' =>
      match v with
      | VNone => Ok (VDict [])
      | VDict d =>
          if forallb (fun k => isinstance k Tstr) (keys d)
             && forallb (is_message c') (values d)
          then Ok v else Raise wrong_type
      | _ => Raise wrong_type
      end
  end.

(** The call of [_protobuf_cls] with keyword arguments, for the message
    type of the class [c]. *)
Definition new_message (c : class) (kwargs : list (value * value))
  : result value :=
  if forallb (fun k => in_strings k (__slots__ c)) (keys kwargs) then
    fields <- map_result
                (fun kt => set_field c (fst kt) (snd kt)
                             (dict_get kwargs (fst kt) VNone))
                (combine (__slots__ c) (descriptor c)) ;;
    Ok (VMsg c fields)
  else Raise (ValueError (Python "Protocol message has no such field")).

(** [Enum.Name(code)] *)
Definition Name (names : list string) (code : value) : result value :=
  match code with
  | VInt z =>
      if 0 <=? z then
        match nth_error names (Z.to_nat z) with
        | Some s => Ok (VStr s)
        | None => Raise (ValueError (Python "Enum has no name for value"))
        end
      else Raise (ValueError (Python "Enum has no name for value"))
  | _ => Raise (TypeError (Python "Enum has no name for value"))
  end.

End Messages.

End proto.

(** ** The [Base] class *)

Module Base.

(** [_check_keys(cls, obj, keys)]; an empty [keys] stands for the default
    [None].  The [extra] keys are listed in the order of [obj]. *)
Definition _check_keys (cls : class) (obj : value) (keys : list string)
  : result unit :=
  let keys := match keys with [] => __slots__ cls | _ => keys end in
  match obj with
  | VDict d =>
      let extra := filter (fun k => negb (in_strings k keys)) (map fst d) in
      match extra with
      | [] => Ok tt
      | _ => Raise (ValueError (Unknown_extra_keys_for (class_name cls) extra))
      end
  | _ => Raise (TypeError (Expected_mapping_for (class_name cls)))
  end.

Definition _check_required (cls : class) (self : value) : result unit :=
  for_each (__slots__ cls) (fun k =>
    v <- getattr self k ;;
    match v with
    | VRequired => Raise (TypeError (is_required_but_wasnt_provided k))
    | _ => Ok tt
    end).

Definition _check_in_set (self : value) (field : string) (vals : list string)
  : result unit :=
  v <- getattr self field ;;
  if negb (hashable v) then Raise (TypeError (Python "unhashable type"))
  else if in_strings v vals then Ok tt
       else Raise (ValueError (must_be_in field vals)).

Definition _check_is_type (self : value) (field : string) (type : pytype)
    (nullable : bool) : result unit :=
  val <- getattr self field ;;
  if negb (isinstance val type || (nullable && is_None val))
  then Raise (TypeError
                (must_be_an_instance_of field (type_name type) nullable))
  else Ok tt.

Definition _check_is_list_of (self : value) (field : string) (type : pytype)
    (nullable : bool) : result unit :=
  val <- getattr self field ;;
  if negb (is_list_of val type || (nullable && is_None val))
  then Raise (TypeError (must_be_a_list_of field (type_name type) nullable))
  else Ok tt.

Definition _check_is_dict_of (self : value) (field : string) (key val : pytype)
    (nullable : bool) : result unit :=
  attr <- getattr self field ;;
  if negb (is_dict_of attr key val || (nullable && is_None attr))
  then Raise (TypeError (must_be_a_dict_of field (type_name key)
                           (type_name val) nullable))
  else Ok tt.

(** [x < min] is reached only when [x] passed the [int] check or is
    [None]. *)
Definition _check_is_bounded_int (self : value) (field : string) (min : Z)
    (nullable : bool) : result unit :=
  x <- getattr self field ;;
  _check_is_type self field Tint nullable ;;;
  match x with
  | VInt z => if z <? min then Raise (ValueError (must_be_ge field min))
              else Ok tt
  | VBool b => if Z_of_bool b <? min
               then Raise (ValueError (must_be_ge field min))
               else Ok tt
  | _ => Ok tt
  end.

(** [from_dict(cls, obj)], where [init] is the constructor of [cls]. *)
Definition from_dict (cls : class)
    (init : list (value * value) -> result value) (obj : value)
  : result value :=
  _check_keys cls obj [] ;;;
  match obj with
  | VDict d => init d
  | _ => Raise (TypeError (Python "argument after ** must be a mapping"))
  end.

(** [from_protobuf(cls, msg)]: [_protobuf_cls] is the message type named
    after the class. *)
Definition from_protobuf (cls : class)
    (init : list (value * value) -> result value) (msg : value)
  : result value :=
  match msg with
  | VMsg c _ =>
      if class_eqb c cls then
        kwargs <- map_result (fun k => v <- getattr msg k ;; Ok (VStr k, v))
                    (__slots__ cls) ;;
        init kwargs
      else Raise (TypeError (Expected_message_of_type (class_name cls)))
  | _ => Raise (TypeError (Expected_message_of_type (class_name cls)))
  end.

End Base.

(** ** [Resources] *)

Module Resources.

Definition _validate (self : value) (is_request : bool) : result unit :=
  let min := if is_request then 1 else 0 in
  Base._check_is_bounded_int self "vcores" min false ;;;
  Base._check_is_bounded_int self "memory" min false.

(** [__init__(self, memory=required, vcores=required)] *)
Definition __init__ (kwargs : list (value * value)) : result value :=
  check_keywords ["memory"; "vcores"] kwargs ;;;
  memory <- arg kwargs "memory" (Some VRequired) ;;
  vcores <- arg kwargs "vcores" (Some VRequired) ;;
  let self := VObj cResources [memory; vcores] in
  Base._check_required cResources self ;;;
  _validate self false ;;;
  Ok self.

Definition from_dict := Base.from_dict cResources __init__.
Definition from_protobuf := Base.from_protobuf cResources __init__.

End Resources.

(** ** [File] *)

Module File.

Definition _validate (self : value) : result unit :=
  Base._check_is_type self "source" Tstr false ;;;
  Base._check_in_set self "type" ["FILE"; "ARCHIVE"] ;;;
  Base._check_in_set self "visibility" ["APPLICATION"; "PUBLIC"; "PRIVATE"] ;;;
  Base._check_is_bounded_int self "size" 0 false ;;;
  Base._check_is_bounded_int self "timestamp" 0 false.

(** [__init__(self, source=required, type='FILE', visibility='APPLICATION',
    size=0, timestamp=0)] *)
Definition __init__ (kwargs : list (value * value)) : result value :=
  check_keywords ["source"; "type"; "visibility"; "size"; "timestamp"]
    kwargs ;;;
  source <- arg kwargs "source" (Some VRequired) ;;
  type <- arg kwargs "type" (Some (VStr "FILE")) ;;
  visibility <- arg kwargs "visibility" (Some (VStr "APPLICATION")) ;;
  size <- arg kwargs "size" (Some (VInt 0)) ;;
  timestamp <- arg kwargs "timestamp" (Some (VInt 0)) ;;
  let self := VObj cFile [source; type; visibility; size; timestamp] in
  Base._check_required cFile self ;;;
  _validate self ;;;
  Ok self.

Definition from_dict := Base.from_dict cFile __init__.

Definition from_protobuf (obj : value) : result value :=
  if negb (proto.is_message cFile obj)
  then Raise (TypeError (Expected_message_of_type (class_name cFile)))
  else
    source <- getattr obj "source" ;;
    type <- (c <- getattr obj "type" ;; proto.Name proto.File_Type c) ;;
    visibility <- (c <- getattr obj "visibility" ;;
                   proto.Name proto.File_Visibility c) ;;
    size <- getattr obj "size" ;;
    timestamp <- getattr obj "timestamp" ;;
    __init__ [(VStr "source", source); (VStr "type", type);
              (VStr "visibility", visibility); (VStr "size", size);
              (VStr "timestamp", timestamp)].

Section ParseFileSpec.

(** [urlparse(source).path], imported from the [compatibility] module. *)
Variable urlparse_path : string -> result string.

(** The loop over the archive extensions. *)
Fixpoint strip_ext (name : string) (exts : list string) : string :=
  match exts with
  | [] => name
  | ext :: exts' =>
      if endswith name ext then drop_last name (String.length ext)
      else strip_ext name exts'
  end.

(** [_parse_file_spec(cls, obj)] returns the pair [(dest, resource)].  The
    test [name is None] is never true of the second component of
    [os.path.split]. *)
Definition _parse_file_spec (obj : value) : result (value * value) :=
  match obj with
  | VDict d =>
      type <- (if mem_key "file" d then
                 if mem_key "archive" d
                 then Raise (ValueError Both_archive_and_file_specified)
                 else Ok (Some "file")
               else if mem_key "archive" d then Ok (Some "archive")
                    else Ok None) ;;
      st <- match type with
            | None =>
                Base._check_keys cFile obj (__slots__ cFile ++ ["dest"]) ;;;
                source <- getitem d "source" ;;
                match dict_get d "type" (VStr "FILE") with
                | VStr t => Ok (source, upper t)
                | _ => Raise (AttributeError "upper")
                end
            | Some type =>
                Base._check_keys cFile obj
                  ["visibility"; "size"; "timestamp"; type; "dest"] ;;;
                source <- getitem d type ;;
                Ok (source, upper type)
            end ;;
      let '(source, type) := st in
      sd <- (if negb (mem_key "dest" d) then
               match source with
               | VStr s =>
                   path <- urlparse_path s ;;
                   let '(base, name) := os_path_split path in
                   let dest :=
                     if String.eqb type "ARCHIVE"
                     then strip_ext name [".zip"; ".tar.gz"; ".tgz"]
                     else name in
                   Ok (VStr path, VStr dest)
               | _ => Raise (Unmodelled "urlparse of an object that is no str")
               end
             else dest <- getitem d "dest" ;; Ok (source, dest)) ;;
      let '(source, dest) := sd in
      let visibility := dict_get d "visibility" (VStr "APPLICATION") in
      let size := dict_get d "size" (VInt 0) in
      let timestamp := dict_get d "timestamp" (VInt 0) in
      resource <- __init__ [(VStr "source", source); (VStr "type", VStr type);
                            (VStr "visibility", visibility);
                            (VStr "size", size);
                            (VStr "timestamp", timestamp)] ;;
      Ok (dest, resource)
  | _ => Raise (TypeError (Expected_mapping_for "File"))
  end.

End ParseFileSpec.

End File.

(** ** [Service] *)

Module Service.

Definition _validate (self : value) : result unit :=
  Base._check_is_bounded_int self "instances" 0 false ;;;
  Base._check_is_type self "resources" (Tclass cResources) false ;;;
  resources <- getattr self "resources" ;;
  Resources._validate resources true ;;;
  Base._check_is_dict_of self "files" Tstr (Tclass cFile) false ;;;
  files <- getattr self "files" ;;
  for_each (match files with VDict d => values d | _ => [] end)
    File._validate ;;;
  Base._check_is_dict_of self "env" Tstr Tstr false ;;;
  Base._check_is_list_of self "commands" Tstr false ;;;
  commands <- getattr self "commands" ;;
  (if negb (truthy commands)
   then Raise (ValueError There_must_be_at_least_one_command)
   else Ok tt) ;;;
  Base._check_is_list_of self "depends" Tstr false.

(** [__init__(self, commands=required, resources=required, instances=1,
    files=None, env=None, depends=None)] *)
Definition __init__ (kwargs : list (value * value)) : result value :=
  check_keywords ["commands"; "resources"; "instances"; "files"; "env";
                  "depends"] kwargs ;;;
  commands <- arg kwargs "commands" (Some VRequired) ;;
  resources <- arg kwargs "resources" (Some VRequired) ;;
  instances <- arg kwargs "instances" (Some (VInt 1)) ;;
  files <- arg kwargs "files" (Some VNone) ;;
  env <- arg kwargs "env" (Some VNone) ;;
  depends <- arg kwargs "depends" (Some VNone) ;;
  let self := VObj cService [commands; resources; instances;
                             _if_none files (VDict []);
                             _if_none env (VDict []);
                             _if_none depends (VList [])] in
  Base._check_required cService self ;;;
  _validate self ;;;
  Ok self.

Section FromDict.

Variable urlparse_path : string -> result string.

Definition from_dict (obj : value) : result value :=
  Base._check_keys cService obj (__slots__ cService) ;;;
  match obj with
  | VDict d =>
      let resources := dict_get d "resources" VNone in
      resources <- (if negb (is_None resources)
                    then Resources.from_dict resources
                    else Ok resources) ;;
      let files := dict_get d "files" VNone in
      files <- match files with
               | VList l =>
                   fs <- dict_from (File._parse_file_spec urlparse_path)
                           [] l ;;
                   Ok (VDict fs)
               | VDict fd =>
                   fs <- map_values File.from_dict fd ;; Ok (VDict fs)
               | _ => Ok files
               end ;;
      let kwargs := [(VStr "resources", resources);
                     (VStr "files", files);
                     (VStr "env", dict_get d "env" VNone);
                     (VStr "commands", dict_get d "commands" VNone);
                     (VStr "depends", dict_get d "depends" VNone)] in
      kwargs <- (if mem_key "instances" d
                 then v <- getitem d "instances" ;;
                      Ok (setitem kwargs (VStr "instances") v)
                 else Ok kwargs) ;;
      __init__ kwargs
  | _ => Raise (TypeError (Expected_mapping_for (class_name cService)))
  end.

End FromDict.

Definition from_protobuf (obj : value) : result value :=
  resources <- (m <- getattr obj "resources" ;; Resources.from_protobuf m) ;;
  files <- (m <- getattr obj "files" ;; d <- items m ;;
            map_values File.from_protobuf d) ;;
  instances <- getattr obj "instances" ;;
  env <- (m <- getattr obj "env" ;; dict_of m) ;;
  commands <- (m <- getattr obj "commands" ;; list_of m) ;;
  depends <- (m <- getattr obj "depends" ;; list_of m) ;;
  __init__ [(VStr "instances", instances); (VStr "resources", resources);
            (VStr "files", VDict files); (VStr "env", env);
            (VStr "commands", commands); (VStr "depends", depends)].

End Service.

(** ** [Job] *)

Module Job.

Definition _validate (self : value) : result unit :=
  Base._check_is_type self "name" Tstr false ;;;
  Base._check_is_type self "queue" Tstr true ;;;
  Base._check_is_dict_of self "services" Tstr (Tclass cService) false ;;;
  services <- getattr self "services" ;;
  (if negb (truthy services)
   then Raise (ValueError There_must_be_at_least_one_service)
   else Ok tt) ;;;
  for_each (match services with VDict d => values d | _ => [] end)
    Service._validate.

(** [__init__(self, services=required, name='skein', queue='')] *)
Definition __init__ (kwargs : list (value * value)) : result value :=
  check_keywords ["services"; "name"; "queue"] kwargs ;;;
  services <- arg kwargs "services" (Some VRequired) ;;
  name <- arg kwargs "name" (Some (VStr "skein")) ;;
  queue <- arg kwargs "queue" (Some (VStr "")) ;;
  let self := VObj cJob [name; queue; services] in
  Base._check_required cJob self ;;;
  _validate self ;;;
  Ok self.

Section FromDict.

Variable urlparse_path : string -> result string.

Definition from_dict (obj : value) : result value :=
  Base._check_keys cJob obj [] ;;;
  match obj with
  | VDict d =>
      let name := dict_get d "name" VNone in
      let queue := dict_get d "queue" VNone in
      let services := dict_get d "services" VNone in
      services <- match services with
                  | VDict sd =>
                      ss <- map_values (Service.from_dict urlparse_path) sd ;;
                      Ok (VDict ss)
                  | _ => Ok services
                  end ;;
      __init__ [(VStr "name", name); (VStr "queue", queue);
                (VStr "services", services)]
  | _ => Raise (TypeError (Expected_mapping_for (class_name cJob)))
  end.

End FromDict.

Definition from_protobuf (obj : value) : result value :=
  services <- (m <- getattr obj "services" ;; d <- items m ;;
               map_values Service.from_protobuf d) ;;
  name <- getattr obj "name" ;;
  queue <- getattr obj "queue" ;;
  __init__ [(VStr "name", name); (VStr "queue", queue);
            (VStr "services", VDict services)].

End Job.

(** ** Timestamps *)

(** The range of [datetime]: 0001-01-01T00:00:00 to
    9999-12-31T23:59:59.999999, in microseconds since [_EPOCH]. *)
Definition datetime_min : Z := - 62135596800 * 1000000.
Definition datetime_max : Z := 253402300800 * 1000000 - 1.

(** [_EPOCH + timedelta(milliseconds=x)]: an [int] gives the instant [x]
    milliseconds after the epoch when that is a [datetime], else the sum
    overflows.  A [float] number of milliseconds is accepted by [timedelta]
    and is outside this model. *)
Definition _datetime_from_millis (x : value) : result value :=
  let from_int (z : Z) :=
    if (datetime_min <=? z * 1000) && (z * 1000 <=? datetime_max)
    then Ok (VDatetime (z * 1000))
    else Raise (OverflowError "date value out of range") in
  match x with
  | VInt z => from_int z
  | VBool b => from_int (Z_of_bool b)
  | VFloat _ => Raise (Unmodelled "timedelta of a float")
  | _ => Raise (TypeError (Python "unsupported type for timedelta"))
  end.

(** ** The report classes *)

Definition _to_camel_case (x : string) : string :=
  match split x "_" with
  | [] => ""
  | p0 :: parts => p0 ++ String.concat "" (map title parts)
  end.

Module ResourceUsageReport.

Definition _keys : list string :=
  map _to_camel_case (__slots__ cResourceUsageReport).

Definition _validate (self : value) : result unit :=
  for_each ["memory_seconds"; "vcore_seconds"; "num_used_containers"]
    (fun k => Base._check_is_bounded_int self k 0 false) ;;;
  for_each ["needed_resources"; "reserved_resources"; "used_resources"]
    (fun k =>
       Base._check_is_type self k (Tclass cResources) false ;;;
       r <- getattr self k ;;
       Resources._validate r false).

(** [__init__(self, memory_seconds, vcore_seconds, num_used_containers,
    needed_resources, reserved_resources, used_resources)] *)
Definition __init__ (kwargs : list (value * value)) : result value :=
  check_keywords (__slots__ cResourceUsageReport) kwargs ;;;
  memory_seconds <- arg kwargs "memory_seconds" None ;;
  vcore_seconds <- arg kwargs "vcore_seconds" None ;;
  num_used_containers <- arg kwargs "num_used_containers" None ;;
  needed_resources <- arg kwargs "needed_resources" None ;;
  reserved_resources <- arg kwargs "reserved_resources" None ;;
  used_resources <- arg kwargs "used_resources" None ;;
  let self := VObj cResourceUsageReport
                [memory_seconds; vcore_seconds; num_used_containers;
                 needed_resources; reserved_resources; used_resources] in
  _validate self ;;;
  Ok self.

(** One turn of the loop over the three [Resources] fields of [from_dict]. *)
Definition clamped_resources (d : list (value * value)) (k2 : string)
  : result value :=
  val <- getitem d k2 ;;
  vcores <- (v <- subscript val "vcores" ;; max0 v) ;;
  memory <- (v <- subscript val "memory" ;; max0 v) ;;
  Resources.__init__ [(VStr "vcores", vcores); (VStr "memory", memory)].

Definition from_dict (obj : value) : result value :=
  Base._check_keys cResourceUsageReport obj _keys ;;;
  match obj with
  | VDict d =>
      memory_seconds <- getitem d "memorySeconds" ;;
      vcore_seconds <- getitem d "vcoreSeconds" ;;
      num_used_containers <-
        (v <- getitem d "numUsedContainers" ;; max0 v) ;;
      needed <- clamped_resources d "neededResources" ;;
      reserved <- clamped_resources d "reservedResources" ;;
      used <- clamped_resources d "usedResources" ;;
      __init__ [(VStr "memory_seconds", memory_seconds);
                (VStr "vcore_seconds", vcore_seconds);
                (VStr "num_used_containers", num_used_containers);
                (VStr "needed_resources", needed);
                (VStr "reserved_resources", reserved);
                (VStr "used_resources", used)]
  | _ => Raise (TypeError
                  (Expected_mapping_for (class_name cResourceUsageReport)))
  end.

Definition from_protobuf (obj : value) : result value :=
  memory_seconds <- getattr obj "memory_seconds" ;;
  vcore_seconds <- getattr obj "vcore_seconds" ;;
  num_used_containers <- getattr obj "num_used_containers" ;;
  needed <- (m <- getattr obj "needed_resources" ;;
             Resources.from_protobuf m) ;;
  reserved <- (m <- getattr obj "reserved_resources" ;;
               Resources.from_protobuf m) ;;
  used <- (m <- getattr obj "used_resources" ;; Resources.from_protobuf m) ;;
  __init__ [(VStr "memory_seconds", memory_seconds);
            (VStr "vcore_seconds", vcore_seconds);
            (VStr "num_used_containers", num_used_containers);
            (VStr "needed_resources", needed);
            (VStr "reserved_resources", reserved);
            (VStr "used_resources", used)].

End ResourceUsageReport.

Module ApplicationReport.

Definition _keys : list string :=
  map _to_camel_case (__slots__ cApplicationReport).

Definition _validate (self : value) : result unit :=
  Base._check_is_type self "id" Tstr false ;;;
  Base._check_is_type self "name" Tstr false ;;;
  Base._check_is_type self "user" Tstr false ;;;
  Base._check_is_type self "queue" Tstr false ;;;
  Base._check_is_list_of self "tags" Tstr false ;;;
  Base._check_is_type self "host" Tstr true ;;;
  Base._check_is_type self "port" Tint true ;;;
  Base._check_is_type self "tracking_url" Tstr true ;;;
  Base._check_is_type self "state" Tstr false ;;;
  Base._check_is_type self "final_status" Tstr false ;;;
  Base._check_is_type self "progress" Tfloat false ;;;
  Base._check_is_type self "usage" (Tclass cResourceUsageReport) false ;;;
  usage <- getattr self "usage" ;;
  ResourceUsageReport._validate usage ;;;
  Base._check_is_type self "diagnostics" Tstr true ;;;
  Base._check_is_type self "start_time" Tdatetime false ;;;
  Base._check_is_type self "finish_time" Tdatetime false.

(** [__init__(self, id, name, user, queue, tags, host, port, tracking_url,
    state, final_status, progress, usage, diagnostics, start_time,
    finish_time)] *)
Definition __init__ (kwargs : list (value * value)) : result value :=
  check_keywords (__slots__ cApplicationReport) kwargs ;;;
  args <- map_result (fun k => arg kwargs k None)
            (__slots__ cApplicationReport) ;;
  let self := VObj cApplicationReport args in
  _validate self ;;;
  Ok self.

Definition from_dict (obj : value) : result value :=
  Base._check_keys cApplicationReport obj _keys ;;;
  match obj with
  | VDict d =>
      let kwargs :=
        map (fun kk2 => (VStr (fst kk2), dict_get d (snd kk2) VNone))
          (combine (__slots__ cApplicationReport) _keys) in
      usage <- (u <- getitem kwargs "usage" ;;
                ResourceUsageReport.from_dict u) ;;
      let kwargs := setitem kwargs (VStr "usage") usage in
      start_time <- (t <- getitem kwargs "start_time" ;;
                     _datetime_from_millis t) ;;
      let kwargs := setitem kwargs (VStr "start_time") start_time in
      finish_time <- (t <- getitem kwargs "finish_time" ;;
                      _datetime_from_millis t) ;;
      let kwargs := setitem kwargs (VStr "finish_time") finish_time in
      __init__ kwargs
  | _ => Raise (TypeError
                  (Expected_mapping_for (class_name cApplicationReport)))
  end.

Section FromProtobuf.

Variable P : proto.declarations.

Definition from_protobuf (obj : value) : result value :=
  id <- getattr obj "id" ;;
  name <- getattr obj "name" ;;
  user <- getattr obj "user" ;;
  queue <- getattr obj "queue" ;;
  tags <- (m <- getattr obj "tags" ;; list_of m) ;;
  host <- getattr obj "host" ;;
  port <- getattr obj "port" ;;
  tracking_url <- getattr obj "tracking_url" ;;
  state <- (c <- getattr obj "state" ;;
            proto.Name (proto.ApplicationState_Type P) c) ;;
  final_status <- (c <- getattr obj "final_status" ;;
                   proto.Name (proto.FinalStatus_Type P) c) ;;
  progress <- getattr obj "progress" ;;
  usage <- (m <- getattr obj "usage" ;;
            ResourceUsageReport.from_protobuf m) ;;
  diagnostics <- getattr obj "diagnostics" ;;
  start_time <- (t <- getattr obj "start_time" ;; _datetime_from_millis t) ;;
  finish_time <- (t <- getattr obj "finish_time" ;;
                  _datetime_from_millis t) ;;
  __init__ [(VStr "id", id); (VStr "name", name); (VStr "user", user);
            (VStr "queue", queue); (VStr "tags", tags); (VStr "host", host);
            (VStr "port", port); (VStr "tracking_url", tracking_url);
            (VStr "state", state); (VStr "final_status", final_status);
            (VStr "progress", progress); (VStr "usage", usage);
            (VStr "diagnostics", diagnostics);
            (VStr "start_time", start_time);
            (VStr "finish_time", finish_time)].

End FromProtobuf.

End ApplicationReport.

(** Dispatch of [self._validate()] on the class of [self]. *)
Definition _validate (self : value) : result unit :=
  match self with
  | VObj cResources _ => Resources._validate self false
  | VObj cFile _ => File._validate self
  | VObj cService _ => Service._validate self
  | VObj cJob _ => Job._validate self
  | VObj cResourceUsageReport _ => ResourceUsageReport._validate self
  | VObj cApplicationReport _ => ApplicationReport._validate self
  | _ => Raise (AttributeError "_validate")
  end.


(** ** Conversion to the wire form *)

Definition float_of_Z (z : Z) : spec_float := binary_normalize prec emax z 0 false.

(** [int(f)]: truncation towards zero. *)
Definition int_of_float (f : spec_float) : result value :=
  match f with
  | S754_zero _ => Ok (VInt 0)
  | S754_finite s m e =>
      let a := if 0 <=? e then Z.pos m * 2 ^ e else Z.pos m / 2 ^ (- e) in
      Ok (VInt (if s then - a else a))
  | S754_infinity _ =>
      Raise (OverflowError "cannot convert float infinity to integer")
  | S754_nan => Raise (ValueError (Python "cannot convert float NaN to integer"))
  end.

Section ToProtobuf.

Variable P : proto.declarations.

(** The time zone of the host: [utcoffset s] is the offset of local time
    from UTC, in seconds, in force at the local wall-clock time [s] seconds
    after 1970-01-01T00:00:00. *)
Variable utcoffset : Z -> Z.

(** [x.timestamp()] of a naive [datetime]: the wall-clock time is taken as
    local time; the seconds since the epoch, an integer, and the
    microseconds divided by [1e6] are added as floats. *)
Definition timestamp (us : Z) : spec_float :=
  let seconds := us / 1000000 in
  let microsecond := us mod 1000000 in
  SFadd prec emax (float_of_Z (seconds - utcoffset seconds))
    (SFdiv prec emax (float_of_Z microsecond) (float_of_Z 1000000)).

(** [_convert(x, 'to_protobuf')]; the first branch is [x.to_protobuf()],
    which only the instances of [Base] have. *)
Fixpoint _convert (x : value) : result value :=
  match x with
  | VObj c attrs =>
      _validate x ;;;
      kwargs <- map_slots _convert VStr (__slots__ c) attrs ;;
      proto.new_message P c kwargs
  | VList l => l' <- map_result _convert l ;; Ok (VList l')
  | VDict d => d' <- map_values _convert d ;; Ok (VDict d')
  | VDatetime us =>
      int_of_float (SFmul prec emax (timestamp us) (float_of_Z 1000))
  | _ => Ok x
  end.

(** [Base.to_protobuf(self)] *)
Definition to_protobuf (self : value) : result value :=
  match self with
  | VObj c attrs =>
      _validate self ;;;
      kwargs <- map_slots _convert VStr (__slots__ c) attrs ;;
      proto.new_message P c kwargs
  | _ => Raise (AttributeError "to_protobuf")
  end.

(** [cls.from_protobuf(msg)], by class. *)
Definition from_protobuf (cls : class) (msg : value) : result value :=
  match cls with
  | cResources => Resources.from_protobuf msg
  | cFile => File.from_protobuf msg
  | cService => Service.from_protobuf msg
  | cJob => Job.from_protobuf msg
  | cResourceUsageReport => ResourceUsageReport.from_protobuf msg
  | cApplicationReport => ApplicationReport.from_protobuf P msg
  end.

End ToProtobuf.

(** [cls.from_dict(obj)], by class. *)
Definition from_dict (urlparse_path : string -> result string) (cls : class)
    (obj : value) : result value :=
  match cls with
  | cResources => Resources.from_dict obj
  | cFile => File.from_dict obj
  | cService => Service.from_dict urlparse_path obj
  | cJob => Job.from_dict urlparse_path obj
  | cResourceUsageReport => ResourceUsageReport.from_dict obj
  | cApplicationReport => ApplicationReport.from_dict obj
  end.


(** ** Conversion to a dict *)

Section ToDictLoop.

Variable f : value -> result value.
Variable skip_nulls : bool.

(** The loop of [Base.to_dict] over the slots, where [attrs] holds the
    contents of the slots in order: [out[k] = f(val)] unless [val] is
    [None] and nulls are skipped. *)
Fixpoint to_dict_slots (slots : list string) (attrs : list value)
    {struct attrs} : result (list (value * value)) :=
  match slots, attrs with
  | [], _ => Ok []
  | k :: _, [] => Raise (AttributeError k)
  | k :: slots', val :: attrs' =>
      if negb skip_nulls || negb (is_None val) then
        v' <- f val ;; out <- to_dict_slots slots' attrs' ;;
        Ok ((VStr k, v') :: out)
      else to_dict_slots slots' attrs'
  end.

End ToDictLoop.

Section ToDict.

Variable utcoffset : Z -> Z.
Variable skip_nulls : bool.

(** [_convert(x, 'to_dict', skip_nulls)]; the first branch is
    [x.to_dict(skip_nulls)], which only the instances of [Base] have. *)
Fixpoint _convert_to_dict (x : value) : result value :=
  match x with
  | VObj c attrs =>
      _validate x ;;;
      out <- to_dict_slots _convert_to_dict skip_nulls (__slots__ c) attrs ;;
      Ok (VDict out)
  | VList l => l' <- map_result _convert_to_dict l ;; Ok (VList l')
  | VDict d => d' <- map_values _convert_to_dict d ;; Ok (VDict d')
  | VDatetime us =>
      int_of_float (SFmul prec emax (timestamp utcoffset us) (float_of_Z 1000))
  | _ => Ok x
  end.

(** [Base.to_dict(self, skip_nulls)] *)
Definition to_dict (self : value) : result value :=
  match self with
  | VObj c attrs =>
      _validate self ;;;
      out <- to_dict_slots _convert_to_dict skip_nulls (__slots__ c) attrs ;;
      Ok (VDict out)
  | _ => Raise (AttributeError "to_dict")
  end.

End ToDict.

(** ** The file format *)

(** The text before and the text after the last occurrence of [ch]. *)
Fixpoint rsplit_on (ch : ascii) (l : list ascii)
  : option (list ascii * list ascii) :=
  match l with
  | [] => None
  | c :: l' =>
      match rsplit_on ch l' with
      | Some (h, t) => Some (c :: h, t)
      | None => if Ascii.eqb c ch then Some ([], l') else None
      end
  end.

(** [os.path.splitext(p)] of [posixpath]: the extension starts at the last
    dot of the file name, the text after the last slash, unless only dots
    come before it in the file name. *)
Definition os_path_splitext (p : string) : string * string :=
  let '(dir, name) := match rsplit_sep (chars p) with
                      | Some (head, tail) => (head, tail)
                      | None => ([], chars p)
                      end in
  match rsplit_on "." name with
  | Some (stem, ext) =>
      if forallb (fun c => Ascii.eqb c ".") stem then (p, "")
      else (str (dir ++ stem), str ("."%char :: ext))
  | None => (p, "")
  end.

(** The object passed as [format]: the string ['infer'] of the module
    itself, which is the default and which every interned constant of that
    spelling is, or another string object. *)
Inductive format_object :=
| the_infer_constant
| a_string (s : string).

(** The two [ValueError]s of [_infer_format]. *)
Inductive format_error :=
| Cant_infer_format_from_filepath (path : string)
| Unknown_file_format (format : string).

(** [_infer_format(path, format)]: the format returned, or the
    [ValueError] raised.  The test [format is 'infer'] is one of identity. *)
Definition _infer_format (path : string) (format : format_object)
  : string + format_error :=
  match format with
  | the_infer_constant =>
      let '(_, ext) := os_path_splitext path in
      if String.eqb ext ".json" then inl "json"
      else if mem_str ext [".yaml"; ".yml"] then inl "yaml"
           else inr (Cant_infer_format_from_filepath path)
  | a_string s =>
      if negb (mem_str s ["json"; "yaml"]) then inr (Unknown_file_format s)
      else inl s
  end.


(** * The vocabulary of the statements *)

(** ** Mappings, instances and messages *)

Definition a_service : value :=
  VDict [(VStr "commands", VList [VStr "run"]);
         (VStr "resources",
          VDict [(VStr "memory", VInt 1); (VStr "vcores", VInt 1)])].

Definition resources_mapping (memory vcores : Z) : value :=
  VDict [(VStr "memory", VInt memory); (VStr "vcores", VInt vcores)].

Definition usage_mapping (memory_seconds vcore_seconds num_used_containers : Z)
    (needed reserved used : Z * Z) : value :=
  VDict [(VStr "memorySeconds", VInt memory_seconds);
         (VStr "vcoreSeconds", VInt vcore_seconds);
         (VStr "numUsedContainers", VInt num_used_containers);
         (VStr "neededResources", resources_mapping (fst needed) (snd needed));
         (VStr "reservedResources",
          resources_mapping (fst reserved) (snd reserved));
         (VStr "usedResources", resources_mapping (fst used) (snd used))].

Definition resources_message (memory vcores : Z) : value :=
  VMsg cResources [VInt memory; VInt vcores].

Definition usage_message (memory_seconds vcore_seconds num_used_containers : Z)
    (needed reserved used : Z * Z) : value :=
  VMsg cResourceUsageReport
    [VInt memory_seconds; VInt vcore_seconds; VInt num_used_containers;
     resources_message (fst needed) (snd needed);
     resources_message (fst reserved) (snd reserved);
     resources_message (fst used) (snd used)].

Definition resources_object (memory vcores : Z) : value :=
  VObj cResources [VInt memory; VInt vcores].

Definition usage_object (memory_seconds vcore_seconds num_used_containers : Z)
    (needed reserved used : Z * Z) : value :=
  VObj cResourceUsageReport
    [VInt memory_seconds; VInt vcore_seconds; VInt num_used_containers;
     resources_object (fst needed) (snd needed);
     resources_object (fst reserved) (snd reserved);
     resources_object (fst used) (snd used)].



Definition a_usage : value :=
  usage_mapping 10 20 1 (0, 0) (1024, 1) (1024, 1).

(** An application report as the cluster manager gives it, started
    [startTime] milliseconds after the epoch. *)
Definition an_application (startTime : Z) : value :=
  VDict [(VStr "id", VStr "application_1"); (VStr "name", VStr "skein");
         (VStr "user", VStr "alice"); (VStr "queue", VStr "default");
         (VStr "tags", VList []); (VStr "host", VStr "worker");
         (VStr "port", VInt 8080); (VStr "trackingUrl", VStr "");
         (VStr "state", VStr "RUNNING");
         (VStr "finalStatus", VStr "UNDEFINED");
         (VStr "progress", VFloat (S754_zero false));
         (VStr "usage", a_usage); (VStr "diagnostics", VStr "");
         (VStr "startTime", VInt startTime); (VStr "finishTime", VInt 0)].

Definition a_job : value :=
  VDict [(VStr "name", VStr "demo"); (VStr "queue", VStr "default");
         (VStr "services",
          VDict [(VStr "worker",
                  VDict [(VStr "commands", VList [VStr "run"]);
                         (VStr "resources", resources_mapping 1024 1);
                         (VStr "instances", VBool true);
                         (VStr "env", VDict [(VStr "A", VStr "b")]);
                         (VStr "files",
                          VList [VDict [(VStr "archive",
                                         VStr "a/b/data.tar.gz")]])])])].

Definition a_job_without_queue : value :=
  VDict [(VStr "name", VStr "demo");
         (VStr "services", VDict [(VStr "worker", a_service)])].

(** An instance of the declarations that the wire model leaves open, for
    examples: 64-bit integer fields and the application states and final
    statuses of YARN. *)
Definition example_declarations : proto.declarations :=
  {| proto.int_fits := fun _ _ z => (- 2 ^ 63 <=? z) && (z <? 2 ^ 63);
     proto.ApplicationState_Type :=
       ["NEW"; "NEW_SAVING"; "SUBMITTED"; "ACCEPTED"; "RUNNING"; "FINISHED";
        "FAILED"; "KILLED"];
     proto.FinalStatus_Type := ["UNDEFINED"; "SUCCEEDED"; "FAILED"; "KILLED"]
  |}.

(** ** The allowed keys *)

(** The keys that [from_dict] of each class passes to [_check_keys]: the
    slots, or the camel-case [_keys] of the two report classes. *)
Definition allowed_keys (cls : class) : list string :=
  match cls with
  | cResourceUsageReport => ResourceUsageReport._keys
  | cApplicationReport => ApplicationReport._keys
  | _ => __slots__ cls
  end.

Definition unknown_key (cls : class) (k : value) : bool :=
  negb (in_strings k (allowed_keys cls)).

(** ** Milliseconds and floats *)




(** ** The structure of values *)

Section ValueInduction.

Variable Q : value -> Prop.
Hypothesis HNone : Q VNone.
Hypothesis HRequired : Q VRequired.
Hypothesis HBool : forall b, Q (VBool b).
Hypothesis HInt : forall z, Q (VInt z).
Hypothesis HFloat : forall f, Q (VFloat f).
Hypothesis HStr : forall s, Q (VStr s).
Hypothesis HList : forall l, Forall Q l -> Q (VList l).
Hypothesis HDict :
  forall d, Forall (fun kv => Q (fst kv) /\ Q (snd kv)) d -> Q (VDict d).
Hypothesis HDatetime : forall us, Q (VDatetime us).
Hypothesis HObj : forall c attrs, Forall Q attrs -> Q (VObj c attrs).
Hypothesis HMsg : forall c fields, Forall Q fields -> Q (VMsg c fields).

Fixpoint value_induction (v : value) : Q v :=
  let fix all (l : list value) : Forall Q l :=
    match l with
    | [] => Forall_nil Q
    | x :: l' => Forall_cons x (value_induction x) (all l')
    end in
  match v with
  | VNone => HNone
  | VRequired => HRequired
  | VBool b => HBool b
  | VInt z => HInt z
  | VFloat f => HFloat f
  | VStr s => HStr s
  | VList l => HList l (all l)
  | VDict d =>
      HDict d
        ((fix pairs (d : list (value * value))
            : Forall (fun kv => Q (fst kv) /\ Q (snd kv)) d :=
            match d with
            | [] => Forall_nil _
            | (k, x) :: d' =>
                Forall_cons (k, x)
                  (conj (value_induction k) (value_induction x)) (pairs d')
            end) d)
  | VDatetime us => HDatetime us
  | VObj c attrs => HObj c attrs (all attrs)
  | VMsg c fields => HMsg c fields (all fields)
  end.

End ValueInduction.

(** The equations of [py_eq] on containers. *)
Fixpoint list_eq (l m : list value) : bool :=
  match l, m with
  | [], [] => true
  | x :: l', y :: m' => py_eq x y && list_eq l' m'
  | _, _ => false
  end.

Definition dict_find (k v : value) : list (value * value) -> bool :=
  fix find (e : list (value * value)) : bool :=
    match e with
    | [] => false
    | (k', v') :: e' => if py_eq k k' then py_eq v v' else find e'
    end.

Definition dict_all (d e : list (value * value)) : bool :=
  (fix all (d : list (value * value)) : bool :=
     match d with
     | [] => true
     | (k, v) :: d' => dict_find k v e && all d'
     end) d.

(** No two keys of a dict are equal. *)
Fixpoint distinct (ks : list value) : bool :=
  match ks with
  | [] => true
  | k :: ks' => negb (existsb (py_eq k) ks') && distinct ks'
  end.

(** Well-formed objects: the keys of every dict are distinct. *)
Fixpoint well_formed (v : value) : bool :=
  match v with
  | VList l => forallb well_formed l
  | VDict d =>
      distinct (map fst d)
      && forallb (fun kv => well_formed (fst kv) && well_formed (snd kv)) d
  | VObj _ attrs | VMsg _ attrs => forallb well_formed attrs
  | _ => true
  end.

Definition is_str (v : value) : bool :=
  match v with VStr _ => true | _ => false end.

(** Objects made of [None], booleans, integers, strings, instants, lists,
    instances and dicts with distinct string keys. *)
Fixpoint regular (v : value) : bool :=
  match v with
  | VFloat _ => false
  | VList l => forallb regular l
  | VDict d =>
      distinct (map fst d)
      && forallb (fun kv => is_str (fst kv) && regular (snd kv)) d
  | VObj _ attrs => forallb regular attrs
  | VMsg _ _ => false
  | _ => true
  end.

(** The object with every [bool] replaced by the [int] it equals. *)
Fixpoint normalize (v : value) : value :=
  match v with
  | VBool b => VInt (Z_of_bool b)
  | VList l => VList (map normalize l)
  | VDict d => VDict (map (fun kv => (fst kv, normalize (snd kv))) d)
  | VObj c attrs => VObj c (map normalize attrs)
  | _ => v
  end.

Definition normalize_values (d : list (value * value))
  : list (value * value) :=
  map (fun kv => (fst kv, normalize (snd kv))) d.

Definition int_of (v : value) : Z :=
  match v with
  | VInt z => z
  | VBool b => Z_of_bool b
  | _ => 0
  end.

(** ** Instances that go through the wire *)

Section ForallSlots.

Context {A : Type}.
Variable f : string -> A -> bool.

(** [f k v] for every slot [k] with contents [v]. *)
Fixpoint forall_slots (slots : list string) (attrs : list A) {struct attrs}
  : bool :=
  match slots, attrs with
  | k :: slots', v :: attrs' => f k v && forall_slots slots' attrs'
  | _, _ => true
  end.

End ForallSlots.

(** Every integer held in a slot of an instance, at any depth, is in the
    range of the wire field of that name. *)
Fixpoint fits (P : proto.declarations) (v : value) : bool :=
  match v with
  | VObj c attrs =>
      forall_slots
        (fun k x => match x with
                    | VInt z => proto.int_fits P c k z
                    | VBool b => proto.int_fits P c k (Z_of_bool b)
                    | _ => fits P x
                    end) (__slots__ c) attrs
  | VList l => forallb (fits P) l
  | VDict d => forallb (fun kv => fits P (snd kv)) d
  | _ => true
  end.

Definition good_Resources (e : value) : Prop :=
  exists m v, e = VObj cResources [m; v]
              /\ Resources._validate e false = Ok tt.

Definition good_File (e : value) : Prop :=
  exists source type visibility size timestamp,
    e = VObj cFile [source; type; visibility; size; timestamp]
    /\ File._validate e = Ok tt.

Definition good_Usage (e : value) : Prop :=
  exists a b c r1 r2 r3,
    e = VObj cResourceUsageReport [a; b; c; r1; r2; r3]
    /\ ResourceUsageReport._validate e = Ok tt
    /\ good_Resources r1 /\ good_Resources r2 /\ good_Resources r3.

Definition good_Service (e : value) : Prop :=
  exists commands resources instances files env depends,
    e = VObj cService [commands; resources; instances; VDict files;
                       VDict env; depends]
    /\ Service._validate e = Ok tt
    /\ good_Resources resources
    /\ Forall good_File (values files)
    /\ distinct (keys files) = true /\ distinct (keys env) = true.

Record Service_valid (commands resources instances : value)
    (files env : list (value * value)) (depends : value) : Prop := {
  sv_instances : isinstance instances Tint = true /\ 0 <= int_of instances;
  sv_resources : isinstance resources (Tclass cResources) = true
                 /\ Resources._validate resources true = Ok tt;
  sv_files : forallb (fun k => isinstance k Tstr) (keys files) = true
             /\ forallb (fun v => isinstance v (Tclass cFile)) (values files)
                = true
             /\ Forall (fun f => File._validate f = Ok tt) (values files);
  sv_env : forallb (fun k => isinstance k Tstr) (keys env) = true
           /\ forallb (fun v => isinstance v Tstr) (values env) = true;
  sv_commands : exists l, commands = VList l
                          /\ forallb (fun i => isinstance i Tstr) l = true
                          /\ l <> [];
  sv_depends : exists l, depends = VList l
                         /\ forallb (fun i => isinstance i Tstr) l = true
}.

Definition good_Job (e : value) : Prop :=
  exists name queue services,
    e = VObj cJob [name; VStr queue; VDict services]
    /\ Job._validate e = Ok tt
    /\ Forall good_Service (values services)
    /\ distinct (keys services) = true.

(** [E.from_protobuf(E.from_dict(m).to_protobuf()) == E.from_dict(m)] *)
Definition wire_round_trip_holds (P : proto.declarations)
    (utcoffset : Z -> Z) (urlparse_path : string -> result string)
    (cls : class) (m : value) : result bool :=
  e <- from_dict urlparse_path cls m ;;
  msg <- to_protobuf P utcoffset e ;;
  e' <- from_protobuf P cls msg ;;
  Ok (py_eq e' e).

(** ** Shapes and requests *)

(** An instance holds one object for each slot of its class, at any
    depth. *)
Fixpoint shaped (v : value) : bool :=
  match v with
  | VList l => forallb shaped l
  | VDict d => forallb (fun kv => shaped (fst kv) && shaped (snd kv)) d
  | VObj c attrs =>
      Nat.eqb (List.length attrs) (List.length (__slots__ c))
      && forallb shaped attrs
  | VMsg _ fields => forallb shaped fields
  | _ => true
  end.

(** Instances of [File] and of [Service] that hold one object per slot
    and pass their validation. *)
Definition valid_File (f : value) : Prop :=
  shaped f = true /\ isinstance f (Tclass cFile) = true
  /\ File._validate f = Ok tt.

Definition valid_Service (s : value) : Prop :=
  shaped s = true /\ isinstance s (Tclass cService) = true
  /\ Service._validate s = Ok tt.

(** An [int] that is at least [min]. *)
Definition at_least (min : Z) (x : value) : Prop :=
  isinstance x Tint = true /\ min <= int_of x.

(** What a service asks for: at least one command, a number of instances
    that is not negative, and at least one unit of memory and one virtual
    core. *)
Definition is_request (s : value) : Prop :=
  exists commands resources instances memory vcores,
    getattr s "commands" = Ok (VList commands) /\ commands <> []
    /\ getattr s "instances" = Ok instances /\ at_least 0 instances
    /\ getattr s "resources" = Ok resources
    /\ getattr resources "memory" = Ok memory /\ at_least 1 memory
    /\ getattr resources "vcores" = Ok vcores /\ at_least 1 vcores.

(** [c in s] for a character [c]. *)
Definition has_char (c : ascii) (s : string) : bool :=
  existsb (Ascii.eqb c) (chars s).

Ltac inv_bind H :=
  match type of H with
  | bind ?r _ = Ok _ =>
      let x := fresh "x" in
      let E := fresh "E" in
      destruct r as [x|?] eqn:E;
      [cbn [bind] in H;
       match type of x with unit => destruct x | _ => idtac end
      | discriminate H]
  end.

(** * Properties *)

Lemma bind_Raise {A B} (e : exn) (k : A -> result B) :
  bind (Raise e) k = Raise e.
Proof. reflexivity. Qed.

Lemma bind_Ok {A B} (a : A) (k : A -> result B) : bind (Ok a) k = k a.
Proof. reflexivity. Qed.

(** ** The request rule on [Resources] *)

(** C2: [Resources(memory=0, vcores=0)] is constructed; every object whose
    [resources] slot holds it fails [Service._validate], and once the
    check of [instances] has passed the failure is the request rule
    [vcores >= 1]. *)
Theorem zero_resources_rejected_in_service :
  Resources.__init__ [(VStr "memory", VInt 0); (VStr "vcores", VInt 0)]
    = Ok (VObj cResources [VInt 0; VInt 0])
  /\ forall self,
       getattr self "resources" = Ok (VObj cResources [VInt 0; VInt 0]) ->
       exists e,
         Service._validate self = Raise e
         /\ (Base._check_is_bounded_int self "instances" 0 false = Ok tt ->
             e = ValueError (must_be_ge "vcores" 1)).
Proof.
  split; [reflexivity|].
  intros self Hres. unfold Service._validate.
  destruct (Base._check_is_bounded_int self "instances" 0 false) as [[]|e].
  - exists (ValueError (must_be_ge "vcores" 1)). split; [|reflexivity].
    rewrite bind_Ok. unfold Base._check_is_type. rewrite Hres. reflexivity.
  - exists e. split; [reflexivity|discriminate].
Qed.

Lemma zero_resources_rejected_in_service_witness :
  exists e,
    Service._validate
      (VObj cService [VList [VStr "run"]; VObj cResources [VInt 0; VInt 0];
                      VInt 1; VDict []; VDict []; VList []]) = Raise e
    /\ e = ValueError (must_be_ge "vcores" 1).
Proof.
  destruct (proj2 zero_resources_rejected_in_service
              (VObj cService [VList [VStr "run"];
                              VObj cResources [VInt 0; VInt 0];
                              VInt 1; VDict []; VDict []; VList []])
              eq_refl) as [e [H1 H2]].
  exists e. split; [exact H1 | apply H2; reflexivity].
Defined.

(** ** [Job.from_dict] *)

(** C3: [Job.from_dict({'services': {}})] fails, but on the check of
    [name], which [from_dict] passes as [None]; the emptiness check of
    [Job._validate] is reached when the constructor is left to its
    defaults. *)
Theorem Job_from_dict_empty_services :
  (forall urlparse_path,
     Job.from_dict urlparse_path (VDict [(VStr "services", VDict [])])
     = Raise (TypeError (must_be_an_instance_of "name" "str" false)))
  /\ Job.__init__ [(VStr "services", VDict [])]
     = Raise (ValueError There_must_be_at_least_one_service).
Proof. split; [intros up|]; reflexivity. Qed.

(** C4: on a mapping that has only the key [services], [Job.from_dict]
    never returns a [Job]: the constructor is called with [name=None] and
    [queue=None], not with its defaults, and a valid [services] entry
    fails the check of [name]. *)
Theorem Job_from_dict_only_services :
  (forall urlparse_path services,
     exists e,
       Job.from_dict urlparse_path (VDict [(VStr "services", services)])
       = Raise e)
  /\ (forall urlparse_path,
        Job.from_dict urlparse_path
          (VDict [(VStr "services", VDict [(VStr "a", a_service)])])
        = Raise (TypeError (must_be_an_instance_of "name" "str" false))).
Proof.
  split; [|intros up; reflexivity].
  intros up services. unfold Job.from_dict. cbn.
  destruct services; cbn; try (eexists; reflexivity).
  destruct (map_values (Service.from_dict up) d) as [ss|e]; cbn;
    eexists; reflexivity.
Qed.

(** ** The shorthand file spec *)

(** C6: [{'archive': 'a/b/data.tar.gz'}] parses to the destination
    ['data'] and a [File] of type ['ARCHIVE'] with the source
    ['a/b/data.tar.gz'], for every URL parser that gives this source as its
    own path. *)
Theorem parse_archive_shorthand (urlparse_path : string -> result string) :
  urlparse_path "a/b/data.tar.gz" = Ok "a/b/data.tar.gz" ->
  File._parse_file_spec urlparse_path
    (VDict [(VStr "archive", VStr "a/b/data.tar.gz")])
  = Ok (VStr "data",
        VObj cFile [VStr "a/b/data.tar.gz"; VStr "ARCHIVE";
                    VStr "APPLICATION"; VInt 0; VInt 0]).
Proof.
  intros Hpath. unfold File._parse_file_spec. cbn. rewrite Hpath.
  reflexivity.
Qed.

Lemma parse_archive_shorthand_witness :
  File._parse_file_spec urllib.urlparse_path
    (VDict [(VStr "archive", VStr "a/b/data.tar.gz")])
  = Ok (VStr "data",
        VObj cFile [VStr "a/b/data.tar.gz"; VStr "ARCHIVE";
                    VStr "APPLICATION"; VInt 0; VInt 0]).
Proof. apply (parse_archive_shorthand urllib.urlparse_path). reflexivity. Defined.

(** C7: a shorthand spec without [dest] whose path ends in a separator is
    not rejected: the second component of [os.path.split] is the empty
    string, never [None], so the spec parses to the destination [''] and a
    [File]. *)
Theorem parse_directory_shorthand (urlparse_path : string -> result string) :
  urlparse_path "a/b/" = Ok "a/b/" ->
  File._parse_file_spec urlparse_path (VDict [(VStr "file", VStr "a/b/")])
  = Ok (VStr "",
        VObj cFile [VStr "a/b/"; VStr "FILE"; VStr "APPLICATION";
                    VInt 0; VInt 0]).
Proof.
  intros Hpath. unfold File._parse_file_spec. cbn. rewrite Hpath.
  reflexivity.
Qed.

Lemma parse_directory_shorthand_witness :
  File._parse_file_spec urllib.urlparse_path
    (VDict [(VStr "file", VStr "a/b/")])
  = Ok (VStr "",
        VObj cFile [VStr "a/b/"; VStr "FILE"; VStr "APPLICATION";
                    VInt 0; VInt 0]).
Proof. apply (parse_directory_shorthand urllib.urlparse_path). reflexivity. Defined.



(** ** The key-set check *)

Lemma filter_nonempty {A} (p : A -> bool) (l : list A) (x : A) :
  In x l -> p x = true -> filter p l <> [].
Proof.
  intros Hin Hp Hnil.
  assert (H : In x (filter p l)) by (apply filter_In; auto).
  rewrite Hnil in H. exact H.
Qed.

Lemma check_keys_unknown (cls : class) (ks : list string)
    (d : list (value * value)) (k : value) :
  ks <> [] ->
  In k (keys d) -> in_strings k ks = false ->
  Base._check_keys cls (VDict d) ks
  = Raise (ValueError
             (Unknown_extra_keys_for (class_name cls)
                (filter (fun k => negb (in_strings k ks)) (keys d)))).
Proof.
  intros Hks Hin Hk. unfold Base._check_keys.
  destruct ks as [|k0 ks']; [now elim Hks|].
  fold (keys d).
  assert (Hne : filter (fun k => negb (in_strings k (k0 :: ks'))) (keys d)
                <> []).
  { apply (filter_nonempty _ _ k Hin). now rewrite Hk. }
  destruct (filter _ (keys d)); [now elim Hne | reflexivity].
Qed.

Lemma from_dict_checks_keys_first
    (urlparse_path : string -> result string) (cls : class) (obj : value)
    (e : exn) :
  Base._check_keys cls obj (allowed_keys cls) = Raise e ->
  from_dict urlparse_path cls obj = Raise e.
Proof.
  intros H. destruct cls; cbn [from_dict];
    unfold Resources.from_dict, File.from_dict, Base.from_dict,
      Service.from_dict, Job.from_dict, ResourceUsageReport.from_dict,
      ApplicationReport.from_dict;
    cbn [allowed_keys] in H;
    try (rewrite H; reflexivity);
    (change (Base._check_keys ?c obj [])
       with (Base._check_keys c obj (__slots__ c)) in *;
     rewrite H; reflexivity).
Qed.

(** C8: for each of the six classes, a mapping with a key outside the
    allowed keys makes [from_dict] raise the [ValueError] of [_check_keys],
    whose list of extra keys holds exactly the keys of the mapping that are
    not allowed; no instance is returned. *)
Theorem unknown_keys_are_all_reported
    (urlparse_path : string -> result string) (cls : class)
    (d : list (value * value)) (k : value) :
  In k (keys d) -> unknown_key cls k = true ->
  exists extra,
    from_dict urlparse_path cls (VDict d)
    = Raise (ValueError (Unknown_extra_keys_for (class_name cls) extra))
    /\ forall k', In k' extra <->
                  (In k' (keys d) /\ unknown_key cls k' = true).
Proof.
  intros Hin Hk.
  exists (filter (unknown_key cls) (keys d)). split.
  - apply from_dict_checks_keys_first.
    apply (check_keys_unknown cls (allowed_keys cls) d k).
    + destruct cls; discriminate.
    + exact Hin.
    + unfold unknown_key in Hk. now destruct (in_strings k (allowed_keys cls)).
  - intros k'. apply filter_In.
Qed.

Lemma unknown_keys_are_all_reported_witness :
  exists extra,
    from_dict urllib.urlparse_path cResources
      (VDict [(VStr "memory", VInt 1); (VStr "vcores", VInt 1);
              (VStr "bogus", VInt 2)])
    = Raise (ValueError (Unknown_extra_keys_for "Resources" extra))
    /\ forall k', In k' extra <->
                  (In k' [VStr "memory"; VStr "vcores"; VStr "bogus"]
                   /\ unknown_key cResources k' = true).
Proof.
  apply (unknown_keys_are_all_reported urllib.urlparse_path cResources
           [(VStr "memory", VInt 1); (VStr "vcores", VInt 1);
            (VStr "bogus", VInt 2)] (VStr "bogus")).
  - simpl. auto.
  - reflexivity.
Defined.

(** ** Clamping in [ResourceUsageReport] *)


Lemma bounded_int_VInt (self : value) (field : string) (min z : Z) :
  getattr self field = Ok (VInt z) ->
  Base._check_is_bounded_int self field min false
  = if z <? min then Raise (ValueError (must_be_ge field min)) else Ok tt.
Proof.
  intros H. unfold Base._check_is_bounded_int, Base._check_is_type.
  rewrite H. reflexivity.
Qed.

Lemma usage_keys :
  ResourceUsageReport._keys
  = ["memorySeconds"; "vcoreSeconds"; "numUsedContainers";
     "neededResources"; "reservedResources"; "usedResources"].
Proof. vm_compute. reflexivity. Qed.

Lemma Resources_validate_object (memory vcores : Z) (is_request : bool) :
  Resources._validate (resources_object memory vcores) is_request
  = let min := if is_request then 1 else 0 in
    if vcores <? min then Raise (ValueError (must_be_ge "vcores" min))
    else if memory <? min then Raise (ValueError (must_be_ge "memory" min))
         else Ok tt.
Proof.
  unfold Resources._validate.
  rewrite (bounded_int_VInt _ "vcores" _ vcores) by reflexivity.
  rewrite (bounded_int_VInt _ "memory" _ memory) by reflexivity.
  cbv zeta. destruct (vcores <? _); [reflexivity|]. cbn [bind].
  destruct (memory <? _); reflexivity.
Qed.

Lemma Resources_validate_nonnegative (memory vcores : Z) :
  0 <= memory -> 0 <= vcores ->
  Resources._validate (resources_object memory vcores) false = Ok tt.
Proof.
  intros Hm Hv. rewrite Resources_validate_object. cbv zeta.
  rewrite (proj2 (Z.ltb_ge vcores 0) Hv), (proj2 (Z.ltb_ge memory 0) Hm).
  reflexivity.
Qed.

Lemma Resources_init_nonnegative (kwargs : list (value * value))
    (memory vcores : Z) :
  check_keywords ["memory"; "vcores"] kwargs = Ok tt ->
  assoc "memory" kwargs = Some (VInt memory) ->
  assoc "vcores" kwargs = Some (VInt vcores) ->
  0 <= memory -> 0 <= vcores ->
  Resources.__init__ kwargs = Ok (resources_object memory vcores).
Proof.
  intros Hk Hm Hv Hm0 Hv0. unfold Resources.__init__, arg.
  rewrite Hk, Hm, Hv. cbn [bind].
  change (VObj cResources [VInt memory; VInt vcores])
    with (resources_object memory vcores).
  rewrite Resources_validate_nonnegative by assumption. reflexivity.
Qed.





(** From a wire message a negative field is not clamped either: the
    validation of the constructor rejects it. *)
Lemma negative_wire_field_is_rejected :
  ResourceUsageReport.from_protobuf
    (usage_message 0 0 (-1) (0, 0) (0, 0) (0, 0))
  = Raise (ValueError (must_be_ge "num_used_containers" 0))
  /\ ResourceUsageReport.from_protobuf
       (usage_message 0 0 0 (-1, 0) (0, 0) (0, 0))
     = Raise (ValueError (must_be_ge "memory" 0)).
Proof. split; vm_compute; reflexivity. Qed.

(** ** Exact float arithmetic on integers *)

Lemma digits2_pos_size (m : positive) : digits2_pos m = Pos.size m.
Proof. induction m; cbn; now rewrite ?IHm. Qed.













(** ** Milliseconds to [datetime] and back *)






(** ** Structure of values *)

Lemma py_eq_VList (l m : list value) :
  py_eq (VList l) (VList m) = list_eq l m.
Proof. reflexivity. Qed.

Lemma py_eq_VObj (c c' : class) (l m : list value) :
  py_eq (VObj c l) (VObj c' m) = class_eqb c c' && list_eq l m.
Proof. reflexivity. Qed.

Lemma py_eq_VDict (d e : list (value * value)) :
  py_eq (VDict d) (VDict e)
  = Nat.eqb (List.length d) (List.length e) && dict_all d e.
Proof. reflexivity. Qed.

Lemma class_eqb_refl (c : class) : class_eqb c c = true.
Proof. now destruct c. Qed.

Lemma class_eqb_eq (c c' : class) : class_eqb c c' = true -> c = c'.
Proof. destruct c, c'; (reflexivity || discriminate). Qed.

Lemma list_eq_normalize (l : list value) :
  Forall (fun v => regular v = true -> py_eq (normalize v) v = true) l ->
  forallb regular l = true ->
  list_eq (map normalize l) l = true.
Proof.
  induction 1 as [|x l Hx Hl IH]; [reflexivity|].
  cbn [forallb map list_eq]. intros [Hrx Hrl]%andb_true_iff.
  now rewrite Hx, IH.
Qed.

Lemma dict_find_skip (k v : value) (pre e : list (value * value)) :
  existsb (fun k' => py_eq k' k) (map fst pre) = false ->
  is_str k = true -> forallb is_str (map fst pre) = true ->
  dict_find k v (pre ++ e) = dict_find k v e.
Proof.
  intros Hne Hk. induction pre as [|[k' v'] pre IH]; [reflexivity|].
  cbn [map fst existsb forallb app] in *. intros [Hk' Hpre]%andb_true_iff.
  apply orb_false_iff in Hne as [Hne1 Hne2].
  cbn [dict_find]. destruct k, k'; try discriminate.
  cbn [py_eq] in *. rewrite String.eqb_sym, Hne1. now apply IH.
Qed.

Lemma distinct_app_cons (pre : list value) (k : value) (post : list value) :
  distinct (pre ++ k :: post) = true ->
  existsb (fun k' => py_eq k' k) pre = false.
Proof.
  induction pre as [|k' pre IH]; [reflexivity|].
  cbn [app distinct existsb].
  intros [Hk' Hd]%andb_true_iff. rewrite (IH Hd), orb_false_r.
  apply negb_true_iff in Hk'. rewrite existsb_app in Hk'.
  apply orb_false_iff in Hk' as [_ Hk']. cbn [existsb] in Hk'.
  now apply orb_false_iff in Hk' as [Hk' _].
Qed.

Lemma dict_all_normalize (pre post : list (value * value)) :
  distinct (map fst (pre ++ post)) = true ->
  forallb is_str (map fst (pre ++ post)) = true ->
  Forall (fun kv => py_eq (normalize (snd kv)) (snd kv) = true) post ->
  dict_all (map (fun kv => (fst kv, normalize (snd kv))) post) (pre ++ post)
  = true.
Proof.
  revert pre. induction post as [|[k v] post IH]; intros pre Hd Hs Hv;
    [reflexivity|].
  inversion Hv as [|? ? Hv1 Hv2]; subst. cbn [snd] in Hv1.
  cbn [map fst snd].
  change (dict_all ((k, normalize v) :: ?d) ?e)
    with (dict_find k (normalize v) e && dict_all d e).
  rewrite map_app in Hd, Hs. cbn [map fst] in Hd, Hs.
  rewrite forallb_app in Hs. apply andb_true_iff in Hs as [Hs1 Hs2].
  cbn [forallb] in Hs2. apply andb_true_iff in Hs2 as [Hk Hs2].
  rewrite dict_find_skip
    by (eauto using distinct_app_cons).
  cbn [dict_find]. destruct k; try discriminate.
  cbn [py_eq]. rewrite String.eqb_refl, Hv1. cbn [andb].
  replace (pre ++ (VStr s, v) :: post)%list
    with ((pre ++ [(VStr s, v)]) ++ post)%list
    by now rewrite <- app_assoc.
  apply IH.
  - rewrite <- app_assoc. rewrite map_app. exact Hd.
  - rewrite <- app_assoc, map_app, forallb_app. cbn [map fst forallb app].
    now rewrite Hs1, Hs2.
  - exact Hv2.
Qed.

(** [normalize v == v] for a regular [v]. *)
Lemma py_eq_normalize (v : value) :
  regular v = true -> py_eq (normalize v) v = true.
Proof.
  induction v as [| |b|z|f|s|l IH|d IH|us|c attrs IH|c fields IH]
    using value_induction; cbn [regular normalize]; intros Hr;
    try reflexivity; try discriminate.
  - destruct b; reflexivity.
  - apply Z.eqb_refl.
  - apply String.eqb_refl.
  - rewrite py_eq_VList. now apply list_eq_normalize.
  - rewrite py_eq_VDict. apply andb_true_iff in Hr as [Hd Hr].
    rewrite length_map, Nat.eqb_refl. cbn [andb].
    apply (dict_all_normalize [] d); cbn [app].
    + exact Hd.
    + clear - Hr. induction d as [|[k v] d IHd]; [reflexivity|].
      cbn [forallb map fst snd] in *.
      apply andb_true_iff in Hr as [[Hk _]%andb_true_iff Hr].
      now rewrite Hk, IHd.
    + clear - IH Hr. induction IH as [|[k v] d [_ Hv] _ IHd]; [constructor|].
      cbn [forallb fst snd] in *.
      apply andb_true_iff in Hr as [[_ Hrv]%andb_true_iff Hr].
      constructor; auto.
  - apply Z.eqb_refl.
  - rewrite py_eq_VObj, class_eqb_refl. now apply list_eq_normalize.
Qed.

(** ** Inversion of the checks *)

Lemma bounded_int_inv (self : value) (field : string) (min : Z) :
  Base._check_is_bounded_int self field min false = Ok tt ->
  exists x, getattr self field = Ok x
            /\ isinstance x Tint = true /\ min <= int_of x.
Proof.
  unfold Base._check_is_bounded_int, Base._check_is_type.
  destruct (getattr self field) as [x|]; [|discriminate]. cbn [bind].
  rewrite andb_false_l, orb_false_r.
  destruct x; cbn; try discriminate; intros H; eexists; repeat split;
    match goal with
    | H : (if ?c then _ else _) = _ |- _ =>
        destruct c eqn:Hc; [discriminate|apply Z.ltb_ge in Hc; exact Hc]
    end.
Qed.

Lemma bounded_int_intro (self : value) (field : string) (min : Z) (x : value) :
  getattr self field = Ok x -> isinstance x Tint = true -> min <= int_of x ->
  Base._check_is_bounded_int self field min false = Ok tt.
Proof.
  intros Hg Hi Hm. unfold Base._check_is_bounded_int, Base._check_is_type.
  rewrite Hg. cbn [bind]. rewrite Hi. cbn.
  destruct x; try discriminate; cbn in Hm;
    now rewrite (proj2 (Z.ltb_ge _ _) Hm).
Qed.

Lemma check_is_type_inv (self : value) (field : string) (t : pytype)
    (nullable : bool) :
  Base._check_is_type self field t nullable = Ok tt ->
  exists x, getattr self field = Ok x
            /\ isinstance x t || (nullable && is_None x) = true.
Proof.
  unfold Base._check_is_type.
  destruct (getattr self field) as [x|]; [|discriminate]. cbn [bind].
  destruct (isinstance x t || (nullable && is_None x)) eqn:Hi;
    [|discriminate].
  intros _. exists x. auto.
Qed.

Lemma check_is_type_intro (self : value) (field : string) (t : pytype)
    (nullable : bool) (x : value) :
  getattr self field = Ok x ->
  isinstance x t || (nullable && is_None x) = true ->
  Base._check_is_type self field t nullable = Ok tt.
Proof.
  intros Hg Hi. unfold Base._check_is_type. now rewrite Hg; cbn; rewrite Hi.
Qed.

Lemma check_in_set_inv (self : value) (field : string) (vals : list string) :
  Base._check_in_set self field vals = Ok tt ->
  exists s, getattr self field = Ok (VStr s) /\ mem_str s vals = true.
Proof.
  unfold Base._check_in_set.
  destruct (getattr self field) as [x|]; [|discriminate]. cbn [bind].
  destruct (hashable x); cbn; [|discriminate].
  destruct x; cbn; try discriminate.
  destruct (mem_str s vals) eqn:Hs; [|discriminate]. intros _. eauto.
Qed.

Lemma check_is_list_of_inv (self : value) (field : string) (t : pytype) :
  Base._check_is_list_of self field t false = Ok tt ->
  exists l, getattr self field = Ok (VList l)
            /\ forallb (fun i => isinstance i t) l = true.
Proof.
  unfold Base._check_is_list_of.
  destruct (getattr self field) as [x|]; [|discriminate]. cbn [bind].
  rewrite andb_false_l, orb_false_r.
  destruct x; cbn; try discriminate.
  destruct (forallb _ l) eqn:Hl; [|discriminate]. intros _. eauto.
Qed.

Lemma check_is_dict_of_inv (self : value) (field : string) (kt vt : pytype) :
  Base._check_is_dict_of self field kt vt false = Ok tt ->
  exists d, getattr self field = Ok (VDict d)
            /\ forallb (fun k => isinstance k kt) (keys d) = true
            /\ forallb (fun v => isinstance v vt) (values d) = true.
Proof.
  unfold Base._check_is_dict_of.
  destruct (getattr self field) as [x|]; [|discriminate]. cbn [bind].
  rewrite andb_false_l, orb_false_r.
  destruct x; cbn; try discriminate.
  destruct (forallb _ (keys d)) eqn:Hk; [|discriminate].
  destruct (forallb _ (values d)) eqn:Hv; [|discriminate]. intros _. eauto.
Qed.

Lemma for_each_inv {A} (l : list A) (body : A -> result unit) :
  for_each l body = Ok tt -> Forall (fun x => body x = Ok tt) l.
Proof.
  induction l as [|x l IH]; cbn [for_each]; intros H; [constructor|].
  destruct (body x) as [[]|] eqn:Hx; [|discriminate]. auto.
Qed.

Lemma for_each_intro {A} (l : list A) (body : A -> result unit) :
  Forall (fun x => body x = Ok tt) l -> for_each l body = Ok tt.
Proof.
  induction 1 as [|x l Hx _ IH]; [reflexivity|].
  cbn [for_each]. now rewrite Hx.
Qed.

(** ** The wire round trip *)

Lemma normalize_int (x : value) :
  isinstance x Tint = true -> normalize x = VInt (int_of x).
Proof. destruct x; try discriminate; reflexivity. Qed.

Section RoundTrip.

Variable P : proto.declarations.
Variable utcoffset : Z -> Z.

Lemma convert_int (x : value) :
  isinstance x Tint = true -> _convert P utcoffset x = Ok x.
Proof. destruct x; try discriminate; reflexivity. Qed.

Lemma set_field_int (c : class) (k : string) (x : value) :
  isinstance x Tint = true -> proto.int_fits P c k (int_of x) = true ->
  proto.set_field P c k proto.int_field x = Ok (VInt (int_of x)).
Proof.
  destruct x; try discriminate; cbn; intros _ H; now rewrite H.
Qed.

Lemma fits_int (c : class) (k : string) (x : value) :
  isinstance x Tint = true ->
  match x with
  | VInt z => proto.int_fits P c k z
  | VBool b => proto.int_fits P c k (Z_of_bool b)
  | _ => fits P x
  end = proto.int_fits P c k (int_of x).
Proof. destruct x; try discriminate; reflexivity. Qed.

Lemma Resources_validate_inv (m v : value) (is_request : bool) :
  Resources._validate (VObj cResources [m; v]) is_request = Ok tt ->
  let min := if is_request then 1 else 0 in
  isinstance m Tint = true /\ isinstance v Tint = true
  /\ min <= int_of m /\ min <= int_of v.
Proof.
  unfold Resources._validate. intros H. inv_bind H.
  apply bounded_int_inv in E as [x' [Hg [Hi Hm]]].
  apply bounded_int_inv in H as [y [Hg' [Hi' Hm']]].
  injection Hg as <-. injection Hg' as <-. cbv zeta. auto.
Qed.

Lemma Resources_validate_intro (m v : value) (is_request : bool) :
  let min := if is_request then 1 else 0 in
  isinstance m Tint = true -> isinstance v Tint = true ->
  min <= int_of m -> min <= int_of v ->
  Resources._validate (VObj cResources [m; v]) is_request = Ok tt.
Proof.
  intros min Hm Hv Hm0 Hv0. unfold Resources._validate.
  rewrite (bounded_int_intro _ "vcores" _ v) by (reflexivity || assumption).
  cbn [bind].
  now rewrite (bounded_int_intro _ "memory" _ m)
    by (reflexivity || assumption).
Qed.

Lemma Resources_round_trip (e : value) :
  good_Resources e -> fits P e = true ->
  exists msg,
    _convert P utcoffset e = Ok msg
    /\ proto.is_message cResources msg = true
    /\ Resources.from_protobuf msg = Ok (normalize e).
Proof.
  intros (m & v & -> & Hvalid) Hfits.
  pose proof (Resources_validate_inv m v false Hvalid)
    as (Hm & Hv & Hm0 & Hv0). cbv zeta in Hm0, Hv0.
  cbn [fits forall_slots __slots__] in Hfits.
  rewrite !fits_int in Hfits by assumption.
  apply andb_true_iff in Hfits as [Hfm [Hfv _]%andb_true_iff].
  exists (VMsg cResources [VInt (int_of m); VInt (int_of v)]).
  split; [|split; [reflexivity|]].
  - cbn [_convert]. change (_validate (VObj cResources [m; v]))
      with (Resources._validate (VObj cResources [m; v]) false).
    rewrite Hvalid. cbn [bind __slots__ map_slots].
    rewrite !convert_int by assumption. cbn [bind].
    unfold proto.new_message.
    cbn [keys map fst forallb in_strings mem_str existsb __slots__
         String.eqb Ascii.eqb Bool.eqb orb andb combine proto.descriptor
         map_result snd dict_get assoc is_key].
    rewrite !set_field_int by assumption. reflexivity.
  - unfold Resources.from_protobuf, Base.from_protobuf.
    cbn [class_eqb __slots__ map_result getattr index_of String.eqb
         Ascii.eqb Bool.eqb nth_error bind].
    rewrite (Resources_init_nonnegative _ (int_of m) (int_of v))
      by (reflexivity || assumption).
    cbn [normalize map]. now rewrite !normalize_int by assumption.
Qed.

Lemma enum_index (names : list string) (s : string) :
  mem_str s names = true ->
  exists i, index_of s names = Some i /\ nth_error names i = Some s.
Proof.
  induction names as [|n names IH]; [discriminate|].
  cbn [mem_str existsb index_of]. destruct (String.eqb_spec s n) as [->|Hne].
  - intros _. exists O. auto.
  - cbn [orb]. intros H. destruct (IH H) as (i & Hi & Hn).
    exists (S i). now rewrite Hi.
Qed.

Lemma enum_round_trip (c : class) (k : string) (names : list string)
    (s : string) :
  mem_str s names = true ->
  exists code,
    proto.set_field P c k (proto.enum_field names) (VStr s) = Ok code
    /\ proto.Name names code = Ok (VStr s).
Proof.
  intros H. destruct (enum_index names s H) as (i & Hi & Hn).
  exists (VInt (Z.of_nat i)). cbn [proto.set_field proto.Name].
  rewrite Hi. split; [reflexivity|].
  replace (0 <=? Z.of_nat i) with true by (symmetry; apply Z.leb_le; lia).
  now rewrite Nat2Z.id, Hn.
Qed.

Lemma File_validate_inv (source type visibility size timestamp : value) :
  File._validate (VObj cFile [source; type; visibility; size; timestamp])
  = Ok tt ->
  exists s t v,
    source = VStr s /\ type = VStr t /\ visibility = VStr v
    /\ mem_str t ["FILE"; "ARCHIVE"] = true
    /\ mem_str v ["APPLICATION"; "PUBLIC"; "PRIVATE"] = true
    /\ isinstance size Tint = true /\ isinstance timestamp Tint = true
    /\ 0 <= int_of size /\ 0 <= int_of timestamp.
Proof.
  unfold File._validate. intros H. do 4 inv_bind H.
  apply check_is_type_inv in E as (x1 & Hg1 & Hi1).
  apply check_in_set_inv in E0 as (t & Hg2 & Ht).
  apply check_in_set_inv in E1 as (v & Hg3 & Hv).
  apply bounded_int_inv in E2 as (x4 & Hg4 & Hi4 & Hm4).
  apply bounded_int_inv in H as (x5 & Hg5 & Hi5 & Hm5).
  injection Hg1 as <-. injection Hg2 as ->. injection Hg3 as ->.
  injection Hg4 as <-. injection Hg5 as <-.
  rewrite orb_false_r in Hi1. destruct source; try discriminate.
  exists s, t, v. repeat split; assumption.
Qed.

Lemma File_validate_intro (s t v : string) (size timestamp : value) :
  mem_str t ["FILE"; "ARCHIVE"] = true ->
  mem_str v ["APPLICATION"; "PUBLIC"; "PRIVATE"] = true ->
  isinstance size Tint = true -> isinstance timestamp Tint = true ->
  0 <= int_of size -> 0 <= int_of timestamp ->
  File._validate (VObj cFile [VStr s; VStr t; VStr v; size; timestamp])
  = Ok tt.
Proof.
  intros Ht Hv Hs Hts Hs0 Hts0. unfold File._validate.
  rewrite (check_is_type_intro _ "source" _ _ (VStr s)) by reflexivity.
  cbn [bind]. unfold Base._check_in_set.
  cbn [getattr __slots__ index_of String.eqb Ascii.eqb Bool.eqb nth_error
       bind hashable negb in_strings].
  rewrite Ht, Hv. cbn [bind].
  rewrite (bounded_int_intro _ "size" _ size) by (reflexivity || assumption).
  cbn [bind].
  now rewrite (bounded_int_intro _ "timestamp" _ timestamp)
    by (reflexivity || assumption).
Qed.

Lemma File_round_trip (e : value) :
  good_File e -> fits P e = true ->
  exists msg,
    _convert P utcoffset e = Ok msg
    /\ proto.is_message cFile msg = true
    /\ File.from_protobuf msg = Ok (normalize e).
Proof.
  intros (source & type & visibility & size & timestamp & -> & Hvalid) Hfits.
  destruct (File_validate_inv _ _ _ _ _ Hvalid)
    as (s & t & v & -> & -> & -> & Ht & Hv & Hsz & Hts & Hsz0 & Hts0).
  cbn [fits forall_slots __slots__ andb] in Hfits.
  rewrite !fits_int in Hfits by assumption.
  apply andb_true_iff in Hfits as [Hf1 [Hf2 _]%andb_true_iff].
  destruct (enum_round_trip cFile "type" proto.File_Type t Ht)
    as (ct & Hct & Hnt).
  destruct (enum_round_trip cFile "visibility" proto.File_Visibility v Hv)
    as (cv & Hcv & Hnv).
  exists (VMsg cFile [VStr s; ct; cv; VInt (int_of size);
                      VInt (int_of timestamp)]).
  split; [|split; [reflexivity|]].
  - cbn [_convert]. change (_validate (VObj cFile ?a))
      with (File._validate (VObj cFile a)).
    rewrite Hvalid. cbn [bind __slots__ map_slots _convert].
    rewrite (convert_int size), (convert_int timestamp) by assumption.
    cbn [bind]. unfold proto.new_message.
    cbn [keys map fst forallb in_strings mem_str existsb __slots__
         String.eqb Ascii.eqb Bool.eqb orb andb combine proto.descriptor
         map_result snd dict_get assoc is_key].
    rewrite Hct, Hcv, !set_field_int by assumption. reflexivity.
  - unfold File.from_protobuf.
    cbn [proto.is_message class_eqb negb getattr __slots__ index_of
         String.eqb Ascii.eqb Bool.eqb nth_error bind].
    rewrite Hnt, Hnv. cbn [bind]. unfold File.__init__.
    cbn [check_keywords keys map fst forallb in_strings mem_str existsb
         String.eqb Ascii.eqb Bool.eqb orb andb bind arg assoc is_key].
    rewrite File_validate_intro by (reflexivity || assumption).
    cbn [normalize map]. now rewrite !normalize_int by assumption.
Qed.

Lemma set_field_message (c c' : class) (k : string) (msg : value) :
  proto.is_message c' msg = true ->
  proto.set_field P c k (proto.message_field c') msg = Ok msg.
Proof.
  intros H. destruct msg; try discriminate. cbn [proto.set_field].
  now rewrite H.
Qed.

Lemma Resources_init_good (kwargs : list (value * value)) (e : value) :
  Resources.__init__ kwargs = Ok e -> good_Resources e.
Proof.
  unfold Resources.__init__. intros H. do 5 inv_bind H.
  injection H as <-. do 2 eexists. split; [reflexivity|eassumption].
Qed.

Lemma Resources_from_protobuf_good (msg e : value) :
  Resources.from_protobuf msg = Ok e -> good_Resources e.
Proof.
  unfold Resources.from_protobuf, Base.from_protobuf.
  destruct msg; try discriminate. destruct (class_eqb c cResources);
    [|discriminate].
  intros H. inv_bind H. eauto using Resources_init_good.
Qed.

Lemma good_Resources_instance (e : value) :
  good_Resources e -> isinstance e (Tclass cResources) = true.
Proof. now intros (m & v & -> & _). Qed.

Lemma Usage_validate_inv (a b c r1 r2 r3 : value) :
  ResourceUsageReport._validate
    (VObj cResourceUsageReport [a; b; c; r1; r2; r3]) = Ok tt ->
  (isinstance a Tint = true /\ 0 <= int_of a)
  /\ (isinstance b Tint = true /\ 0 <= int_of b)
  /\ (isinstance c Tint = true /\ 0 <= int_of c).
Proof.
  unfold ResourceUsageReport._validate. cbn [for_each]. intros H.
  inv_bind H. clear H. do 2 inv_bind E.
  apply bounded_int_inv in E0 as (x1 & Hg1 & Hi1 & Hm1).
  apply bounded_int_inv in E1 as (x2 & Hg2 & Hi2 & Hm2).
  inv_bind E.
  apply bounded_int_inv in E0 as (x3 & Hg3 & Hi3 & Hm3).
  injection Hg1 as <-. injection Hg2 as <-. injection Hg3 as <-. auto.
Qed.

Lemma Usage_validate_intro (a b c : Z) (r1 r2 r3 : value) :
  0 <= a -> 0 <= b -> 0 <= c ->
  good_Resources r1 -> good_Resources r2 -> good_Resources r3 ->
  ResourceUsageReport._validate
    (VObj cResourceUsageReport [VInt a; VInt b; VInt c; r1; r2; r3])
  = Ok tt.
Proof.
  intros Ha Hb Hc (m1 & v1 & -> & H1) (m2 & v2 & -> & H2)
    (m3 & v3 & -> & H3).
  unfold ResourceUsageReport._validate. cbn [for_each].
  rewrite (bounded_int_intro _ "memory_seconds" _ (VInt a))
    by (reflexivity || assumption).
  rewrite (bounded_int_intro _ "vcore_seconds" _ (VInt b))
    by (reflexivity || assumption).
  rewrite (bounded_int_intro _ "num_used_containers" _ (VInt c))
    by (reflexivity || assumption).
  cbn -[Resources._validate]. now rewrite H1, H2, H3.
Qed.

Lemma Usage_round_trip (e : value) :
  good_Usage e -> fits P e = true ->
  exists msg,
    _convert P utcoffset e = Ok msg
    /\ proto.is_message cResourceUsageReport msg = true
    /\ ResourceUsageReport.from_protobuf msg = Ok (normalize e).
Proof.
  intros (a & b & c & r1 & r2 & r3 & -> & Hvalid & Hr1 & Hr2 & Hr3) Hfits.
  destruct (Usage_validate_inv _ _ _ _ _ _ Hvalid)
    as ((Ha & Ha0) & (Hb & Hb0) & (Hc & Hc0)).
  cbn [fits forall_slots __slots__] in Hfits.
  rewrite (fits_int _ _ a), (fits_int _ _ b), (fits_int _ _ c) in Hfits
    by assumption.
  assert (Hfr : forall r, good_Resources r ->
            match r with
            | VInt z => proto.int_fits P cResourceUsageReport "x" z
            | VBool b => proto.int_fits P cResourceUsageReport "x"
                           (Z_of_bool b)
            | _ => fits P r
            end = fits P r) by (intros r (m & v & -> & _); reflexivity).
  apply andb_true_iff in Hfits as [Hfa Hfits].
  apply andb_true_iff in Hfits as [Hfb Hfits].
  apply andb_true_iff in Hfits as [Hfc Hfits].
  apply andb_true_iff in Hfits as [Hf1 Hfits].
  apply andb_true_iff in Hfits as [Hf2 Hfits].
  apply andb_true_iff in Hfits as [Hf3 _].
  destruct Hr1 as (m1 & v1 & -> & Hv1).
  destruct Hr2 as (m2 & v2 & -> & Hv2).
  destruct Hr3 as (m3 & v3 & -> & Hv3).
  destruct (Resources_round_trip (VObj cResources [m1; v1]))
    as (msg1 & Hc1 & Hm1 & Hp1); [now exists m1, v1|exact Hf1|].
  destruct (Resources_round_trip (VObj cResources [m2; v2]))
    as (msg2 & Hc2 & Hm2 & Hp2); [now exists m2, v2|exact Hf2|].
  destruct (Resources_round_trip (VObj cResources [m3; v3]))
    as (msg3 & Hc3 & Hm3 & Hp3); [now exists m3, v3|exact Hf3|].
  exists (VMsg cResourceUsageReport
            [VInt (int_of a); VInt (int_of b); VInt (int_of c);
             msg1; msg2; msg3]).
  split; [|split; [reflexivity|]].
  - change (_convert P utcoffset (VObj cResourceUsageReport ?l))
      with (_validate (VObj cResourceUsageReport l) ;;;
            kwargs <- map_slots (_convert P utcoffset) VStr
                        (__slots__ cResourceUsageReport) l ;;
            proto.new_message P cResourceUsageReport kwargs).
    change (_validate (VObj cResourceUsageReport ?l))
      with (ResourceUsageReport._validate (VObj cResourceUsageReport l)).
    rewrite Hvalid. cbn [bind __slots__ map_slots].
    rewrite (convert_int a), (convert_int b), (convert_int c) by assumption.
    rewrite Hc1, Hc2, Hc3. cbn [bind]. unfold proto.new_message.
    cbn [keys map fst forallb in_strings mem_str existsb __slots__
         String.eqb Ascii.eqb Bool.eqb orb andb combine proto.descriptor
         map_result snd dict_get assoc is_key].
    rewrite !set_field_int, !set_field_message by assumption. reflexivity.
  - unfold ResourceUsageReport.from_protobuf.
    cbn [getattr __slots__ index_of String.eqb Ascii.eqb Bool.eqb nth_error
         bind].
    rewrite Hp1, Hp2, Hp3. cbn [bind].
    unfold ResourceUsageReport.__init__.
    cbn [check_keywords keys map fst forallb in_strings mem_str existsb
         String.eqb Ascii.eqb Bool.eqb orb andb bind arg assoc is_key
         __slots__].
    rewrite Usage_validate_intro
      by (assumption || eauto using Resources_from_protobuf_good).
    cbn [normalize map bind].
    now rewrite (normalize_int a), (normalize_int b), (normalize_int c)
      by assumption.
Qed.

Lemma convert_str_list (l : list value) :
  forallb (fun i => isinstance i Tstr) l = true ->
  map_result (_convert P utcoffset) l = Ok l.
Proof.
  induction l as [|x l IH]; [reflexivity|]. cbn [forallb map_result].
  intros [Hx Hl]%andb_true_iff. destruct x; try discriminate.
  cbn [_convert bind]. now rewrite IH.
Qed.

Lemma convert_str_dict (d : list (value * value)) :
  forallb (fun v => isinstance v Tstr) (values d) = true ->
  map_values (_convert P utcoffset) d = Ok d.
Proof.
  induction d as [|[k x] d IH]; [reflexivity|].
  cbn [values map snd forallb map_values].
  intros [Hx Hd]%andb_true_iff. destruct x; try discriminate.
  cbn [_convert bind]. unfold values in IH. now rewrite IH.
Qed.

Lemma normalize_str_list (l : list value) :
  forallb (fun i => isinstance i Tstr) l = true -> map normalize l = l.
Proof.
  induction l as [|x l IH]; [reflexivity|]. cbn [forallb map].
  intros [Hx Hl]%andb_true_iff. destruct x; try discriminate.
  cbn [normalize]. now rewrite IH.
Qed.

Lemma normalize_str_dict (d : list (value * value)) :
  forallb (fun v => isinstance v Tstr) (values d) = true ->
  map (fun kv => (fst kv, normalize (snd kv))) d = d.
Proof.
  induction d as [|[k x] d IH]; [reflexivity|].
  cbn [values map snd fst forallb].
  intros [Hx Hd]%andb_true_iff. destruct x; try discriminate.
  cbn [normalize]. unfold values in IH. now rewrite IH.
Qed.

(** The round trip of the values of a dict of instances of one class. *)
Lemma dict_round_trip (c : class) (good : value -> Prop)
    (from_pb : value -> result value) (d : list (value * value)) :
  (forall e, good e -> fits P e = true ->
     exists msg, _convert P utcoffset e = Ok msg
                 /\ proto.is_message c msg = true
                 /\ from_pb msg = Ok (normalize e)) ->
  Forall good (values d) ->
  forallb (fun kv => fits P (snd kv)) d = true ->
  exists dm,
    map_values (_convert P utcoffset) d = Ok dm
    /\ keys dm = keys d
    /\ forallb (proto.is_message c) (values dm) = true
    /\ map_values from_pb dm = Ok (normalize_values d).
Proof.
  intros Hrt. induction d as [|[k x] d IH]; intros Hg Hf.
  - exists []. repeat split; reflexivity.
  - cbn [values map snd forallb] in Hg, Hf. inversion Hg as [|? ? Hx Hd]; subst.
    apply andb_true_iff in Hf as [Hfx Hfd].
    destruct (Hrt x Hx Hfx) as (msg & Hc & Hm & Hp).
    destruct (IH Hd Hfd) as (dm & Hcd & Hk & Hmd & Hpd).
    exists ((k, msg) :: dm). cbn [map_values keys values map fst snd forallb].
    rewrite Hc, Hcd, Hp, Hpd. cbn [bind]. unfold keys in Hk.
    rewrite Hk, Hm. unfold values in Hmd. rewrite Hmd. repeat split.
Qed.

Lemma Service_validate_iff
    (commands resources instances : value) (files env : list (value * value))
    (depends : value) :
  Service._validate
    (VObj cService [commands; resources; instances; VDict files; VDict env;
                    depends]) = Ok tt
  <-> Service_valid commands resources instances files env depends.
Proof.
  unfold Service._validate. split.
  - intros H.
    cbn [getattr __slots__ index_of String.eqb Ascii.eqb Bool.eqb nth_error
         bind] in H.
    do 8 inv_bind H.
    apply bounded_int_inv in E as (x1 & Hg1 & Hi1 & Hm1).
    injection Hg1 as <-.
    apply check_is_type_inv in E0 as (x2 & Hg2 & Hi2).
    injection Hg2 as <-. rewrite orb_false_r in Hi2.
    apply check_is_dict_of_inv in E2 as (d3 & Hg3 & Hk3 & Hv3).
    injection Hg3 as <-.
    apply for_each_inv in E3.
    apply check_is_dict_of_inv in E4 as (d6 & Hg6 & Hk6 & Hv6).
    injection Hg6 as <-.
    apply check_is_list_of_inv in E5 as (l7 & Hg7 & Hl7).
    injection Hg7 as ->.
    apply check_is_list_of_inv in H as (l8 & Hg8 & Hl8).
    injection Hg8 as ->.
    constructor; auto.
    + exists l7. repeat split; auto. intros ->. discriminate E6.
    + eauto.
  - intros [[Hi Hi0] [Hr Hrv] (Hfk & Hfv & Hff) [Hek Hev]
             (cl & -> & Hcl & Hne) (dl & -> & Hdl)].
    rewrite (bounded_int_intro _ "instances" _ instances)
      by (reflexivity || assumption).
    rewrite (check_is_type_intro _ "resources" _ _ resources)
      by (reflexivity || now rewrite Hr).
    cbn [bind getattr __slots__ index_of String.eqb Ascii.eqb Bool.eqb
         nth_error].
    rewrite Hrv. cbn [bind]. unfold Base._check_is_dict_of.
    cbn [bind getattr __slots__ index_of String.eqb Ascii.eqb Bool.eqb
         nth_error is_dict_of].
    rewrite Hfk, Hfv, Hek, Hev. cbn [andb orb negb bind].
    rewrite (for_each_intro _ _ Hff). cbn [bind].
    unfold Base._check_is_list_of.
    cbn [bind getattr __slots__ index_of String.eqb Ascii.eqb Bool.eqb
         nth_error is_list_of].
    rewrite Hcl, Hdl. cbn [andb orb negb bind].
    destruct cl; [now elim Hne|reflexivity].
Qed.

Lemma File_from_protobuf_valid (msg e : value) :
  File.from_protobuf msg = Ok e ->
  isinstance e (Tclass cFile) = true /\ File._validate e = Ok tt.
Proof.
  unfold File.from_protobuf.
  destruct (negb (proto.is_message cFile msg)); [discriminate|].
  intros H. do 5 inv_bind H. unfold File.__init__ in H. do 8 inv_bind H.
  injection H as <-. split; [reflexivity|assumption].
Qed.

Lemma map_values_Forall (f : value -> result value) (Q : value -> Prop)
    (d d' : list (value * value)) :
  (forall x y, f x = Ok y -> Q y) ->
  map_values f d = Ok d' -> keys d' = keys d /\ Forall Q (values d').
Proof.
  intros Hf. revert d'. induction d as [|[k x] d IH]; intros d' H.
  - injection H as <-. split; [reflexivity|constructor].
  - cbn [map_values] in H. do 2 inv_bind H. injection H as <-.
    destruct (IH _ eq_refl) as [Hk Hq].
    cbn [keys values map fst snd]. unfold keys in Hk. rewrite Hk.
    split; [reflexivity|]. constructor; eauto.
Qed.

Lemma Forall_forallb {A} (p : A -> bool) (l : list A) :
  Forall (fun x => p x = true) l -> forallb p l = true.
Proof. intros H. apply forallb_forall. now apply Forall_forall. Qed.

Lemma keys_normalize_values (d : list (value * value)) :
  keys (normalize_values d) = keys d.
Proof.
  unfold keys, normalize_values. rewrite map_map. reflexivity.
Qed.

Lemma Service_round_trip (e : value) :
  good_Service e -> fits P e = true ->
  exists msg,
    _convert P utcoffset e = Ok msg
    /\ proto.is_message cService msg = true
    /\ Service.from_protobuf msg = Ok (normalize e).
Proof.
  intros (commands & resources & instances & files & env & depends & ->
          & Hvalid & Hres & Hfiles & Hdf & Hde) Hfits.
  pose proof (proj1 (Service_validate_iff _ _ _ _ _ _) Hvalid)
    as [[Hi Hi0] [Hr Hrv] (Hfk & Hfv & Hff) [Hek Hev]
        (cl & -> & Hcl & Hne) (dl & -> & Hdl)].
  assert (Hres' := Hres). destruct Hres' as (m & v & -> & Hrv0).
  cbn [fits forall_slots __slots__] in Hfits.
  rewrite (fits_int _ _ instances) in Hfits by assumption.
  apply andb_true_iff in Hfits as [_ Hfits].
  apply andb_true_iff in Hfits as [Hfr Hfits].
  apply andb_true_iff in Hfits as [Hfi Hfits].
  apply andb_true_iff in Hfits as [Hff' _].
  destruct (Resources_round_trip (VObj cResources [m; v]) Hres Hfr)
    as (msgr & Hcr & Hmr & Hpr).
  destruct (dict_round_trip cFile good_File File.from_protobuf files
              File_round_trip Hfiles Hff')
    as (fm & Hcf & Hkf & Hmf & Hpf).
  exists (VMsg cService [VList cl; msgr; VInt (int_of instances); VDict fm;
                         VDict env; VList dl]).
  split; [|split; [reflexivity|]].
  - change (_convert P utcoffset (VObj cService ?l))
      with (_validate (VObj cService l) ;;;
            kwargs <- map_slots (_convert P utcoffset) VStr
                        (__slots__ cService) l ;;
            proto.new_message P cService kwargs).
    change (_validate (VObj cService ?l))
      with (Service._validate (VObj cService l)).
    rewrite Hvalid. cbn [bind __slots__ map_slots].
    rewrite Hcr, (convert_int instances) by assumption.
    cbn [_convert]. rewrite Hcf.
    rewrite !convert_str_list, convert_str_dict by assumption.
    cbn [bind]. unfold proto.new_message.
    cbn [keys map fst forallb in_strings mem_str existsb __slots__
         String.eqb Ascii.eqb Bool.eqb orb andb combine proto.descriptor
         map_result snd dict_get assoc is_key].
    rewrite set_field_int, set_field_message by assumption.
    cbn [proto.set_field is_list_of is_dict_of].
    rewrite Hcl, Hdl, Hek, Hev, Hkf, Hfk, Hmf. reflexivity.
  - unfold Service.from_protobuf.
    cbn [getattr __slots__ index_of String.eqb Ascii.eqb Bool.eqb nth_error
         bind items dict_of list_of].
    rewrite Hpr, Hpf. cbn [bind]. unfold Service.__init__.
    cbn [check_keywords keys map fst forallb in_strings mem_str existsb
         String.eqb Ascii.eqb Bool.eqb orb andb bind arg assoc is_key
         _if_none normalize].
    assert (Hv' : Service._validate
                    (VObj cService
                       [VList cl; VObj cResources [normalize m; normalize v];
                        VInt (int_of instances);
                        VDict (normalize_values files); VDict env; VList dl])
                  = Ok tt).
    { apply Service_validate_iff.
      pose proof (Resources_validate_inv m v true Hrv)
        as (Hm & Hv & Hm1 & Hv1). cbv zeta in Hm1, Hv1.
      destruct (map_values_Forall File.from_protobuf
                  (fun e => isinstance e (Tclass cFile) = true
                            /\ File._validate e = Ok tt) _ _
                  File_from_protobuf_valid Hpf) as [_ Hnf].
      constructor.
      - split; [reflexivity|assumption].
      - split; [reflexivity|].
        rewrite (normalize_int m), (normalize_int v) by assumption.
        now apply Resources_validate_intro.
      - rewrite keys_normalize_values. split; [assumption|]. split.
        + apply Forall_forallb. eapply Forall_impl; [|exact Hnf].
          now intros f [Hf _].
        + eapply Forall_impl; [|exact Hnf]. now intros f [_ Hf].
      - auto.
      - exists cl. auto.
      - exists dl. auto. }
    unfold Base._check_required.
    cbn [for_each __slots__ getattr index_of String.eqb Ascii.eqb Bool.eqb
         nth_error bind map].
    rewrite Hv'. cbn [bind].
    unfold normalize_values.
    now rewrite (normalize_str_list cl), (normalize_str_list dl),
      (normalize_str_dict env), (normalize_int instances) by assumption.
Qed.

Lemma Service_init_valid (kwargs : list (value * value)) (e : value) :
  Service.__init__ kwargs = Ok e ->
  isinstance e (Tclass cService) = true /\ Service._validate e = Ok tt.
Proof.
  unfold Service.__init__. intros H. do 9 inv_bind H.
  injection H as <-. split; [reflexivity|assumption].
Qed.

Lemma Service_from_protobuf_valid (msg e : value) :
  Service.from_protobuf msg = Ok e ->
  isinstance e (Tclass cService) = true /\ Service._validate e = Ok tt.
Proof.
  unfold Service.from_protobuf. intros H. do 6 inv_bind H.
  eauto using Service_init_valid.
Qed.

Lemma Job_validate_iff (name queue : value) (services : list (value * value)) :
  Job._validate (VObj cJob [name; queue; VDict services]) = Ok tt
  <-> (isinstance name Tstr = true
       /\ isinstance queue Tstr || is_None queue = true
       /\ forallb (fun k => isinstance k Tstr) (keys services) = true
       /\ forallb (fun v => isinstance v (Tclass cService)) (values services)
          = true
       /\ services <> []
       /\ Forall (fun s => Service._validate s = Ok tt) (values services)).
Proof.
  unfold Job._validate. split.
  - intros H.
    cbn [getattr __slots__ index_of String.eqb Ascii.eqb Bool.eqb nth_error
         bind] in H.
    do 4 inv_bind H.
    apply check_is_type_inv in E as (x1 & Hg1 & Hi1). injection Hg1 as <-.
    apply check_is_type_inv in E0 as (x2 & Hg2 & Hi2). injection Hg2 as <-.
    apply check_is_dict_of_inv in E1 as (d3 & Hg3 & Hk3 & Hv3).
    injection Hg3 as <-. apply for_each_inv in H.
    rewrite orb_false_r in Hi1. repeat split; auto.
    intros ->. discriminate E2.
  - intros (Hn & Hq & Hk & Hv & Hne & Hs).
    rewrite (check_is_type_intro _ "name" _ _ name)
      by (reflexivity || now rewrite Hn).
    rewrite (check_is_type_intro _ "queue" _ _ queue)
      by (reflexivity || assumption).
    unfold Base._check_is_dict_of.
    cbn [bind getattr __slots__ index_of String.eqb Ascii.eqb Bool.eqb
         nth_error is_dict_of].
    rewrite Hk, Hv. cbn [andb orb negb bind].
    destruct services; [now elim Hne|]. cbn [truthy negb bind].
    now apply for_each_intro.
Qed.

Lemma Job_round_trip (e : value) :
  good_Job e -> fits P e = true ->
  exists msg,
    _convert P utcoffset e = Ok msg
    /\ proto.is_message cJob msg = true
    /\ Job.from_protobuf msg = Ok (normalize e).
Proof.
  intros (name & queue & services & -> & Hvalid & Hgood & Hd) Hfits.
  pose proof (proj1 (Job_validate_iff _ _ _) Hvalid)
    as (Hn & _ & Hk & Hv & Hne & Hs).
  destruct name as [| | | | |name| | | | |]; try discriminate.
  cbn [fits forall_slots __slots__ andb] in Hfits.
  rewrite andb_true_r in Hfits.
  destruct (dict_round_trip cService good_Service Service.from_protobuf
              services Service_round_trip Hgood Hfits)
    as (sm & Hcs & Hks & Hms & Hps).
  exists (VMsg cJob [VStr name; VStr queue; VDict sm]).
  split; [|split; [reflexivity|]].
  - change (_convert P utcoffset (VObj cJob ?l))
      with (_validate (VObj cJob l) ;;;
            kwargs <- map_slots (_convert P utcoffset) VStr
                        (__slots__ cJob) l ;;
            proto.new_message P cJob kwargs).
    change (_validate (VObj cJob ?l)) with (Job._validate (VObj cJob l)).
    rewrite Hvalid. cbn [bind __slots__ map_slots _convert].
    rewrite Hcs. cbn [bind]. unfold proto.new_message.
    cbn [keys map fst forallb in_strings mem_str existsb __slots__
         String.eqb Ascii.eqb Bool.eqb orb andb combine proto.descriptor
         map_result snd dict_get assoc is_key proto.set_field bind].
    rewrite Hks, Hk, Hms. reflexivity.
  - unfold Job.from_protobuf.
    cbn [getattr __slots__ index_of String.eqb Ascii.eqb Bool.eqb nth_error
         bind items].
    rewrite Hps. cbn [bind]. unfold Job.__init__.
    cbn [check_keywords keys map fst forallb in_strings mem_str existsb
         String.eqb Ascii.eqb Bool.eqb orb andb bind arg assoc is_key].
    assert (Hv' : Job._validate
                    (VObj cJob [VStr name; VStr queue;
                                VDict (normalize_values services)])
                  = Ok tt).
    { apply Job_validate_iff.
      destruct (map_values_Forall Service.from_protobuf
                  (fun e => isinstance e (Tclass cService) = true
                            /\ Service._validate e = Ok tt) _ _
                  Service_from_protobuf_valid Hps) as [_ Hns].
      rewrite keys_normalize_values. repeat split; auto.
      - apply Forall_forallb. eapply Forall_impl; [|exact Hns].
        now intros s [Hs' _].
      - destruct services; [now elim Hne|discriminate].
      - eapply Forall_impl; [|exact Hns]. now intros s [_ Hs']. }
    unfold Base._check_required.
    cbn [for_each __slots__ getattr index_of String.eqb Ascii.eqb Bool.eqb
         nth_error bind].
    rewrite Hv'. reflexivity.
Qed.

End RoundTrip.

(** ** What [from_dict] returns *)

Lemma isinstance_str (k : value) : isinstance k Tstr = is_str k.
Proof. now destruct k. Qed.

Lemma well_formed_VDict (d : list (value * value)) :
  well_formed (VDict d) = true ->
  distinct (keys d) = true
  /\ forall k x, assoc k d = Some x -> well_formed x = true.
Proof.
  cbn [well_formed]. intros [Hd Hw]%andb_true_iff. split; [exact Hd|].
  clear Hd. induction d as [|[k' x'] d IH]; [discriminate|].
  cbn [forallb fst snd] in Hw.
  apply andb_true_iff in Hw as [[_ Hx]%andb_true_iff Hw].
  intros k x. cbn [assoc]. destruct (is_key k k').
  - now intros [= <-].
  - now apply IH.
Qed.

Lemma well_formed_values (d : list (value * value)) :
  well_formed (VDict d) = true ->
  Forall (fun x => well_formed x = true) (values d).
Proof.
  cbn [well_formed]. intros [_ Hw]%andb_true_iff.
  induction d as [|[k x] d IH]; [constructor|].
  cbn [forallb fst snd values map] in *.
  apply andb_true_iff in Hw as [[_ Hx]%andb_true_iff Hw].
  constructor; auto.
Qed.

Lemma dict_get_well_formed (d : list (value * value)) (k : string) :
  well_formed (VDict d) = true -> well_formed (dict_get d k VNone) = true.
Proof.
  intros [_ H]%well_formed_VDict. unfold dict_get.
  destruct (assoc k d) eqn:Hk; [eauto|reflexivity].
Qed.

Lemma keys_setitem (d : list (value * value)) (k v : value) :
  keys (setitem d k v)
  = if existsb (fun k' => py_eq k' k) (keys d) then keys d
    else (keys d ++ [k])%list.
Proof.
  induction d as [|[k' v'] d IH]; [reflexivity|].
  cbn [setitem keys map fst existsb]. destruct (py_eq k' k); [reflexivity|].
  cbn [orb keys map fst]. unfold keys in IH. rewrite IH.
  now destruct (existsb _ (map fst d)).
Qed.

Lemma distinct_snoc (ks : list value) (k : value) :
  distinct ks = true -> existsb (fun k' => py_eq k' k) ks = false ->
  distinct (ks ++ [k]) = true.
Proof.
  induction ks as [|k' ks IH]; [reflexivity|].
  cbn [distinct existsb app].
  intros [Hk' Hd]%andb_true_iff [Hne He]%orb_false_iff.
  rewrite (IH Hd He), andb_true_r, existsb_app. cbn [existsb].
  apply negb_true_iff in Hk'. now rewrite Hk', Hne.
Qed.

Lemma distinct_setitem (d : list (value * value)) (k v : value) :
  distinct (keys d) = true -> distinct (keys (setitem d k v)) = true.
Proof.
  intros Hd. rewrite keys_setitem.
  destruct (existsb _ (keys d)) eqn:He; [exact Hd|].
  now apply distinct_snoc.
Qed.

Lemma Forall_values_setitem (Q : value -> Prop) (d : list (value * value))
    (k v : value) :
  Forall Q (values d) -> Q v -> Forall Q (values (setitem d k v)).
Proof.
  intros Hd Hv. induction d as [|[k' v'] d IH]; cbn [setitem values map snd].
  - constructor; [exact Hv|constructor].
  - cbn [values map snd] in Hd. inversion Hd; subst.
    destruct (py_eq k' k); cbn [map snd]; constructor; auto.
Qed.

Lemma dict_from_good (f : value -> result (value * value))
    (Q : value -> Prop) (l : list value) :
  (forall x p, f x = Ok p -> Q (snd p)) ->
  forall acc d,
    distinct (keys acc) = true -> Forall Q (values acc) ->
    dict_from f acc l = Ok d ->
    distinct (keys d) = true /\ Forall Q (values d).
Proof.
  intros Hf. induction l as [|x l IH]; intros acc d Hd Hq H.
  - injection H as <-. auto.
  - cbn [dict_from] in H. inv_bind H.
    destruct (hashable (fst x0)); [|discriminate].
    apply IH in H; auto using distinct_setitem.
    apply Forall_values_setitem; eauto.
Qed.

Lemma map_values_good (f : value -> result value) (Q R : value -> Prop)
    (d d' : list (value * value)) :
  (forall x y, R x -> f x = Ok y -> Q y) ->
  Forall R (values d) ->
  map_values f d = Ok d' -> keys d' = keys d /\ Forall Q (values d').
Proof.
  intros Hf. revert d'. induction d as [|[k x] d IH]; intros d' HR H.
  - injection H as <-. split; [reflexivity|constructor].
  - cbn [map_values] in H. do 2 inv_bind H. injection H as <-.
    cbn [values map snd] in HR. inversion HR; subst.
    destruct (IH _ ltac:(assumption) eq_refl) as [Hk Hq].
    cbn [keys values map fst snd]. unfold keys in Hk. rewrite Hk.
    split; [reflexivity|]. constructor; eauto.
Qed.

Lemma Resources_from_dict_good (obj e : value) :
  Resources.from_dict obj = Ok e -> good_Resources e.
Proof.
  unfold Resources.from_dict, Base.from_dict. intros H. inv_bind H.
  destruct obj; try discriminate. eauto using Resources_init_good.
Qed.

Lemma File_init_good (kwargs : list (value * value)) (e : value) :
  File.__init__ kwargs = Ok e -> good_File e.
Proof.
  unfold File.__init__. intros H. do 8 inv_bind H. injection H as <-.
  do 5 eexists. split; [reflexivity|eassumption].
Qed.

Lemma File_from_dict_good (obj e : value) :
  File.from_dict obj = Ok e -> good_File e.
Proof.
  unfold File.from_dict, Base.from_dict. intros H. inv_bind H.
  destruct obj; try discriminate. eauto using File_init_good.
Qed.

Lemma parse_file_spec_good (urlparse_path : string -> result string)
    (obj : value) (p : value * value) :
  File._parse_file_spec urlparse_path obj = Ok p -> good_File (snd p).
Proof.
  unfold File._parse_file_spec. destruct obj; try discriminate.
  intros H. do 2 inv_bind H. destruct x0 as [source type].
  inv_bind H. destruct x0 as [source' dest]. inv_bind H.
  injection H as <-. eauto using File_init_good.
Qed.

Lemma Service_validate_dicts (commands resources instances files env depends
                              : value) :
  Service._validate
    (VObj cService [commands; resources; instances; files; env; depends])
  = Ok tt ->
  exists fd ed, files = VDict fd /\ env = VDict ed.
Proof.
  unfold Service._validate. intros H.
  cbn [getattr __slots__ index_of String.eqb Ascii.eqb Bool.eqb nth_error
       bind] in H.
  do 6 inv_bind H.
  apply check_is_dict_of_inv in E2 as (fd & Hg & _). injection Hg as ->.
  apply check_is_dict_of_inv in E4 as (ed & Hg & _). injection Hg as ->.
  eauto.
Qed.

Lemma Service_init_shape (kwargs : list (value * value)) (e : value) :
  Service.__init__ kwargs = Ok e ->
  exists commands resources instances files env depends,
    arg kwargs "resources" (Some VRequired) = Ok resources
    /\ arg kwargs "files" (Some VNone) = Ok files
    /\ arg kwargs "env" (Some VNone) = Ok env
    /\ e = VObj cService [commands; resources; instances;
                          _if_none files (VDict []);
                          _if_none env (VDict []);
                          _if_none depends (VList [])]
    /\ Service._validate e = Ok tt.
Proof.
  unfold Service.__init__. intros H. do 9 inv_bind H. injection H as <-.
  do 6 eexists. repeat split; eassumption.
Qed.

Lemma Service_from_dict_good (urlparse_path : string -> result string)
    (obj e : value) :
  well_formed obj = true ->
  Service.from_dict urlparse_path obj = Ok e -> good_Service e.
Proof.
  unfold Service.from_dict. intros Hw H. inv_bind H.
  destruct obj as [| | | | | | |d| | |]; try discriminate.
  do 3 inv_bind H.
  apply Service_init_shape in H
    as (commands & resources & instances & files & env & depends
        & Hres & Hfiles & Henv & -> & Hvalid).
  assert (Hargs : resources = x /\ files = x0
                  /\ env = dict_get d "env" VNone).
  { destruct (mem_key "instances" d).
    - inv_bind E2. injection E2 as <-.
      cbn in Hres, Hfiles, Henv.
      injection Hres as <-. injection Hfiles as <-. injection Henv as <-.
      auto.
    - injection E2 as <-.
      cbn in Hres, Hfiles, Henv.
      injection Hres as <-. injection Hfiles as <-. injection Henv as <-.
      auto. }
  destruct Hargs as (-> & -> & ->). clear Hres Hfiles Henv E2.
  destruct (Service_validate_dicts _ _ _ _ _ _ Hvalid)
    as (fd & ed & Hfd & Hed).
  rewrite Hfd, Hed in *.
  pose proof (proj1 (Service_validate_iff _ _ _ _ _ _) Hvalid) as Hsv.
  exists commands, x, instances, fd, ed, (_if_none depends (VList [])).
  split; [reflexivity|]. split; [exact Hvalid|].
  pose proof (well_formed_VDict d Hw) as [Hdd Hdw].
  assert (Hfiles : distinct (keys fd) = true /\ Forall good_File (values fd)).
  { pose proof (dict_get_well_formed d "files" Hw) as Hwf.
    destruct (dict_get d "files" VNone) as [| | | | | |l|fd0| | |];
      try (injection E1 as <-; cbn [_if_none] in Hfd;
           first [ discriminate Hfd
                 | injection Hfd as <-; split; [reflexivity|constructor] ]).
    - inv_bind E1. injection E1 as <-. injection Hfd as Hfd.
      rewrite Hfd in *.
      apply (dict_from_good (File._parse_file_spec urlparse_path)
               good_File l (parse_file_spec_good urlparse_path) [] fd);
        [reflexivity|constructor|assumption].
    - inv_bind E1. injection E1 as <-. injection Hfd as Hfd.
      rewrite Hfd in *.
      destruct (map_values_good File.from_dict good_File (fun _ => True)
                  fd0 fd) as [Hk Hq].
      + eauto using File_from_dict_good.
      + apply Forall_forall. auto.
      + eassumption.
      + rewrite Hk. split; [|exact Hq]. now apply well_formed_VDict. }
  destruct Hfiles as [Hfk Hfq].
  repeat split; try assumption.
  - (* resources *)
    destruct (negb (is_None (dict_get d "resources" VNone))) eqn:Hn.
    + eauto using Resources_from_dict_good.
    + injection E0 as <-. destruct Hsv as [_ [Hr _] _ _ _ _].
      destruct (dict_get d "resources" VNone); discriminate.
  - (* keys of env *)
    pose proof (dict_get_well_formed d "env" Hw) as Hwe.
    destruct (dict_get d "env" VNone); try discriminate Hed;
      injection Hed as <-; [reflexivity|].
    now apply well_formed_VDict.
Qed.

Lemma Job_validate_services (name queue services : value) :
  Job._validate (VObj cJob [name; queue; services]) = Ok tt ->
  exists sd, services = VDict sd.
Proof.
  unfold Job._validate. intros H.
  cbn [getattr __slots__ index_of String.eqb Ascii.eqb Bool.eqb nth_error
       bind] in H.
  do 3 inv_bind H.
  apply check_is_dict_of_inv in E1 as (sd & Hg & _). injection Hg as ->.
  eauto.
Qed.

Lemma Job_from_dict_good (urlparse_path : string -> result string)
    (obj e : value) (q : string) :
  well_formed obj = true ->
  Job.from_dict urlparse_path obj = Ok e ->
  getattr e "queue" = Ok (VStr q) ->
  good_Job e.
Proof.
  unfold Job.from_dict. intros Hw H Hq. inv_bind H.
  destruct obj as [| | | | | | |d| | |]; try discriminate.
  inv_bind H. unfold Job.__init__ in H.
  cbn [check_keywords keys map fst forallb in_strings mem_str existsb
       String.eqb Ascii.eqb Bool.eqb orb andb bind arg assoc is_key] in H.
  do 2 inv_bind H. injection H as <-.
  injection Hq as Hq. rewrite Hq in *.
  destruct (Job_validate_services _ _ _ E2) as (sd & ->).
  exists (dict_get d "name" VNone), q, sd.
  split; [reflexivity|]. split; [assumption|].
  pose proof (dict_get_well_formed d "services" Hw) as Hws.
  destruct (dict_get d "services" VNone) as [| | | | | | |sd0| | |];
    try discriminate E0.
  inv_bind E0. injection E0 as E0. rewrite E0 in *.
  destruct (map_values_good (Service.from_dict urlparse_path) good_Service
              (fun v => well_formed v = true) sd0 sd) as [Hk Hg].
  - eauto using Service_from_dict_good.
  - now apply well_formed_values.
  - assumption.
  - split; [exact Hg|]. rewrite Hk. now apply well_formed_VDict.
Qed.

Lemma clamped_resources_good (d : list (value * value)) (k2 : string)
    (r : value) :
  ResourceUsageReport.clamped_resources d k2 = Ok r -> good_Resources r.
Proof.
  unfold ResourceUsageReport.clamped_resources. intros H. do 3 inv_bind H.
  eauto using Resources_init_good.
Qed.

Lemma Usage_from_dict_good (obj e : value) :
  ResourceUsageReport.from_dict obj = Ok e -> good_Usage e.
Proof.
  unfold ResourceUsageReport.from_dict. intros H. inv_bind H.
  destruct obj as [| | | | | | |d| | |]; try discriminate.
  do 6 inv_bind H. unfold ResourceUsageReport.__init__ in H.
  cbn [check_keywords keys map fst forallb in_strings mem_str existsb
       String.eqb Ascii.eqb Bool.eqb orb andb bind arg assoc is_key
       __slots__] in H.
  inv_bind H. injection H as <-.
  do 6 eexists. split; [reflexivity|].
  split; [eassumption|]. repeat split; eauto using clamped_resources_good.
Qed.

(** ** Instances returned by [from_dict] are regular *)

Lemma int_regular (x : value) : isinstance x Tint = true -> regular x = true.
Proof. destruct x; try discriminate; reflexivity. Qed.

Lemma str_list_regular (l : list value) :
  forallb (fun i => isinstance i Tstr) l = true -> forallb regular l = true.
Proof.
  induction l as [|x l IH]; [reflexivity|]. cbn [forallb].
  intros [Hx Hl]%andb_true_iff. destruct x; try discriminate.
  cbn [regular]. auto.
Qed.

Lemma dict_regular (d : list (value * value)) :
  distinct (keys d) = true ->
  forallb (fun k => isinstance k Tstr) (keys d) = true ->
  Forall (fun v => regular v = true) (values d) ->
  regular (VDict d) = true.
Proof.
  intros Hd Hk Hv. cbn [regular]. unfold keys in Hd. rewrite Hd.
  cbn [andb]. clear Hd. induction d as [|[k v] d IH]; [reflexivity|].
  cbn [keys values map fst snd forallb] in *.
  apply andb_true_iff in Hk as [Hk1 Hk2]. inversion Hv; subst.
  rewrite <- isinstance_str, Hk1. cbn [andb].
  rewrite IH by assumption. now rewrite andb_true_r.
Qed.

Lemma str_values_regular (d : list (value * value)) :
  forallb (fun v => isinstance v Tstr) (values d) = true ->
  Forall (fun v => regular v = true) (values d).
Proof.
  intros H. apply Forall_forall. intros x Hx.
  apply (proj1 (forallb_forall _ _) H) in Hx. now destruct x.
Qed.

Lemma good_Resources_regular (e : value) :
  good_Resources e -> regular e = true.
Proof.
  intros (m & v & -> & Hvalid).
  destruct (Resources_validate_inv m v false Hvalid) as (Hm & Hv & _).
  cbn [regular forallb]. now rewrite !int_regular by assumption.
Qed.

Lemma good_File_regular (e : value) : good_File e -> regular e = true.
Proof.
  intros (source & type & visibility & size & timestamp & -> & Hvalid).
  destruct (File_validate_inv _ _ _ _ _ Hvalid)
    as (s & t & v & -> & -> & -> & _ & _ & Hsz & Hts & _).
  cbn [regular forallb]. now rewrite !int_regular by assumption.
Qed.

Lemma good_Usage_regular (e : value) : good_Usage e -> regular e = true.
Proof.
  intros (a & b & c & r1 & r2 & r3 & -> & Hvalid & Hr1 & Hr2 & Hr3).
  destruct (Usage_validate_inv _ _ _ _ _ _ Hvalid)
    as ((Ha & _) & (Hb & _) & (Hc & _)).
  cbn [regular forallb].
  now rewrite !int_regular, !good_Resources_regular by assumption.
Qed.

Lemma good_Service_regular (e : value) : good_Service e -> regular e = true.
Proof.
  intros (commands & resources & instances & files & env & depends & ->
          & Hvalid & Hres & Hfiles & Hdf & Hde).
  pose proof (proj1 (Service_validate_iff _ _ _ _ _ _) Hvalid)
    as [[Hi _] _ (Hfk & _ & _) [Hek Hev] (cl & -> & Hcl & _)
        (dl & -> & Hdl)].
  cbn [regular forallb].
  change (forallb regular cl) with (regular (VList cl)).
  change (forallb regular dl) with (regular (VList dl)).
  cbn [regular]. rewrite !str_list_regular by assumption.
  rewrite good_Resources_regular, int_regular by assumption.
  change (regular (VDict files) && (regular (VDict env) && true) = true).
  rewrite !dict_regular; auto using str_values_regular.
  eapply Forall_impl; [|exact Hfiles]. apply good_File_regular.
Qed.

Lemma good_Job_regular (e : value) : good_Job e -> regular e = true.
Proof.
  intros (name & queue & services & -> & Hvalid & Hgood & Hd).
  pose proof (proj1 (Job_validate_iff _ _ _) Hvalid)
    as (Hn & _ & Hk & _).
  destruct name; try discriminate.
  change (regular (VDict services) && true = true).
  rewrite dict_regular; auto.
  eapply Forall_impl; [|exact Hgood]. apply good_Service_regular.
Qed.

(** ** The wire round trip of an instance built from a mapping *)

(** C1, as the code has it: for [Resources], [File], [Service],
    [ResourceUsageReport], and for a [Job] whose [queue] is a string, an
    instance built by [from_dict] from a well-formed mapping, whose
    integers are in the range of the wire fields, converts to a message
    from which [from_protobuf] builds an equal instance. *)
Theorem wire_round_trip (P : proto.declarations) (utcoffset : Z -> Z)
    (urlparse_path : string -> result string) (cls : class) (m e : value) :
  cls <> cApplicationReport ->
  well_formed m = true ->
  from_dict urlparse_path cls m = Ok e ->
  (cls = cJob -> exists q, getattr e "queue" = Ok (VStr q)) ->
  fits P e = true ->
  exists msg e',
    to_protobuf P utcoffset e = Ok msg
    /\ from_protobuf P cls msg = Ok e'
    /\ py_eq e' e = true.
Proof.
  intros Hcls Hw Hfrom Hq Hfits.
  assert (H : exists msg,
             _convert P utcoffset e = Ok msg
             /\ from_protobuf P cls msg = Ok (normalize e)
             /\ regular e = true
             /\ exists c attrs, e = VObj c attrs).
  { destruct cls; cbn [from_dict from_protobuf] in *.
    - pose proof (Resources_from_dict_good _ _ Hfrom) as Hg.
      destruct (Resources_round_trip P utcoffset e Hg Hfits)
        as (msg & Hc & _ & Hp).
      exists msg. repeat split; auto using good_Resources_regular.
      destruct Hg as (? & ? & -> & _). eauto.
    - pose proof (File_from_dict_good _ _ Hfrom) as Hg.
      destruct (File_round_trip P utcoffset e Hg Hfits)
        as (msg & Hc & _ & Hp).
      exists msg. repeat split; auto using good_File_regular.
      destruct Hg as (? & ? & ? & ? & ? & -> & _). eauto.
    - pose proof (Service_from_dict_good _ _ _ Hw Hfrom) as Hg.
      destruct (Service_round_trip P utcoffset e Hg Hfits)
        as (msg & Hc & _ & Hp).
      exists msg. repeat split; auto using good_Service_regular.
      destruct Hg as (? & ? & ? & ? & ? & ? & -> & _). eauto.
    - destruct (Hq eq_refl) as (q & Hqueue).
      pose proof (Job_from_dict_good _ _ _ q Hw Hfrom Hqueue) as Hg.
      destruct (Job_round_trip P utcoffset e Hg Hfits)
        as (msg & Hc & _ & Hp).
      exists msg. repeat split; auto using good_Job_regular.
      destruct Hg as (? & ? & ? & -> & _). eauto.
    - pose proof (Usage_from_dict_good _ _ Hfrom) as Hg.
      destruct (Usage_round_trip P utcoffset e Hg Hfits)
        as (msg & Hc & _ & Hp).
      exists msg. repeat split; auto using good_Usage_regular.
      destruct Hg as (? & ? & ? & ? & ? & ? & -> & _). eauto.
    - now elim Hcls. }
  destruct H as (msg & Hc & Hp & Hr & c & attrs & ->).
  exists msg, (normalize (VObj c attrs)).
  split; [exact Hc|]. split; [exact Hp|]. now apply py_eq_normalize.
Qed.

Lemma wire_round_trip_witness :
  exists msg e',
    to_protobuf example_declarations (fun _ => 0)
      (VObj cJob
         [VStr "demo"; VStr "default";
          VDict
            [(VStr "worker",
              VObj cService
                [VList [VStr "run"]; VObj cResources [VInt 1024; VInt 1];
                 VBool true;
                 VDict
                   [(VStr "data",
                     VObj cFile
                       [VStr "a/b/data.tar.gz"; VStr "ARCHIVE";
                        VStr "APPLICATION"; VInt 0; VInt 0])];
                 VDict [(VStr "A", VStr "b")]; VList []])]]) = Ok msg
    /\ from_protobuf example_declarations cJob msg = Ok e'
    /\ py_eq e'
         (VObj cJob
            [VStr "demo"; VStr "default";
             VDict
               [(VStr "worker",
                 VObj cService
                   [VList [VStr "run"]; VObj cResources [VInt 1024; VInt 1];
                    VBool true;
                    VDict
                      [(VStr "data",
                        VObj cFile
                          [VStr "a/b/data.tar.gz"; VStr "ARCHIVE";
                           VStr "APPLICATION"; VInt 0; VInt 0])];
                    VDict [(VStr "A", VStr "b")]; VList []])]]) = true.
Proof.
  apply (wire_round_trip example_declarations (fun _ => 0)
           urllib.urlparse_path cJob a_job).
  - discriminate.
  - vm_compute. reflexivity.
  - vm_compute. reflexivity.
  - intros _. exists "default". reflexivity.
  - vm_compute. reflexivity.
Defined.

(** C1 does not hold of [ApplicationReport]: on a host at UTC, a report
    started 1001 milliseconds after the epoch comes back from the wire
    with a start time of 1000 milliseconds; at a UTC offset of one hour
    every report comes back shifted by the hour.  Nor does it hold of a
    [Job] built from a mapping without [queue], whose [queue] is [None]
    and comes back as the empty string. *)
Lemma wire_round_trip_fails :
  wire_round_trip_holds example_declarations (fun _ => 0)
    urllib.urlparse_path cApplicationReport (an_application 1001) = Ok false
  /\ wire_round_trip_holds example_declarations (fun _ => 3600)
       urllib.urlparse_path cApplicationReport (an_application 0) = Ok false
  /\ wire_round_trip_holds example_declarations (fun _ => 0)
       urllib.urlparse_path cJob a_job_without_queue = Ok false.
Proof. repeat split; vm_compute; reflexivity. Qed.

(** ** The round trip through [to_dict] *)

Section ToDictRoundTrip.

Variable utcoffset : Z -> Z.
Variable skip_nulls : bool.
Variable urlparse_path : string -> result string.

Lemma convert_to_dict_int (x : value) :
  isinstance x Tint = true -> _convert_to_dict utcoffset skip_nulls x = Ok x.
Proof. destruct x; try discriminate; reflexivity. Qed.

Lemma convert_to_dict_str_list (l : list value) :
  forallb (fun i => isinstance i Tstr) l = true ->
  map_result (_convert_to_dict utcoffset skip_nulls) l = Ok l.
Proof.
  induction l as [|x l IH]; [reflexivity|]. cbn [forallb map_result].
  intros [Hx Hl]%andb_true_iff. destruct x; try discriminate.
  cbn [_convert_to_dict bind]. now rewrite IH.
Qed.

Lemma convert_to_dict_str_dict (d : list (value * value)) :
  forallb (fun v => isinstance v Tstr) (values d) = true ->
  map_values (_convert_to_dict utcoffset skip_nulls) d = Ok d.
Proof.
  induction d as [|[k x] d IH]; [reflexivity|].
  cbn [values map snd forallb map_values].
  intros [Hx Hd]%andb_true_iff. destruct x; try discriminate.
  cbn [_convert_to_dict bind]. unfold values in IH. now rewrite IH.
Qed.

(** A slot that holds no [None] is written whatever [skip_nulls] is. *)
Lemma to_dict_slots_cons (f : value -> result value) (k : string)
    (slots : list string) (val : value) (attrs : list value) :
  is_None val = false ->
  to_dict_slots f skip_nulls (k :: slots) (val :: attrs)
  = (v' <- f val ;; out <- to_dict_slots f skip_nulls slots attrs ;;
     Ok ((VStr k, v') :: out)).
Proof.
  intros H. cbn [to_dict_slots]. rewrite H. now rewrite orb_true_r.
Qed.

Lemma int_not_None (x : value) : isinstance x Tint = true -> is_None x = false.
Proof. destruct x; try discriminate; reflexivity. Qed.

Lemma int_not_required (k : string) (x : value) :
  isinstance x Tint = true ->
  match x with
  | VRequired => Raise (TypeError (is_required_but_wasnt_provided k))
  | _ => Ok tt
  end = Ok tt.
Proof. destruct x; try discriminate; reflexivity. Qed.

Lemma Resources_to_dict_round_trip (m v : value) (is_request : bool) :
  Resources._validate (VObj cResources [m; v]) is_request = Ok tt ->
  _convert_to_dict utcoffset skip_nulls (VObj cResources [m; v])
  = Ok (VDict [(VStr "memory", m); (VStr "vcores", v)])
  /\ Resources.from_dict (VDict [(VStr "memory", m); (VStr "vcores", v)])
     = Ok (VObj cResources [m; v]).
Proof.
  intros Hvalid.
  pose proof (Resources_validate_inv m v is_request Hvalid)
    as (Hm & Hv & Hm0 & Hv0). cbv zeta in Hm0, Hv0.
  assert (Hvalid0 : Resources._validate (VObj cResources [m; v]) false
                    = Ok tt).
  { apply Resources_validate_intro; try assumption;
      destruct is_request; lia. }
  split.
  - cbn [_convert_to_dict].
    change (_validate (VObj cResources [m; v]))
      with (Resources._validate (VObj cResources [m; v]) false).
    rewrite Hvalid0. cbn [bind __slots__].
    rewrite !to_dict_slots_cons by now apply int_not_None.
    rewrite !convert_to_dict_int by assumption. reflexivity.
  - unfold Resources.from_dict, Base.from_dict, Resources.__init__.
    cbn [Base._check_keys __slots__ map fst filter in_strings mem_str existsb
         String.eqb Ascii.eqb Bool.eqb orb negb bind check_keywords keys
         forallb andb arg assoc is_key].
    unfold Base._check_required.
    cbn [for_each __slots__ getattr index_of String.eqb Ascii.eqb Bool.eqb
         nth_error bind].
    destruct m; try discriminate Hm; destruct v; try discriminate Hv;
      cbn [bind]; rewrite Hvalid0; reflexivity.
Qed.

Lemma File_to_dict_round_trip (source type visibility size timestamp : value) :
  File._validate (VObj cFile [source; type; visibility; size; timestamp])
  = Ok tt ->
  _convert_to_dict utcoffset skip_nulls
    (VObj cFile [source; type; visibility; size; timestamp])
  = Ok (VDict [(VStr "source", source); (VStr "type", type);
               (VStr "visibility", visibility); (VStr "size", size);
               (VStr "timestamp", timestamp)])
  /\ File.from_dict
       (VDict [(VStr "source", source); (VStr "type", type);
               (VStr "visibility", visibility); (VStr "size", size);
               (VStr "timestamp", timestamp)])
     = Ok (VObj cFile [source; type; visibility; size; timestamp]).
Proof.
  intros Hvalid.
  destruct (File_validate_inv _ _ _ _ _ Hvalid)
    as (s & t & v & -> & -> & -> & Ht & Hv & Hsz & Hts & Hsz0 & Hts0).
  split.
  - cbn [_convert_to_dict].
    change (_validate (VObj cFile ?a)) with (File._validate (VObj cFile a)).
    rewrite Hvalid. cbn [bind __slots__].
    rewrite !to_dict_slots_cons by (reflexivity || now apply int_not_None).
    rewrite (convert_to_dict_int size), (convert_to_dict_int timestamp)
      by assumption.
    reflexivity.
  - unfold File.from_dict, Base.from_dict, File.__init__.
    cbn [Base._check_keys __slots__ map fst filter in_strings mem_str existsb
         String.eqb Ascii.eqb Bool.eqb orb negb bind check_keywords keys
         forallb andb arg assoc is_key].
    unfold Base._check_required.
    cbn [for_each __slots__ getattr index_of String.eqb Ascii.eqb Bool.eqb
         nth_error bind].
    destruct size; try discriminate Hsz;
      destruct timestamp; try discriminate Hts;
      cbn [bind]; rewrite Hvalid; reflexivity.
Qed.

(** The round trip of the values of a dict of instances of one class. *)
Lemma dict_to_dict_round_trip (good : value -> Prop)
    (from_d : value -> result value) (d : list (value * value)) :
  (forall e, good e ->
     exists m, _convert_to_dict utcoffset skip_nulls e = Ok m
               /\ from_d m = Ok e) ->
  Forall good (values d) ->
  exists dm,
    map_values (_convert_to_dict utcoffset skip_nulls) d = Ok dm
    /\ map_values from_d dm = Ok d.
Proof.
  intros Hrt. induction d as [|[k x] d IH]; intros Hg.
  - exists []. split; reflexivity.
  - cbn [values map snd] in Hg. inversion Hg as [|? ? Hx Hd]; subst.
    destruct (Hrt x Hx) as (m & Hc & Hp).
    destruct (IH Hd) as (dm & Hcd & Hpd).
    exists ((k, m) :: dm). cbn [map_values].
    rewrite Hc, Hcd, Hp, Hpd. split; reflexivity.
Qed.

Lemma valid_File_round_trip (f : value) :
  valid_File f ->
  exists m, _convert_to_dict utcoffset skip_nulls f = Ok m
            /\ File.from_dict m = Ok f.
Proof.
  intros (Hs & Hi & Hv).
  destruct f as [| | | | | | | | |c attrs|]; try discriminate Hi.
  destruct c; try discriminate Hi.
  cbn [shaped __slots__ List.length] in Hs.
  apply andb_true_iff in Hs as [Hlen _].
  destruct attrs as [|a1 [|a2 [|a3 [|a4 [|a5 [|a6 attrs]]]]]];
    try discriminate Hlen.
  destruct (File_to_dict_round_trip _ _ _ _ _ Hv) as [H1 H2]. eauto.
Qed.

Lemma Forall_valid (p q : value -> bool) (R : value -> Prop)
    (l : list value) :
  forallb p l = true -> forallb q l = true -> Forall R l ->
  Forall (fun x => p x = true /\ q x = true /\ R x) l.
Proof.
  induction l as [|x l IH]; [constructor|]. cbn [forallb].
  intros [Hp Hpl]%andb_true_iff [Hq Hql]%andb_true_iff HR.
  inversion HR; subst. constructor; auto.
Qed.

Lemma shaped_values (d : list (value * value)) :
  shaped (VDict d) = true -> forallb shaped (values d) = true.
Proof.
  cbn [shaped]. induction d as [|[k x] d IH]; [reflexivity|].
  cbn [forallb values map fst snd].
  intros [[_ Hx]%andb_true_iff Hd]%andb_true_iff.
  rewrite Hx. now apply IH.
Qed.

Lemma Service_to_dict_round_trip
    (commands resources instances files env depends : value) :
  shaped (VObj cService [commands; resources; instances; files; env; depends])
  = true ->
  Service._validate
    (VObj cService [commands; resources; instances; files; env; depends])
  = Ok tt ->
  exists m,
    _convert_to_dict utcoffset skip_nulls
      (VObj cService [commands; resources; instances; files; env; depends])
    = Ok m
    /\ Service.from_dict urlparse_path m
       = Ok (VObj cService
               [commands; resources; instances; files; env; depends]).
Proof.
  intros Hshape Hvalid.
  destruct (Service_validate_dicts _ _ _ _ _ _ Hvalid)
    as (fd & ed & -> & ->).
  pose proof (proj1 (Service_validate_iff _ _ _ _ _ _) Hvalid)
    as [[Hi Hi0] [Hr Hrv] (Hfk & Hfv & Hff) [Hek Hev]
        (cl & -> & Hcl & Hne) (dl & -> & Hdl)].
  cbn [shaped forallb] in Hshape.
  apply andb_true_iff in Hshape as [_ Hshape].
  apply andb_true_iff in Hshape as [_ Hshape].
  apply andb_true_iff in Hshape as [Hsr Hshape].
  apply andb_true_iff in Hshape as [_ Hshape].
  apply andb_true_iff in Hshape as [Hsf _].
  (* resources *)
  destruct resources as [| | | | | | | | |c attrs|]; try discriminate Hr.
  destruct c; try discriminate Hr.
  cbn [shaped __slots__ List.length] in Hsr.
  apply andb_true_iff in Hsr as [Hlen _].
  destruct attrs as [|m [|v [|a3 attrs]]]; try discriminate Hlen.
  destruct (Resources_to_dict_round_trip m v true Hrv) as [Hcr Hpr].
  (* files *)
  destruct (dict_to_dict_round_trip valid_File File.from_dict fd
              valid_File_round_trip) as (fm & Hcf & Hpf).
  { apply Forall_valid; auto. now apply shaped_values. }
  exists (VDict [(VStr "commands", VList cl);
                 (VStr "resources",
                  VDict [(VStr "memory", m); (VStr "vcores", v)]);
                 (VStr "instances", instances); (VStr "files", VDict fm);
                 (VStr "env", VDict ed); (VStr "depends", VList dl)]).
  split.
  - change (_convert_to_dict utcoffset skip_nulls (VObj cService ?l))
      with (_validate (VObj cService l) ;;;
            out <- to_dict_slots (_convert_to_dict utcoffset skip_nulls)
                     skip_nulls (__slots__ cService) l ;;
            Ok (VDict out)).
    change (_validate (VObj cService ?l))
      with (Service._validate (VObj cService l)).
    rewrite Hvalid. cbn [bind __slots__].
    rewrite !to_dict_slots_cons by (reflexivity || now apply int_not_None).
    rewrite Hcr, (convert_to_dict_int instances) by assumption.
    cbn [_convert_to_dict]. rewrite Hcf.
    rewrite !convert_to_dict_str_list, convert_to_dict_str_dict by assumption.
    reflexivity.
  - unfold Service.from_dict.
    cbn [Base._check_keys __slots__ map fst filter in_strings mem_str existsb
         String.eqb Ascii.eqb Bool.eqb orb negb bind dict_get assoc is_key
         is_None mem_key getitem setitem py_eq].
    rewrite Hpr, Hpf. cbn [bind]. unfold Service.__init__.
    cbn [check_keywords keys map fst forallb in_strings mem_str existsb
         String.eqb Ascii.eqb Bool.eqb orb andb bind arg assoc is_key
         _if_none].
    unfold Base._check_required.
    cbn [for_each __slots__ getattr index_of String.eqb Ascii.eqb Bool.eqb
         nth_error bind].
    rewrite (int_not_required "instances" instances Hi). cbn [bind].
    rewrite Hvalid. reflexivity.
Qed.

Lemma valid_Service_round_trip (s : value) :
  valid_Service s ->
  exists m, _convert_to_dict utcoffset skip_nulls s = Ok m
            /\ Service.from_dict urlparse_path m = Ok s.
Proof.
  intros (Hs & Hi & Hv).
  destruct s as [| | | | | | | | |c attrs|]; try discriminate Hi.
  destruct c; try discriminate Hi.
  assert (Hlen : Nat.eqb (List.length attrs) 6 = true).
  { cbn [shaped __slots__ List.length] in Hs.
    now apply andb_true_iff in Hs as [Hlen _]. }
  destruct attrs as [|a1 [|a2 [|a3 [|a4 [|a5 [|a6 [|a7 attrs]]]]]]];
    try discriminate Hlen.
  now apply Service_to_dict_round_trip.
Qed.

Lemma Job_to_dict_round_trip (name queue services : value) :
  shaped (VObj cJob [name; queue; services]) = true ->
  Job._validate (VObj cJob [name; queue; services]) = Ok tt ->
  exists m,
    _convert_to_dict utcoffset skip_nulls (VObj cJob [name; queue; services])
    = Ok m
    /\ Job.from_dict urlparse_path m = Ok (VObj cJob [name; queue; services]).
Proof.
  intros Hshape Hvalid.
  destruct (Job_validate_services _ _ _ Hvalid) as (sd & ->).
  pose proof (proj1 (Job_validate_iff _ _ _) Hvalid)
    as (Hn & Hq & Hk & Hv & Hne & Hs).
  destruct name as [| | | | |name| | | | |]; try discriminate Hn.
  cbn [shaped forallb] in Hshape.
  apply andb_true_iff in Hshape as [_ Hshape].
  apply andb_true_iff in Hshape as [_ Hshape].
  apply andb_true_iff in Hshape as [_ Hshape].
  apply andb_true_iff in Hshape as [Hss _].
  destruct (dict_to_dict_round_trip valid_Service
              (Service.from_dict urlparse_path) sd valid_Service_round_trip)
    as (sm & Hcs & Hps).
  { apply Forall_valid; auto. now apply shaped_values. }
  change (_convert_to_dict utcoffset skip_nulls (VObj cJob ?l))
    with (_validate (VObj cJob l) ;;;
          out <- to_dict_slots (_convert_to_dict utcoffset skip_nulls)
                   skip_nulls (__slots__ cJob) l ;;
          Ok (VDict out)).
  change (_validate (VObj cJob ?l)) with (Job._validate (VObj cJob l)).
  rewrite Hvalid. cbn [bind __slots__].
  rewrite to_dict_slots_cons by reflexivity. cbn [_convert_to_dict bind].
  destruct queue as [| | | | |q| | | | |]; try discriminate Hq.
  - (* queue is None *)
    destruct skip_nulls.
    + cbn [to_dict_slots negb is_None orb _convert_to_dict bind].
      rewrite Hcs. cbn [bind]. eexists. split; [reflexivity|].
      unfold Job.from_dict.
      cbn [Base._check_keys __slots__ map fst filter in_strings mem_str
           existsb String.eqb Ascii.eqb Bool.eqb orb negb bind dict_get
           assoc is_key].
      rewrite Hps. cbn [bind]. unfold Job.__init__.
      cbn [check_keywords keys map fst forallb in_strings mem_str existsb
           String.eqb Ascii.eqb Bool.eqb orb andb bind arg assoc is_key].
      unfold Base._check_required.
      cbn [for_each __slots__ getattr index_of String.eqb Ascii.eqb Bool.eqb
           nth_error bind].
      rewrite Hvalid. reflexivity.
    + cbn [to_dict_slots negb is_None orb _convert_to_dict bind].
      rewrite Hcs. cbn [bind]. eexists. split; [reflexivity|].
      unfold Job.from_dict.
      cbn [Base._check_keys __slots__ map fst filter in_strings mem_str
           existsb String.eqb Ascii.eqb Bool.eqb orb negb bind dict_get
           assoc is_key].
      rewrite Hps. cbn [bind]. unfold Job.__init__.
      cbn [check_keywords keys map fst forallb in_strings mem_str existsb
           String.eqb Ascii.eqb Bool.eqb orb andb bind arg assoc is_key].
      unfold Base._check_required.
      cbn [for_each __slots__ getattr index_of String.eqb Ascii.eqb Bool.eqb
           nth_error bind].
      rewrite Hvalid. reflexivity.
  - rewrite to_dict_slots_cons by reflexivity.
    cbn [_convert_to_dict bind].
    rewrite to_dict_slots_cons by reflexivity.
    cbn [_convert_to_dict bind to_dict_slots]. rewrite Hcs. cbn [bind].
    eexists. split; [reflexivity|].
    unfold Job.from_dict.
    cbn [Base._check_keys __slots__ map fst filter in_strings mem_str
         existsb String.eqb Ascii.eqb Bool.eqb orb negb bind dict_get
         assoc is_key].
    rewrite Hps. cbn [bind]. unfold Job.__init__.
    cbn [check_keywords keys map fst forallb in_strings mem_str existsb
         String.eqb Ascii.eqb Bool.eqb orb andb bind arg assoc is_key].
    unfold Base._check_required.
    cbn [for_each __slots__ getattr index_of String.eqb Ascii.eqb Bool.eqb
         nth_error bind].
    rewrite Hvalid. reflexivity.
Qed.

End ToDictRoundTrip.

(** X1: an instance of [Resources], [File], [Service] or [Job] that holds
    one object per slot and passes its validation is written by [to_dict],
    with or without nulls, to a mapping from which [from_dict] of its class
    builds the same instance again. *)
Theorem to_dict_round_trip (utcoffset : Z -> Z) (skip_nulls : bool)
    (urlparse_path : string -> result string) (cls : class) (e : value) :
  cls <> cResourceUsageReport -> cls <> cApplicationReport ->
  isinstance e (Tclass cls) = true ->
  shaped e = true ->
  _validate e = Ok tt ->
  exists d,
    to_dict utcoffset skip_nulls e = Ok d
    /\ from_dict urlparse_path cls d = Ok e.
Proof.
  intros Hu Ha Hi Hs Hv.
  destruct e as [| | | | | | | | |c attrs|]; try discriminate Hi.
  cbn [isinstance] in Hi. apply class_eqb_eq in Hi. subst c.
  assert (Hlen : Nat.eqb (List.length attrs) (List.length (__slots__ cls))
                 = true).
  { cbn [shaped] in Hs. now apply andb_true_iff in Hs as [Hlen _]. }
  change (to_dict utcoffset skip_nulls (VObj cls attrs))
    with (_convert_to_dict utcoffset skip_nulls (VObj cls attrs)).
  destruct cls; cbn [__slots__ List.length] in Hlen;
    [ | | | |now elim Hu|now elim Ha].
  - destruct attrs as [|m [|v [|a3 attrs]]]; try discriminate Hlen.
    destruct (Resources_to_dict_round_trip utcoffset skip_nulls m v false Hv)
      as [H1 H2].
    eauto.
  - destruct attrs as [|a1 [|a2 [|a3 [|a4 [|a5 [|a6 attrs]]]]]];
      try discriminate Hlen.
    destruct (File_to_dict_round_trip utcoffset skip_nulls _ _ _ _ _ Hv)
      as [H1 H2].
    eauto.
  - destruct attrs as [|a1 [|a2 [|a3 [|a4 [|a5 [|a6 [|a7 attrs]]]]]]];
      try discriminate Hlen.
    now apply Service_to_dict_round_trip.
  - destruct attrs as [|a1 [|a2 [|a3 [|a4 attrs]]]]; try discriminate Hlen.
    now apply Job_to_dict_round_trip.
Qed.

Lemma to_dict_round_trip_witness :
  exists d,
    to_dict (fun _ => 0) true
      (VObj cJob
         [VStr "demo"; VNone;
          VDict
            [(VStr "worker",
              VObj cService
                [VList [VStr "run"]; VObj cResources [VInt 1024; VInt 1];
                 VBool true;
                 VDict
                   [(VStr "data",
                     VObj cFile
                       [VStr "a/b/data.tar.gz"; VStr "ARCHIVE";
                        VStr "APPLICATION"; VInt 0; VInt 0])];
                 VDict [(VStr "A", VStr "b")]; VList []])]]) = Ok d
    /\ from_dict urllib.urlparse_path cJob d
       = Ok (VObj cJob
               [VStr "demo"; VNone;
                VDict
                  [(VStr "worker",
                    VObj cService
                      [VList [VStr "run"];
                       VObj cResources [VInt 1024; VInt 1]; VBool true;
                       VDict
                         [(VStr "data",
                           VObj cFile
                             [VStr "a/b/data.tar.gz"; VStr "ARCHIVE";
                              VStr "APPLICATION"; VInt 0; VInt 0])];
                       VDict [(VStr "A", VStr "b")]; VList []])]]).
Proof.
  apply (to_dict_round_trip (fun _ => 0) true urllib.urlparse_path cJob).
  - discriminate.
  - discriminate.
  - reflexivity.
  - vm_compute. reflexivity.
  - vm_compute. reflexivity.
Defined.

(** ** The reports do not read back what [to_dict] writes *)

Lemma index_of_nth (k : string) (l : list string) (i : nat) :
  index_of k l = Some i -> nth_error l i = Some k.
Proof.
  revert i. induction l as [|k' l IH]; intros i; [discriminate|].
  cbn [index_of]. destruct (String.eqb_spec k k') as [->|Hne].
  - now intros [= <-].
  - destruct (index_of k l) as [j|]; [|discriminate].
    intros [= <-]. now apply IH.
Qed.

Lemma getattr_nth (c : class) (attrs : list value) (k : string) (v : value) :
  getattr (VObj c attrs) k = Ok v ->
  exists i, nth_error (__slots__ c) i = Some k /\ nth_error attrs i = Some v.
Proof.
  cbn [getattr]. destruct (index_of k (__slots__ c)) as [i|] eqn:Hi;
    [|discriminate].
  destruct (nth_error attrs i) as [x|] eqn:Hx; [|discriminate].
  intros [= <-]. exists i. split; [now apply index_of_nth|exact Hx].
Qed.

(** The key of a slot that holds no [None] is in the output. *)
Lemma to_dict_slots_key (f : value -> result value) (skip_nulls : bool)
    (slots : list string) (attrs : list value) (out : list (value * value))
    (i : nat) (k : string) (v : value) :
  to_dict_slots f skip_nulls slots attrs = Ok out ->
  nth_error slots i = Some k -> nth_error attrs i = Some v ->
  is_None v = false ->
  In (VStr k) (keys out).
Proof.
  revert attrs out i.
  induction slots as [|k' slots IH]; intros attrs out i H Hk Hv Hn.
  - now destruct i.
  - destruct attrs as [|val attrs]; [now destruct i|].
    cbn [to_dict_slots] in H. destruct i as [|i].
    + injection Hk as ->. injection Hv as ->. rewrite Hn, orb_true_r in H.
      do 2 inv_bind H. injection H as <-. now left.
    + cbn [nth_error] in Hk, Hv.
      destruct (negb skip_nulls || negb (is_None val)).
      * do 2 inv_bind H. injection H as <-. right. eauto.
      * eauto.
Qed.

Lemma application_keys :
  ApplicationReport._keys
  = ["id"; "name"; "user"; "queue"; "tags"; "host"; "port"; "trackingUrl";
     "state"; "finalStatus"; "progress"; "usage"; "diagnostics"; "startTime";
     "finishTime"].
Proof. vm_compute. reflexivity. Qed.

Lemma str_not_None (x : value) : isinstance x Tstr = true -> is_None x = false.
Proof. destruct x; try discriminate; reflexivity. Qed.

(** X2: a mapping written by [to_dict] of a [ResourceUsageReport] or an
    [ApplicationReport] is never read back: its keys are the slot names,
    [from_dict] of these classes allows the camel-case names only, and it
    raises the [ValueError] of the key check, which lists a slot name. *)
Theorem report_to_dict_is_not_read_back (utcoffset : Z -> Z)
    (skip_nulls : bool) (urlparse_path : string -> result string)
    (cls : class) (e d : value) :
  cls = cResourceUsageReport \/ cls = cApplicationReport ->
  isinstance e (Tclass cls) = true ->
  to_dict utcoffset skip_nulls e = Ok d ->
  exists extra k,
    from_dict urlparse_path cls d
    = Raise (ValueError (Unknown_extra_keys_for (class_name cls) extra))
    /\ In (VStr k) extra /\ In k (__slots__ cls).
Proof.
  intros Hcls Hi Hd.
  destruct e as [| | | | | | | | |c attrs|]; try discriminate Hi.
  cbn [isinstance] in Hi. apply class_eqb_eq in Hi. subst c.
  cbn [to_dict] in Hd. inv_bind Hd. inv_bind Hd. injection Hd as <-.
  assert (Hkey : exists k v,
             getattr (VObj cls attrs) k = Ok v /\ is_None v = false
             /\ in_strings (VStr k) (allowed_keys cls) = false).
  { destruct Hcls as [-> | ->].
    - exists "memory_seconds".
      change (_validate (VObj cResourceUsageReport attrs))
        with (ResourceUsageReport._validate (VObj cResourceUsageReport attrs))
        in E.
      unfold ResourceUsageReport._validate in E. cbn [for_each] in E.
      inv_bind E. clear E. inv_bind E1.
      apply bounded_int_inv in E as (v & Hg & Hint & _).
      exists v. split; [exact Hg|]. split; [now apply int_not_None|].
      cbn [allowed_keys]. rewrite usage_keys. reflexivity.
    - exists "final_status".
      change (_validate (VObj cApplicationReport attrs))
        with (ApplicationReport._validate (VObj cApplicationReport attrs))
        in E.
      unfold ApplicationReport._validate in E. do 10 inv_bind E.
      apply check_is_type_inv in E10 as (v & Hg & Hstr).
      rewrite orb_false_r in Hstr.
      exists v. split; [exact Hg|]. split; [now apply str_not_None|].
      cbn [allowed_keys]. rewrite application_keys. reflexivity. }
  destruct Hkey as (k & v & Hg & Hn & Hk).
  destruct (getattr_nth _ _ _ _ Hg) as (i & Hik & Hiv).
  pose proof (to_dict_slots_key _ _ _ _ _ _ _ _ E0 Hik Hiv Hn) as Hin.
  exists (filter (fun k => negb (in_strings k (allowed_keys cls))) (keys x)),
    k.
  split; [|split].
  - apply from_dict_checks_keys_first. apply (check_keys_unknown _ _ _ (VStr k)).
    + destruct Hcls as [-> | ->]; cbn [allowed_keys];
        rewrite ?usage_keys, ?application_keys; discriminate.
    + exact Hin.
    + exact Hk.
  - apply filter_In. split; [exact Hin|]. now rewrite Hk.
  - now apply nth_error_In in Hik.
Qed.

Lemma report_to_dict_is_not_read_back_witness :
  exists extra k,
    from_dict urllib.urlparse_path cResourceUsageReport
      (VDict [(VStr "memory_seconds", VInt 10); (VStr "vcore_seconds", VInt 20);
              (VStr "num_used_containers", VInt 3);
              (VStr "needed_resources", resources_mapping 0 0);
              (VStr "reserved_resources", resources_mapping 1024 1);
              (VStr "used_resources", resources_mapping 2048 2)])
    = Raise (ValueError (Unknown_extra_keys_for "ResourceUsageReport" extra))
    /\ In (VStr k) extra /\ In k (__slots__ cResourceUsageReport).
Proof.
  apply (report_to_dict_is_not_read_back (fun _ => 0) true
           urllib.urlparse_path cResourceUsageReport
           (usage_object 10 20 3 (0, 0) (1024, 1) (2048, 2))).
  - left. reflexivity.
  - reflexivity.
  - vm_compute. reflexivity.
Defined.

(** ** What the constructors return *)

(** X3: [from_dict] of each of the six classes raises the [TypeError] of
    the key check on every object that is no dict. *)
Theorem from_dict_of_non_mapping (urlparse_path : string -> result string)
    (cls : class) (obj : value) :
  isinstance obj Tdict = false ->
  from_dict urlparse_path cls obj
  = Raise (TypeError (Expected_mapping_for (class_name cls))).
Proof.
  intros H. apply from_dict_checks_keys_first.
  unfold Base._check_keys. destruct obj; try reflexivity. discriminate H.
Qed.

Lemma from_dict_of_non_mapping_witness :
  from_dict urllib.urlparse_path cJob (VList [a_service])
  = Raise (TypeError (Expected_mapping_for "Job")).
Proof.
  apply (from_dict_of_non_mapping urllib.urlparse_path cJob (VList [a_service])).
  reflexivity.
Defined.

Lemma int_shaped (x : value) : isinstance x Tint = true -> shaped x = true.
Proof. destruct x; try discriminate; reflexivity. Qed.

Lemma str_list_shaped (l : list value) :
  forallb (fun i => isinstance i Tstr) l = true -> forallb shaped l = true.
Proof.
  induction l as [|x l IH]; [reflexivity|]. cbn [forallb].
  intros [Hx Hl]%andb_true_iff. destruct x; try discriminate.
  cbn [shaped]. auto.
Qed.

Lemma dict_shaped (d : list (value * value)) :
  forallb (fun k => isinstance k Tstr) (keys d) = true ->
  Forall (fun v => shaped v = true) (values d) ->
  shaped (VDict d) = true.
Proof.
  cbn [shaped]. induction d as [|[k v] d IH]; [reflexivity|].
  cbn [keys values map fst snd forallb].
  intros [Hk Hd]%andb_true_iff Hv. inversion Hv as [|? ? Hv1 Hv2]; subst.
  destruct k; try discriminate Hk. cbn [shaped andb]. rewrite Hv1.
  now apply IH.
Qed.

Lemma str_values_shaped (d : list (value * value)) :
  forallb (fun v => isinstance v Tstr) (values d) = true ->
  Forall (fun v => shaped v = true) (values d).
Proof.
  intros H. apply Forall_forall. intros x Hx.
  apply (proj1 (forallb_forall _ _) H) in Hx. now destruct x.
Qed.

Lemma good_Resources_shaped (e : value) : good_Resources e -> shaped e = true.
Proof.
  intros (m & v & -> & Hvalid).
  destruct (Resources_validate_inv m v false Hvalid) as (Hm & Hv & _).
  cbn [shaped forallb]. now rewrite !int_shaped by assumption.
Qed.

Lemma good_File_shaped (e : value) : good_File e -> shaped e = true.
Proof.
  intros (source & type & visibility & size & timestamp & -> & Hvalid).
  destruct (File_validate_inv _ _ _ _ _ Hvalid)
    as (s & t & v & -> & -> & -> & _ & _ & Hsz & Hts & _).
  cbn [shaped forallb]. now rewrite !int_shaped by assumption.
Qed.

Lemma good_Usage_shaped (e : value) : good_Usage e -> shaped e = true.
Proof.
  intros (a & b & c & r1 & r2 & r3 & -> & Hvalid & Hr1 & Hr2 & Hr3).
  destruct (Usage_validate_inv _ _ _ _ _ _ Hvalid)
    as ((Ha & _) & (Hb & _) & (Hc & _)).
  cbn [shaped forallb].
  now rewrite !int_shaped, !good_Resources_shaped by assumption.
Qed.

Lemma Service_valid_shaped
    (commands resources instances files env depends : value) :
  Service._validate
    (VObj cService [commands; resources; instances; files; env; depends])
  = Ok tt ->
  shaped resources = true ->
  (forall fd, files = VDict fd -> Forall (fun f => shaped f = true) (values fd)) ->
  shaped (VObj cService [commands; resources; instances; files; env; depends])
  = true.
Proof.
  intros Hvalid Hr Hf.
  destruct (Service_validate_dicts _ _ _ _ _ _ Hvalid)
    as (fd & ed & -> & ->).
  pose proof (proj1 (Service_validate_iff _ _ _ _ _ _) Hvalid)
    as [[Hi _] _ (Hfk & _ & _) [Hek Hev] (cl & -> & Hcl & _)
        (dl & -> & Hdl)].
  cbn [shaped forallb List.length __slots__ Nat.eqb andb].
  change (forallb shaped cl) with (shaped (VList cl)).
  change (forallb shaped dl) with (shaped (VList dl)).
  cbn [shaped]. rewrite !str_list_shaped by assumption.
  rewrite Hr, int_shaped by assumption.
  change (shaped (VDict fd) && (shaped (VDict ed) && true) = true).
  rewrite !dict_shaped; auto using str_values_shaped.
Qed.

Lemma Job_valid_shaped (name queue services : value) :
  Job._validate (VObj cJob [name; queue; services]) = Ok tt ->
  (forall sd, services = VDict sd ->
     Forall (fun s => shaped s = true) (values sd)) ->
  shaped (VObj cJob [name; queue; services]) = true.
Proof.
  intros Hvalid Hs.
  destruct (Job_validate_services _ _ _ Hvalid) as (sd & ->).
  pose proof (proj1 (Job_validate_iff _ _ _) Hvalid)
    as (Hn & Hq & Hk & _).
  destruct name; try discriminate Hn.
  assert (Hqs : shaped queue = true) by (destruct queue; try discriminate Hq; reflexivity).
  cbn [shaped forallb List.length __slots__ Nat.eqb andb].
  rewrite Hqs.
  change (shaped (VDict sd) && true = true).
  rewrite dict_shaped; auto.
Qed.

Lemma map_values_Forall_out (f : value -> result value) (Q : value -> Prop)
    (d d' : list (value * value)) :
  (forall x y, f x = Ok y -> Q y) ->
  map_values f d = Ok d' -> Forall Q (values d').
Proof.
  intros Hf H. now destruct (map_values_Forall f Q d d' Hf H).
Qed.

Lemma dict_from_Forall (f : value -> result (value * value))
    (Q : value -> Prop) (l : list value) :
  (forall x p, f x = Ok p -> Q (snd p)) ->
  forall acc d,
    Forall Q (values acc) -> dict_from f acc l = Ok d -> Forall Q (values d).
Proof.
  intros Hf. induction l as [|x l IH]; intros acc d Hq H.
  - now injection H as <-.
  - cbn [dict_from] in H. inv_bind H.
    destruct (hashable (fst x0)); [|discriminate].
    apply IH in H; [exact H|]. apply Forall_values_setitem; eauto.
Qed.

Lemma Service_init_shaped (kwargs : list (value * value)) (e : value) :
  (forall r, arg kwargs "resources" (Some VRequired) = Ok r ->
     shaped r = true) ->
  (forall fd, arg kwargs "files" (Some VNone) = Ok (VDict fd) ->
     Forall (fun f => shaped f = true) (values fd)) ->
  Service.__init__ kwargs = Ok e ->
  isinstance e (Tclass cService) = true /\ shaped e = true
  /\ Service._validate e = Ok tt.
Proof.
  intros Hr Hf H.
  apply Service_init_shape in H
    as (commands & resources & instances & files & env & depends
        & Hres & Hfiles & Henv & -> & Hvalid).
  split; [reflexivity|]. split; [|exact Hvalid].
  apply Service_valid_shaped; auto.
  intros fd Hfd. destruct files; try discriminate Hfd.
  - injection Hfd as <-. constructor.
  - cbn [_if_none] in Hfd. injection Hfd as ->. auto.
Qed.

Lemma Service_from_dict_valid (urlparse_path : string -> result string)
    (obj e : value) :
  Service.from_dict urlparse_path obj = Ok e ->
  isinstance e (Tclass cService) = true /\ shaped e = true
  /\ Service._validate e = Ok tt.
Proof.
  unfold Service.from_dict. intros H. inv_bind H.
  destruct obj as [| | | | | | |d| | |]; try discriminate.
  do 3 inv_bind H.
  assert (Hx : shaped x = true).
  { destruct (dict_get d "resources" VNone); cbn [is_None negb] in E0;
      try (now eauto using good_Resources_shaped, Resources_from_dict_good).
    now injection E0 as <-. }
  assert (Hx0 : forall fd, x0 = VDict fd ->
                  Forall (fun f => shaped f = true) (values fd)).
  { intros fd ->.
    destruct (dict_get d "files" VNone) as [| | | | | |l|fd0| | |];
      try discriminate E1.
    - inv_bind E1. injection E1 as ->.
      apply (dict_from_Forall (File._parse_file_spec urlparse_path)
               (fun f => shaped f = true) l) with (acc := []);
        [|constructor|assumption].
      intros y p Hp. eauto using good_File_shaped, parse_file_spec_good.
    - inv_bind E1. injection E1 as ->.
      apply (map_values_Forall_out File.from_dict _ fd0); [|assumption].
      eauto using good_File_shaped, File_from_dict_good. }
  revert H. apply Service_init_shaped.
  - destruct (mem_key "instances" d).
    + inv_bind E2. injection E2 as <-. cbn. now intros r [= <-].
    + injection E2 as <-. cbn. now intros r [= <-].
  - destruct (mem_key "instances" d).
    + inv_bind E2. injection E2 as <-. cbn. intros fd [= Hfd]. auto.
    + injection E2 as <-. cbn. intros fd [= Hfd]. auto.
Qed.

Lemma Service_from_protobuf_shaped (msg e : value) :
  Service.from_protobuf msg = Ok e ->
  isinstance e (Tclass cService) = true /\ shaped e = true
  /\ Service._validate e = Ok tt.
Proof.
  unfold Service.from_protobuf. intros H. do 6 inv_bind H.
  revert H. apply Service_init_shaped.
  - cbn. intros r [= <-]. inv_bind E.
    eauto using good_Resources_shaped, Resources_from_protobuf_good.
  - cbn. intros fd [= <-]. do 2 inv_bind E0.
    apply (map_values_Forall_out File.from_protobuf _ x6); [|assumption].
    intros m f Hf. apply good_File_shaped. revert Hf.
    unfold File.from_protobuf.
    destruct (negb (proto.is_message cFile m)); [discriminate|].
    intros Hf. do 5 inv_bind Hf. eauto using File_init_good.
Qed.

Lemma Job_init_shaped (kwargs : list (value * value)) (e : value) :
  (forall sd, arg kwargs "services" (Some VRequired) = Ok (VDict sd) ->
     Forall (fun s => shaped s = true) (values sd)) ->
  Job.__init__ kwargs = Ok e ->
  isinstance e (Tclass cJob) = true /\ shaped e = true
  /\ Job._validate e = Ok tt.
Proof.
  intros Hs H. unfold Job.__init__ in H. do 6 inv_bind H.
  injection H as <-. split; [reflexivity|]. split; [|assumption].
  apply Job_valid_shaped; [assumption|].
  intros sd ->. now apply Hs.
Qed.

Lemma Job_from_dict_valid (urlparse_path : string -> result string)
    (obj e : value) :
  Job.from_dict urlparse_path obj = Ok e ->
  isinstance e (Tclass cJob) = true /\ shaped e = true
  /\ Job._validate e = Ok tt.
Proof.
  unfold Job.from_dict. intros H. inv_bind H.
  destruct obj as [| | | | | | |d| | |]; try discriminate.
  inv_bind H. revert H. apply Job_init_shaped.
  cbn. intros sd [= ->].
  destruct (dict_get d "services" VNone) as [| | | | | | |sd0| | |];
    try discriminate E0.
  inv_bind E0. injection E0 as ->.
  apply (map_values_Forall_out (Service.from_dict urlparse_path) _ sd0);
    [|assumption].
  intros m s Hs. now destruct (Service_from_dict_valid _ _ _ Hs) as (_ & ? & _).
Qed.

Lemma Job_from_protobuf_valid (msg e : value) :
  Job.from_protobuf msg = Ok e ->
  isinstance e (Tclass cJob) = true /\ shaped e = true
  /\ Job._validate e = Ok tt.
Proof.
  unfold Job.from_protobuf. intros H. do 3 inv_bind H.
  revert H. apply Job_init_shaped.
  cbn. intros sd [= <-]. do 2 inv_bind E.
  apply (map_values_Forall_out Service.from_protobuf _ x3); [|assumption].
  intros m s Hs.
  now destruct (Service_from_protobuf_shaped _ _ Hs) as (_ & ? & _).
Qed.

Lemma Usage_init_good (kwargs : list (value * value)) (e : value) :
  (forall k r, In k ["needed_resources"; "reserved_resources";
                     "used_resources"] ->
     arg kwargs k None = Ok r -> good_Resources r) ->
  ResourceUsageReport.__init__ kwargs = Ok e -> good_Usage e.
Proof.
  intros Hr H. unfold ResourceUsageReport.__init__ in H. do 8 inv_bind H.
  injection H as <-. do 6 eexists. split; [reflexivity|].
  split; [eassumption|].
  repeat split; eapply Hr; try eassumption; cbn; auto.
Qed.

Lemma Usage_from_protobuf_good (msg e : value) :
  ResourceUsageReport.from_protobuf msg = Ok e -> good_Usage e.
Proof.
  unfold ResourceUsageReport.from_protobuf. intros H. do 6 inv_bind H.
  revert H. apply Usage_init_good.
  inv_bind E2. inv_bind E3. inv_bind E4.
  intros k r [<-|[<-|[<-|[]]]]; cbn; intros [= <-];
    eauto using Resources_from_protobuf_good.
Qed.

Lemma good_Usage_valid (e : value) :
  good_Usage e ->
  isinstance e (Tclass cResourceUsageReport) = true /\ shaped e = true
  /\ ResourceUsageReport._validate e = Ok tt.
Proof.
  intros H. pose proof (good_Usage_shaped e H) as Hs.
  destruct H as (a & b & c & r1 & r2 & r3 & -> & Hvalid & _). auto.
Qed.

Lemma map_result_Forall2 {A B} (f : A -> result B) (l : list A)
    (ys : list B) :
  map_result f l = Ok ys -> Forall2 (fun x y => f x = Ok y) l ys.
Proof.
  revert ys. induction l as [|x l IH]; intros ys H.
  - injection H as <-. constructor.
  - cbn [map_result] in H. do 2 inv_bind H. injection H as <-.
    constructor; auto.
Qed.

Lemma prim_shaped (x : value) (t : pytype) (nullable : bool) :
  isinstance x t || (nullable && is_None x) = true ->
  In t [Tstr; Tint; Tfloat; Tdatetime] ->
  shaped x = true.
Proof.
  intros H [<-|[<-|[<-|[<-|[]]]]]; destruct x; try reflexivity;
    cbn in H; rewrite ?andb_false_r in H; discriminate H.
Qed.

Lemma Application_init_valid (kwargs : list (value * value)) (e : value) :
  (forall u, arg kwargs "usage" None = Ok u -> shaped u = true) ->
  ApplicationReport.__init__ kwargs = Ok e ->
  isinstance e (Tclass cApplicationReport) = true /\ shaped e = true
  /\ ApplicationReport._validate e = Ok tt.
Proof.
  intros Hu H. unfold ApplicationReport.__init__ in H. do 3 inv_bind H.
  injection H as <-. split; [reflexivity|]. split; [|assumption].
  apply map_result_Forall2 in E0. cbn [__slots__] in E0.
  repeat match goal with
         | H : Forall2 _ (_ :: _) _ |- _ =>
             inversion H; subst; clear H
         | H : Forall2 _ [] _ |- _ => inversion H; subst; clear H
         end.
  cbn [shaped List.length __slots__ Nat.eqb forallb andb].
  assert (Hvalid := E1). unfold ApplicationReport._validate in E1.
  repeat match goal with
         | H : bind ?r _ = Ok _ |- _ => inv_bind H
         end.
  repeat match goal with
         | H : Base._check_is_type _ ?k ?t _ = Ok tt |- _ =>
             let x := fresh "x" in
             let Hg := fresh "Hg" in
             let Hi := fresh "Hi" in
             apply check_is_type_inv in H as (x & Hg & Hi);
             cbn [getattr __slots__ index_of String.eqb Ascii.eqb Bool.eqb
                  nth_error] in Hg;
             injection Hg as <-;
             try (rewrite (prim_shaped _ t _ Hi) by (cbn; tauto))
         end.
  apply check_is_list_of_inv in E5 as (l & Hg & Hl). injection Hg as ->.
  change (forallb shaped l) with (shaped (VList l)).
  cbn [shaped]. rewrite (str_list_shaped l Hl).
  rewrite Hu by assumption. reflexivity.
Qed.

Lemma Application_from_dict_valid (obj e : value) :
  ApplicationReport.from_dict obj = Ok e ->
  isinstance e (Tclass cApplicationReport) = true /\ shaped e = true
  /\ ApplicationReport._validate e = Ok tt.
Proof.
  unfold ApplicationReport.from_dict. intros H. inv_bind H.
  destruct obj as [| | | | | | |d| | |]; try discriminate.
  do 3 inv_bind H. revert H. apply Application_init_valid.
  inv_bind E0. intros u Hu.
  rewrite application_keys in Hu. cbn in Hu. injection Hu as <-.
  eauto using good_Usage_shaped, Usage_from_dict_good.
Qed.

Lemma Application_from_protobuf_valid (P : proto.declarations)
    (msg e : value) :
  ApplicationReport.from_protobuf P msg = Ok e ->
  isinstance e (Tclass cApplicationReport) = true /\ shaped e = true
  /\ ApplicationReport._validate e = Ok tt.
Proof.
  unfold ApplicationReport.from_protobuf. intros H. do 15 inv_bind H.
  revert H. apply Application_init_valid.
  cbn. intros u [= <-]. inv_bind E10.
  eauto using good_Usage_shaped, Usage_from_protobuf_good.
Qed.

(** X4: whatever [from_dict] returns is an instance of the class that
    holds one object per slot, at any depth, and passes the validation of
    the class, which includes that of the instances it holds. *)
Theorem from_dict_returns_valid_instance
    (urlparse_path : string -> result string) (cls : class) (m e : value) :
  from_dict urlparse_path cls m = Ok e ->
  isinstance e (Tclass cls) = true /\ shaped e = true /\ _validate e = Ok tt.
Proof.
  destruct cls; cbn [from_dict]; intros H.
  - apply Resources_from_dict_good in H.
    pose proof (good_Resources_shaped e H) as Hs.
    destruct H as (a & b & -> & Hv). auto.
  - apply File_from_dict_good in H.
    pose proof (good_File_shaped e H) as Hs.
    destruct H as (a & b & c & d & f & -> & Hv). auto.
  - destruct (Service_from_dict_valid _ _ _ H) as (Hi & Hs & Hv).
    destruct e as [| | | | | | | | |c attrs|]; try discriminate Hi.
    destruct c; try discriminate Hi. auto.
  - destruct (Job_from_dict_valid _ _ _ H) as (Hi & Hs & Hv).
    destruct e as [| | | | | | | | |c attrs|]; try discriminate Hi.
    destruct c; try discriminate Hi. auto.
  - apply Usage_from_dict_good in H.
    pose proof (good_Usage_shaped e H) as Hs.
    destruct H as (a & b & c & r1 & r2 & r3 & -> & Hv & _). auto.
  - destruct (Application_from_dict_valid _ _ H) as (Hi & Hs & Hv).
    destruct e as [| | | | | | | | |c attrs|]; try discriminate Hi.
    destruct c; try discriminate Hi. auto.
Qed.

Lemma from_dict_returns_valid_instance_witness :
  isinstance
    (VObj cService
       [VList [VStr "run"]; VObj cResources [VInt 1; VInt 1]; VInt 1;
        VDict []; VDict []; VList []]) (Tclass cService) = true
  /\ shaped
       (VObj cService
          [VList [VStr "run"]; VObj cResources [VInt 1; VInt 1]; VInt 1;
           VDict []; VDict []; VList []]) = true
  /\ _validate
       (VObj cService
          [VList [VStr "run"]; VObj cResources [VInt 1; VInt 1]; VInt 1;
           VDict []; VDict []; VList []]) = Ok tt.
Proof.
  apply (from_dict_returns_valid_instance urllib.urlparse_path cService
           a_service).
  vm_compute. reflexivity.
Defined.

(** X5: whatever [from_protobuf] returns is an instance of the class that
    holds one object per slot, at any depth, and passes the validation of
    the class. *)
Theorem from_protobuf_returns_valid_instance (P : proto.declarations)
    (cls : class) (msg e : value) :
  from_protobuf P cls msg = Ok e ->
  isinstance e (Tclass cls) = true /\ shaped e = true /\ _validate e = Ok tt.
Proof.
  destruct cls; cbn [from_protobuf]; intros H.
  - apply Resources_from_protobuf_good in H.
    pose proof (good_Resources_shaped e H) as Hs.
    destruct H as (a & b & -> & Hv). auto.
  - assert (Hg : good_File e).
    { revert H. unfold File.from_protobuf.
      destruct (negb (proto.is_message cFile msg)); [discriminate|].
      intros H. do 5 inv_bind H. eauto using File_init_good. }
    pose proof (good_File_shaped e Hg) as Hs.
    destruct Hg as (a & b & c & d & f & -> & Hv). auto.
  - destruct (Service_from_protobuf_shaped _ _ H) as (Hi & Hs & Hv).
    destruct e as [| | | | | | | | |c attrs|]; try discriminate Hi.
    destruct c; try discriminate Hi. auto.
  - destruct (Job_from_protobuf_valid _ _ H) as (Hi & Hs & Hv).
    destruct e as [| | | | | | | | |c attrs|]; try discriminate Hi.
    destruct c; try discriminate Hi. auto.
  - apply Usage_from_protobuf_good in H.
    pose proof (good_Usage_shaped e H) as Hs.
    destruct H as (a & b & c & r1 & r2 & r3 & -> & Hv & _). auto.
  - destruct (Application_from_protobuf_valid _ _ _ H) as (Hi & Hs & Hv).
    destruct e as [| | | | | | | | |c attrs|]; try discriminate Hi.
    destruct c; try discriminate Hi. auto.
Qed.

Lemma from_protobuf_returns_valid_instance_witness :
  isinstance (usage_object 10 20 3 (0, 0) (1024, 1) (2048, 2))
    (Tclass cResourceUsageReport) = true
  /\ shaped (usage_object 10 20 3 (0, 0) (1024, 1) (2048, 2)) = true
  /\ _validate (usage_object 10 20 3 (0, 0) (1024, 1) (2048, 2)) = Ok tt.
Proof.
  apply (from_protobuf_returns_valid_instance example_declarations
           cResourceUsageReport
           (usage_message 10 20 3 (0, 0) (1024, 1) (2048, 2))).
  vm_compute. reflexivity.
Defined.

(** ** What a valid job holds *)

Lemma Service_validate_request (s : value) :
  Service._validate s = Ok tt -> is_request s.
Proof.
  unfold Service._validate. intros H. do 11 inv_bind H.
  apply bounded_int_inv in E as (i & Hgi & Hi & Hi0).
  unfold Resources._validate in E2. inv_bind E2.
  apply bounded_int_inv in E as (v & Hgv & Hv & Hv1).
  apply bounded_int_inv in E2 as (m & Hgm & Hm & Hm1).
  apply check_is_list_of_inv in E7 as (cl & Hgc & _).
  rewrite Hgc in E8. injection E8 as <-.
  exists cl, x, i, m, v. unfold at_least. repeat split; try assumption.
  intros ->. discriminate E9.
Qed.

(** X6: a job that passes [Job._validate] has at least one service, and
    every service of it passes the request rule: at least one command, no
    negative number of instances, and resources of at least 1 for both
    [memory] and [vcores]. *)
Theorem valid_Job_services (j : value) :
  Job._validate j = Ok tt ->
  exists services,
    getattr j "services" = Ok (VDict services)
    /\ services <> []
    /\ Forall is_request (values services).
Proof.
  unfold Job._validate. intros H. do 5 inv_bind H.
  apply check_is_dict_of_inv in E1 as (sd & Hg & _ & _).
  rewrite Hg in E2. injection E2 as <-.
  exists sd. split; [reflexivity|]. split.
  - intros ->. discriminate E3.
  - apply for_each_inv in H. eapply Forall_impl; [|exact H].
    apply Service_validate_request.
Qed.

Lemma valid_Job_services_witness :
  exists services,
    getattr
      (VObj cJob
         [VStr "demo"; VNone;
          VDict
            [(VStr "worker",
              VObj cService
                [VList [VStr "run"]; VObj cResources [VInt 1024; VInt 1];
                 VInt 2; VDict []; VDict []; VList []])]]) "services"
    = Ok (VDict services)
    /\ services <> []
    /\ Forall is_request (values services).
Proof.
  apply (valid_Job_services
           (VObj cJob
              [VStr "demo"; VNone;
               VDict
                 [(VStr "worker",
                   VObj cService
                     [VList [VStr "run"];
                      VObj cResources [VInt 1024; VInt 1];
                      VInt 2; VDict []; VDict []; VList []])]])).
  vm_compute. reflexivity.
Defined.

(** ** Equality of instances *)

Lemma list_eq_refl (l : list value) :
  Forall (fun v => regular v = true -> py_eq v v = true) l ->
  forallb regular l = true ->
  list_eq l l = true.
Proof.
  induction 1 as [|x l Hx Hl IH]; [reflexivity|].
  cbn [forallb list_eq]. intros [Hrx Hrl]%andb_true_iff.
  now rewrite Hx, IH.
Qed.

Lemma dict_all_refl (pre post : list (value * value)) :
  distinct (map fst (pre ++ post)) = true ->
  forallb is_str (map fst (pre ++ post)) = true ->
  Forall (fun kv => py_eq (snd kv) (snd kv) = true) post ->
  dict_all post (pre ++ post) = true.
Proof.
  revert pre. induction post as [|[k v] post IH]; intros pre Hd Hs Hv;
    [reflexivity|].
  inversion Hv as [|? ? Hv1 Hv2]; subst. cbn [snd] in Hv1.
  change (dict_all ((k, v) :: ?d) ?e)
    with (dict_find k v e && dict_all d e).
  rewrite map_app in Hd, Hs. cbn [map fst] in Hd, Hs.
  rewrite forallb_app in Hs. apply andb_true_iff in Hs as [Hs1 Hs2].
  cbn [forallb] in Hs2. apply andb_true_iff in Hs2 as [Hk Hs2].
  rewrite dict_find_skip
    by (eauto using distinct_app_cons).
  cbn [dict_find]. destruct k; try discriminate.
  cbn [py_eq]. rewrite String.eqb_refl, Hv1. cbn [andb].
  replace (pre ++ (VStr s, v) :: post)%list
    with ((pre ++ [(VStr s, v)]) ++ post)%list
    by now rewrite <- app_assoc.
  apply IH.
  - rewrite <- app_assoc. rewrite map_app. exact Hd.
  - rewrite <- app_assoc, map_app, forallb_app. cbn [map fst forallb app].
    now rewrite Hs1, Hs2.
  - exact Hv2.
Qed.

(** X7: [==] is reflexive on the objects made of [None], booleans,
    integers, strings, instants, lists, dicts with string keys and
    instances: such an instance is equal to itself by [Base.__eq__]. *)
Theorem eq_is_reflexive (v : value) : regular v = true -> py_eq v v = true.
Proof.
  induction v as [| |b|z|f|s|l IH|d IH|us|c attrs IH|c fields IH]
    using value_induction; cbn [regular]; intros Hr;
    try reflexivity; try discriminate.
  - now destruct b.
  - apply Z.eqb_refl.
  - apply String.eqb_refl.
  - rewrite py_eq_VList. now apply list_eq_refl.
  - rewrite py_eq_VDict. apply andb_true_iff in Hr as [Hd Hr].
    rewrite Nat.eqb_refl. cbn [andb].
    apply (dict_all_refl [] d); cbn [app].
    + exact Hd.
    + clear - Hr. induction d as [|[k v] d IHd]; [reflexivity|].
      cbn [forallb map fst snd] in *.
      apply andb_true_iff in Hr as [[Hk _]%andb_true_iff Hr].
      now rewrite Hk, IHd.
    + clear - IH Hr. induction IH as [|[k v] d [_ Hv] _ IHd]; [constructor|].
      cbn [forallb fst snd] in *.
      apply andb_true_iff in Hr as [[_ Hrv]%andb_true_iff Hr].
      constructor; auto.
  - apply Z.eqb_refl.
  - rewrite py_eq_VObj, class_eqb_refl. now apply list_eq_refl.
Qed.

Lemma eq_is_reflexive_witness :
  py_eq
    (VObj cService
       [VList [VStr "run"]; VObj cResources [VInt 1024; VBool true]; VInt 2;
        VDict [(VStr "data",
                VObj cFile [VStr "a/b"; VStr "FILE"; VStr "PUBLIC"; VInt 0;
                            VInt 0])];
        VDict [(VStr "A", VStr "b")]; VList []])
    (VObj cService
       [VList [VStr "run"]; VObj cResources [VInt 1024; VBool true]; VInt 2;
        VDict [(VStr "data",
                VObj cFile [VStr "a/b"; VStr "FILE"; VStr "PUBLIC"; VInt 0;
                            VInt 0])];
        VDict [(VStr "A", VStr "b")]; VList []]) = true.
Proof.
  apply (eq_is_reflexive
           (VObj cService
              [VList [VStr "run"]; VObj cResources [VInt 1024; VBool true];
               VInt 2;
               VDict [(VStr "data",
                       VObj cFile [VStr "a/b"; VStr "FILE"; VStr "PUBLIC";
                                   VInt 0; VInt 0])];
               VDict [(VStr "A", VStr "b")]; VList []])).
  vm_compute. reflexivity.
Defined.

Lemma list_eq_nth_false (l : list value) (i : nat) (x : value) :
  nth_error l i = Some x -> py_eq x x = false -> list_eq l l = false.
Proof.
  revert i. induction l as [|y l IH]; intros i Hi Hx.
  - now destruct i.
  - cbn [list_eq]. destruct i as [|i].
    + injection Hi as ->. now rewrite Hx.
    + rewrite (IH i Hi Hx). apply andb_false_r.
Qed.

(** X8: an instance that holds a NaN in a slot is not equal to itself:
    [Base.__eq__] compares the slots with [==].  The check of [progress]
    of an [ApplicationReport] accepts a NaN, every [float] being one. *)
Theorem nan_instance_is_not_equal_to_itself (c : class) (attrs : list value)
    (k : string) :
  getattr (VObj c attrs) k = Ok (VFloat S754_nan) ->
  py_eq (VObj c attrs) (VObj c attrs) = false
  /\ Base._check_is_type (VObj c attrs) k Tfloat false = Ok tt.
Proof.
  intros Hg. split.
  - destruct (getattr_nth _ _ _ _ Hg) as (i & _ & Hi).
    rewrite py_eq_VObj, class_eqb_refl.
    now apply (list_eq_nth_false attrs i (VFloat S754_nan)).
  - unfold Base._check_is_type. rewrite Hg. reflexivity.
Qed.

Lemma nan_instance_is_not_equal_to_itself_witness :
  py_eq
    (VObj cApplicationReport
       [VStr "application_1"; VStr "skein"; VStr "alice"; VStr "default";
        VList []; VNone; VNone; VNone; VStr "RUNNING"; VStr "UNDEFINED";
        VFloat S754_nan; usage_object 0 0 0 (0, 0) (0, 0) (0, 0); VNone;
        VDatetime 0; VDatetime 0])
    (VObj cApplicationReport
       [VStr "application_1"; VStr "skein"; VStr "alice"; VStr "default";
        VList []; VNone; VNone; VNone; VStr "RUNNING"; VStr "UNDEFINED";
        VFloat S754_nan; usage_object 0 0 0 (0, 0) (0, 0) (0, 0); VNone;
        VDatetime 0; VDatetime 0]) = false
  /\ Base._check_is_type
       (VObj cApplicationReport
          [VStr "application_1"; VStr "skein"; VStr "alice"; VStr "default";
           VList []; VNone; VNone; VNone; VStr "RUNNING"; VStr "UNDEFINED";
           VFloat S754_nan; usage_object 0 0 0 (0, 0) (0, 0) (0, 0); VNone;
           VDatetime 0; VDatetime 0]) "progress" Tfloat false = Ok tt.
Proof.
  apply (nan_instance_is_not_equal_to_itself cApplicationReport
           [VStr "application_1"; VStr "skein"; VStr "alice"; VStr "default";
            VList []; VNone; VNone; VNone; VStr "RUNNING"; VStr "UNDEFINED";
            VFloat S754_nan; usage_object 0 0 0 (0, 0) (0, 0) (0, 0); VNone;
            VDatetime 0; VDatetime 0] "progress").
  reflexivity.
Defined.

(** ** The file format *)

Lemma chars_app (a b : string) : chars (a ++ b) = (chars a ++ chars b)%list.
Proof. induction a as [|c a IH]; [reflexivity|]. cbn. now rewrite <- IH. Qed.

Lemma str_chars (s : string) : str (chars s) = s.
Proof. apply string_of_list_ascii_of_string. Qed.

Lemma rsplit_on_none (ch : ascii) (l : list ascii) :
  existsb (Ascii.eqb ch) l = false -> rsplit_on ch l = None.
Proof.
  induction l as [|c l IH]; [reflexivity|]. cbn [existsb rsplit_on].
  intros [Hc Hl]%orb_false_iff. rewrite (IH Hl).
  now rewrite Ascii.eqb_sym, Hc.
Qed.

Lemma rsplit_on_app (ch : ascii) (h t : list ascii) :
  existsb (Ascii.eqb ch) t = false ->
  rsplit_on ch (h ++ ch :: t) = Some (h, t).
Proof.
  intros Ht. induction h as [|c h IH].
  - cbn [app rsplit_on]. now rewrite (rsplit_on_none ch t Ht), Ascii.eqb_refl.
  - cbn [app rsplit_on]. now rewrite IH.
Qed.

Lemma rsplit_sep_none (l : list ascii) :
  existsb (Ascii.eqb "/") l = false -> rsplit_sep l = None.
Proof.
  induction l as [|c l IH]; [reflexivity|]. cbn [existsb rsplit_sep].
  intros [Hc Hl]%orb_false_iff. rewrite (IH Hl).
  now rewrite Ascii.eqb_sym, Hc.
Qed.

Lemma rsplit_sep_app (h t : list ascii) :
  existsb (Ascii.eqb "/") t = false ->
  rsplit_sep (h ++ "/"%char :: t) = Some ((h ++ ["/"%char])%list, t).
Proof.
  intros Ht. induction h as [|c h IH].
  - cbn [app rsplit_sep]. now rewrite (rsplit_sep_none t Ht).
  - cbn [app rsplit_sep]. now rewrite IH.
Qed.

(** X9: [_infer_format] returns ['json'] or ['yaml'] and nothing else. *)
Theorem infer_format_returns_json_or_yaml (path : string)
    (format : format_object) (r : string) :
  _infer_format path format = inl r -> r = "json" \/ r = "yaml".
Proof.
  destruct format as [|s]; cbn [_infer_format].
  - destruct (os_path_splitext path) as [root ext].
    destruct (String.eqb ext ".json"); [intros [= <-]; now left|].
    destruct (mem_str ext [".yaml"; ".yml"]); [intros [= <-]; now right|].
    discriminate.
  - destruct (mem_str s ["json"; "yaml"]) eqn:Hs; [|discriminate].
    cbn [negb]. intros [= Hr]. subst r. cbn [mem_str existsb] in Hs.
    destruct (String.eqb_spec s "json") as [Hj|_]; [now left|].
    destruct (String.eqb_spec s "yaml") as [Hy|_]; [now right|].
    discriminate Hs.
Qed.

Lemma infer_format_returns_json_or_yaml_witness :
  "yaml" = "json" \/ "yaml" = "yaml".
Proof.
  apply (infer_format_returns_json_or_yaml "conf/job.yml" the_infer_constant).
  vm_compute. reflexivity.
Defined.

(** X10: when the format is to be inferred, a path whose file name is
    [stem.ext] has the format its extension [ext] names: ['json'] for
    [json], ['yaml'] for [yaml] and [yml], no format for any other; and no
    format when [stem] is empty or consists of dots, as for a file named
    [.json]. *)
Theorem infer_format_by_extension (prefix stem ext : string) :
  prefix = "" \/ (exists dir, prefix = dir ++ "/") ->
  has_char "/" stem = false ->
  has_char "/" ext = false ->
  has_char "." ext = false ->
  _infer_format (prefix ++ stem ++ "." ++ ext) the_infer_constant
  = if forallb (fun c => Ascii.eqb c ".") (chars stem)
    then inr (Cant_infer_format_from_filepath (prefix ++ stem ++ "." ++ ext))
    else if String.eqb ext "json" then inl "json"
         else if mem_str ext ["yaml"; "yml"] then inl "yaml"
              else inr (Cant_infer_format_from_filepath
                          (prefix ++ stem ++ "." ++ ext)).
Proof.
  intros Hprefix Hstem Hext Hdot. unfold has_char in *.
  assert (Hname : existsb (Ascii.eqb "/") (chars (stem ++ "." ++ ext))
                  = false).
  { rewrite !chars_app, !existsb_app, Hstem, Hext. reflexivity. }
  assert (Hsplit : rsplit_on "." (chars (stem ++ "." ++ ext))
                   = Some (chars stem, chars ext)).
  { rewrite chars_app. apply rsplit_on_app. exact Hdot. }
  assert (Hext' : os_path_splitext (prefix ++ stem ++ "." ++ ext)
                  = if forallb (fun c => Ascii.eqb c ".") (chars stem)
                    then (prefix ++ stem ++ "." ++ ext, "")
                    else (prefix ++ stem, "." ++ ext)).
  { unfold os_path_splitext. destruct Hprefix as [->|[dir ->]].
    - change ("" ++ stem ++ "." ++ ext) with (stem ++ "." ++ ext).
      change ("" ++ stem) with stem.
      rewrite (rsplit_sep_none _ Hname), Hsplit.
      destruct (forallb _ (chars stem)); [reflexivity|].
      cbn [app str string_of_list_ascii]. fold (str (chars stem)).
      fold (str (chars ext)). now rewrite !str_chars.
    - replace (chars ((dir ++ "/") ++ stem ++ "." ++ ext))
        with (chars dir ++ "/"%char :: chars (stem ++ "." ++ ext))%list
        by (rewrite !chars_app, <- app_assoc; reflexivity).
      rewrite (rsplit_sep_app _ _ Hname), Hsplit.
      destruct (forallb _ (chars stem)); [reflexivity|].
      f_equal.
      + rewrite <- (str_chars ((dir ++ "/") ++ stem)), !chars_app.
        reflexivity.
      + cbn [str string_of_list_ascii]. fold (str (chars ext)).
        now rewrite str_chars. }
  unfold _infer_format. rewrite Hext'.
  destruct (forallb _ (chars stem)); reflexivity.
Qed.

Lemma infer_format_by_extension_witness :
  _infer_format ("conf/" ++ "job.v2" ++ "." ++ "yml") the_infer_constant
  = inl "yaml".
Proof.
  apply (infer_format_by_extension "conf/" "job.v2" "yml").
  - right. exists "conf". reflexivity.
  - reflexivity.
  - reflexivity.
  - reflexivity.
Defined.


(** ** The destination and the source of a file spec *)

(** X12: a file spec with a [dest] keeps its source as it is written and
    the URL parser is not consulted, whatever [dest] is; a file spec
    without [dest] has its source replaced by the path of the URL, so that
    a scheme and a host are lost. *)
Theorem source_is_replaced_by_its_path
    (urlparse_path : string -> result string) (s path : string) :
  (forall dest,
     File._parse_file_spec urlparse_path
       (VDict [(VStr "source", VStr s); (VStr "dest", dest)])
     = Ok (dest,
           VObj cFile [VStr s; VStr "FILE"; VStr "APPLICATION"; VInt 0;
                       VInt 0]))
  /\ (urlparse_path s = Ok path ->
      exists name,
        File._parse_file_spec urlparse_path (VDict [(VStr "source", VStr s)])
        = Ok (VStr name,
              VObj cFile [VStr path; VStr "FILE"; VStr "APPLICATION"; VInt 0;
                          VInt 0])).
Proof.
  split; [reflexivity|].
  intros Hpath. unfold File._parse_file_spec. cbn. rewrite Hpath. cbn.
  destruct (os_path_split path) as [base name]. eexists. reflexivity.
Qed.

Lemma source_is_replaced_by_its_path_witness :
  exists name,
    File._parse_file_spec urllib.urlparse_path
      (VDict [(VStr "source", VStr "hdfs://nn/lib/env.zip")])
    = Ok (VStr name,
          VObj cFile [VStr "/lib/env.zip"; VStr "FILE"; VStr "APPLICATION";
                      VInt 0; VInt 0]).
Proof.
  apply (proj2 (source_is_replaced_by_its_path urllib.urlparse_path
                  "hdfs://nn/lib/env.zip" "/lib/env.zip")).
  reflexivity.
Defined.

Lemma chars_str (l : list ascii) : chars (str l) = l.
Proof. apply list_ascii_of_string_of_list_ascii. Qed.

Lemma rsplit_sep_tail (l : list ascii) :
  match rsplit_sep l with
  | Some (h, t) => existsb (Ascii.eqb "/") t = false
  | None => existsb (Ascii.eqb "/") l = false
  end.
Proof.
  induction l as [|c l IH]; [reflexivity|]. cbn [rsplit_sep].
  destruct (rsplit_sep l) as [[h t]|]; [exact IH|].
  destruct (Ascii.eqb c "/") eqn:Hc; [exact IH|].
  cbn [existsb]. now rewrite Ascii.eqb_sym, Hc, IH.
Qed.

Lemma os_path_split_tail (p : string) :
  has_char "/" (snd (os_path_split p)) = false.
Proof.
  unfold os_path_split, has_char. pose proof (rsplit_sep_tail (chars p)) as H.
  destruct (rsplit_sep (chars p)) as [[h t]|]; cbn [snd].
  - now rewrite chars_str.
  - exact H.
Qed.

Lemma has_char_substring (c : ascii) (s : string) (n : nat) :
  has_char c s = false -> has_char c (substring 0 n s) = false.
Proof.
  unfold has_char. revert n. induction s as [|a s IH]; intros n H.
  - now destruct n.
  - destruct n as [|n]; [reflexivity|]. cbn in H |- *.
    apply orb_false_iff in H as [Ha Hs]. rewrite Ha. now apply IH.
Qed.

Lemma has_char_strip_ext (c : ascii) (name : string) (exts : list string) :
  has_char c name = false -> has_char c (File.strip_ext name exts) = false.
Proof.
  intros H. induction exts as [|ext exts IH]; [exact H|].
  cbn [File.strip_ext]. destruct (endswith name ext); [|exact IH].
  now apply has_char_substring.
Qed.

(** X13: the destination that [_parse_file_spec] derives, when the spec
    gives none, is a string without a slash: a bare file name. *)
Theorem derived_dest_is_a_file_name
    (urlparse_path : string -> result string) (d : list (value * value))
    (p : value * value) :
  mem_key "dest" d = false ->
  File._parse_file_spec urlparse_path (VDict d) = Ok p ->
  exists name, fst p = VStr name /\ has_char "/" name = false.
Proof.
  intros Hdest H. unfold File._parse_file_spec in H. do 2 inv_bind H.
  destruct x0 as [source type]. rewrite Hdest in H. cbn [negb] in H.
  destruct source as [| | | | |s| | | | |]; try discriminate H.
  destruct (urlparse_path s) as [path|]; [|discriminate H].
  pose proof (os_path_split_tail path) as Htail.
  cbn [bind] in H. destruct (os_path_split path) as [base name].
  cbn [snd bind] in Htail, H. inv_bind H. injection H as <-. cbn [fst].
  eexists. split; [reflexivity|].
  destruct (String.eqb type "ARCHIVE"); [|exact Htail].
  exact (has_char_strip_ext "/" name [".zip"; ".tar.gz"; ".tgz"] Htail).
Qed.

Lemma derived_dest_is_a_file_name_witness :
  exists name,
    fst (VStr "data",
         VObj cFile [VStr "a/b/data.tar.gz"; VStr "ARCHIVE";
                     VStr "APPLICATION"; VInt 0; VInt 0]) = VStr name
    /\ has_char "/" name = false.
Proof.
  apply (derived_dest_is_a_file_name urllib.urlparse_path
           [(VStr "archive", VStr "a/b/data.tar.gz")]).
  - reflexivity.
  - vm_compute. reflexivity.
Defined.

(** ** Missing keys *)

Lemma check_keys_keywords (cls : class) (d : list (value * value)) :
  Base._check_keys cls (VDict d) [] = Ok tt ->
  check_keywords (__slots__ cls) d = Ok tt.
Proof.
  unfold Base._check_keys, check_keywords. fold (keys d).
  assert (H : forall l,
             filter (fun k => negb (in_strings k (__slots__ cls))) l = [] ->
             forallb (fun k => in_strings k (__slots__ cls)) l = true).
  { induction l as [|k l IH]; [reflexivity|]. cbn [filter forallb].
    destruct (in_strings k (__slots__ cls)); [exact IH|discriminate]. }
  destruct (filter _ (keys d)) eqn:Hf; [|discriminate].
  intros _. now rewrite (H _ Hf).
Qed.

(** X14: [from_dict] of [Resources] and of [File], which call the
    constructor with the mapping as it is, report a key that the mapping
    lacks as a required parameter: [memory] before [vcores] for
    [Resources], [source] for [File]. *)
Theorem missing_key_is_a_required_parameter (d : list (value * value)) :
  (Base._check_keys cResources (VDict d) [] = Ok tt ->
   assoc "memory" d = None ->
   Resources.from_dict (VDict d)
   = Raise (TypeError (is_required_but_wasnt_provided "memory")))
  /\ (Base._check_keys cResources (VDict d) [] = Ok tt ->
      mem_key "memory" d = true -> assoc "memory" d <> Some VRequired ->
      assoc "vcores" d = None ->
      Resources.from_dict (VDict d)
      = Raise (TypeError (is_required_but_wasnt_provided "vcores")))
  /\ (Base._check_keys cFile (VDict d) [] = Ok tt ->
      assoc "source" d = None ->
      File.from_dict (VDict d)
      = Raise (TypeError (is_required_but_wasnt_provided "source"))).
Proof.
  split; [|split].
  - intros Hk Hm. unfold Resources.from_dict, Base.from_dict.
    rewrite Hk. cbn [bind]. unfold Resources.__init__.
    pose proof (check_keys_keywords _ _ Hk) as Hkw.
    cbn [__slots__] in Hkw. rewrite Hkw. unfold arg. rewrite Hm.
    cbn [bind]. destruct (assoc "vcores" d); reflexivity.
  - intros Hk Hm Hr Hv. unfold Resources.from_dict, Base.from_dict.
    rewrite Hk. cbn [bind]. unfold Resources.__init__.
    pose proof (check_keys_keywords _ _ Hk) as Hkw.
    cbn [__slots__] in Hkw. rewrite Hkw. unfold arg, mem_key in *.
    rewrite Hv. destruct (assoc "memory" d) as [m|]; [|discriminate Hm].
    cbn [bind]. unfold Base._check_required.
    cbn [for_each __slots__ getattr index_of String.eqb Ascii.eqb Bool.eqb
         nth_error bind].
    destruct m; try reflexivity. now elim Hr.
  - intros Hk Hs. unfold File.from_dict, Base.from_dict.
    rewrite Hk. cbn [bind]. unfold File.__init__.
    pose proof (check_keys_keywords _ _ Hk) as Hkw.
    cbn [__slots__] in Hkw. rewrite Hkw. unfold arg. rewrite Hs.
    cbn [bind].
    destruct (assoc "type" d), (assoc "visibility" d), (assoc "size" d),
      (assoc "timestamp" d); reflexivity.
Qed.

Lemma missing_key_is_a_required_parameter_witness :
  Resources.from_dict (VDict [(VStr "vcores", VInt 1)])
  = Raise (TypeError (is_required_but_wasnt_provided "memory")).
Proof.
  apply (proj1 (missing_key_is_a_required_parameter [(VStr "vcores", VInt 1)]));
    reflexivity.
Defined.

(** X15: [ResourceUsageReport.from_dict] subscripts the mapping: a mapping
    of allowed keys that lacks [memorySeconds] raises the [KeyError] of
    that key. *)
Theorem usage_from_dict_missing_key (d : list (value * value)) :
  Base._check_keys cResourceUsageReport (VDict d) ResourceUsageReport._keys
  = Ok tt ->
  assoc "memorySeconds" d = None ->
  ResourceUsageReport.from_dict (VDict d) = Raise (KeyError "memorySeconds").
Proof.
  intros Hk Hm. unfold ResourceUsageReport.from_dict. rewrite Hk.
  cbn [bind]. unfold getitem. now rewrite Hm.
Qed.

Lemma usage_from_dict_missing_key_witness :
  ResourceUsageReport.from_dict (VDict [(VStr "vcoreSeconds", VInt 1)])
  = Raise (KeyError "memorySeconds").
Proof.
  apply (usage_from_dict_missing_key [(VStr "vcoreSeconds", VInt 1)]).
  - vm_compute. reflexivity.
  - reflexivity.
Defined.

(** X16: [ApplicationReport.from_dict] reads the mapping with [get]: a
    mapping of allowed keys that lacks [usage] hands [None] to
    [ResourceUsageReport.from_dict], whose key check raises the
    [TypeError] for an object that is no mapping. *)
Theorem application_from_dict_missing_usage (d : list (value * value)) :
  Base._check_keys cApplicationReport (VDict d) ApplicationReport._keys
  = Ok tt ->
  assoc "usage" d = None ->
  ApplicationReport.from_dict (VDict d)
  = Raise (TypeError (Expected_mapping_for "ResourceUsageReport")).
Proof.
  intros Hk Hu. unfold ApplicationReport.from_dict. rewrite Hk.
  cbn [bind]. rewrite application_keys.
  cbn [__slots__ combine map fst snd getitem assoc is_key String.eqb
       Ascii.eqb Bool.eqb].
  unfold dict_get at 1. rewrite Hu. reflexivity.
Qed.

Lemma application_from_dict_missing_usage_witness :
  ApplicationReport.from_dict (VDict [(VStr "id", VStr "application_1")])
  = Raise (TypeError (Expected_mapping_for "ResourceUsageReport")).
Proof.
  apply (application_from_dict_missing_usage
           [(VStr "id", VStr "application_1")]).
  - vm_compute. reflexivity.
  - reflexivity.
Defined.

(** X17: [Service.from_dict] passes [None] for a key that the mapping
    lacks, so that the marker of a required parameter is never seen: from
    a mapping without [resources] no service is built, and a mapping that
    has [commands] alone fails the type check of [resources]. *)
Theorem service_from_dict_missing_resources
    (urlparse_path : string -> result string) :
  (forall d, assoc "resources" d = None ->
     exists e, Service.from_dict urlparse_path (VDict d) = Raise e)
  /\ (forall commands, commands <> VRequired ->
        Service.from_dict urlparse_path (VDict [(VStr "commands", commands)])
        = Raise (TypeError
                   (must_be_an_instance_of "resources" "Resources" false))).
Proof.
  split.
  - intros d Hr.
    destruct (Service.from_dict urlparse_path (VDict d)) as [e|e] eqn:H;
      [exfalso|eauto].
    assert (Hg : dict_get d "resources" VNone = VNone)
      by (unfold dict_get; now rewrite Hr).
    unfold Service.from_dict in H. inv_bind H.
    rewrite Hg in H. cbn [is_None negb bind] in H.
    do 2 inv_bind H.
    apply Service_init_shape in H
      as (commands & resources & instances & files & env & depends
          & Hres & _ & _ & -> & Hvalid).
    assert (resources = VNone).
    { destruct (mem_key "instances" d).
      - inv_bind E1. injection E1 as <-. cbn in Hres. congruence.
      - injection E1 as <-. cbn in Hres. congruence. }
    subst resources. unfold Service._validate in Hvalid.
    do 2 inv_bind Hvalid. discriminate E3.
  - intros commands Hc. unfold Service.from_dict.
    cbn [Base._check_keys __slots__ map fst filter in_strings mem_str existsb
         String.eqb Ascii.eqb Bool.eqb orb negb bind dict_get assoc is_key
         is_None mem_key].
    unfold Service.__init__.
    cbn [check_keywords keys map fst forallb in_strings mem_str existsb
         String.eqb Ascii.eqb Bool.eqb orb andb bind arg assoc is_key
         _if_none].
    unfold Base._check_required.
    cbn [for_each __slots__ getattr index_of String.eqb Ascii.eqb Bool.eqb
         nth_error bind].
    destruct commands; try reflexivity. now elim Hc.
Qed.

Lemma service_from_dict_missing_resources_witness :
  Service.from_dict urllib.urlparse_path
    (VDict [(VStr "commands", VList [VStr "run"])])
  = Raise (TypeError (must_be_an_instance_of "resources" "Resources" false)).
Proof.
  apply (proj2 (service_from_dict_missing_resources urllib.urlparse_path)
           (VList [VStr "run"])).
  discriminate.
Defined.

(** X18: for [Service] the keys that a mapping lacks fall back to the
    defaults of the constructor: from a mapping with valid [commands] and
    [resources] alone, [from_dict] builds a service with one instance, no
    files, no environment and no dependencies. *)
Theorem service_from_dict_defaults (urlparse_path : string -> result string)
    (commands : list value) (memory vcores : Z) :
  commands <> [] ->
  forallb (fun c => isinstance c Tstr) commands = true ->
  1 <= memory -> 1 <= vcores ->
  Service.from_dict urlparse_path
    (VDict [(VStr "commands", VList commands);
            (VStr "resources", resources_mapping memory vcores)])
  = Ok (VObj cService
          [VList commands; resources_object memory vcores; VInt 1; VDict [];
           VDict []; VList []]).
Proof.
  intros Hne Hstr Hm Hv. unfold Service.from_dict.
  cbn [Base._check_keys __slots__ map fst filter in_strings mem_str existsb
       String.eqb Ascii.eqb Bool.eqb orb negb bind dict_get assoc is_key
       is_None mem_key resources_mapping].
  change (VDict [(VStr "memory", VInt memory); (VStr "vcores", VInt vcores)])
    with (resources_mapping memory vcores).
  assert (Hr : Resources.from_dict (resources_mapping memory vcores)
               = Ok (resources_object memory vcores)).
  { unfold Resources.from_dict, Base.from_dict. cbn [resources_mapping].
    cbn [Base._check_keys __slots__ map fst filter in_strings mem_str existsb
         String.eqb Ascii.eqb Bool.eqb orb negb bind].
    apply Resources_init_nonnegative; try reflexivity; lia. }
  rewrite Hr. cbn [bind]. unfold Service.__init__.
  cbn [check_keywords keys map fst forallb in_strings mem_str existsb
       String.eqb Ascii.eqb Bool.eqb orb andb bind arg assoc is_key
       _if_none resources_object].
  unfold Base._check_required.
  cbn [for_each __slots__ getattr index_of String.eqb Ascii.eqb Bool.eqb
       nth_error bind].
  rewrite (proj2 (Service_validate_iff _ _ _ _ _ _)); [reflexivity|].
  constructor.
  - split; [reflexivity|cbn; lia].
  - split; [reflexivity|].
    apply (Resources_validate_intro (VInt memory) (VInt vcores) true);
      try reflexivity; assumption.
  - repeat split. constructor.
  - split; reflexivity.
  - exists commands. auto.
  - exists []. auto.
Qed.

Lemma service_from_dict_defaults_witness :
  Service.from_dict urllib.urlparse_path
    (VDict [(VStr "commands", VList [VStr "run"]);
            (VStr "resources", resources_mapping 1024 2)])
  = Ok (VObj cService
          [VList [VStr "run"]; resources_object 1024 2; VInt 1; VDict [];
           VDict []; VList []]).
Proof.
  apply (service_from_dict_defaults urllib.urlparse_path [VStr "run"] 1024 2).
  - discriminate.
  - reflexivity.
  - lia.
  - lia.
Defined.

(** ** The keys of a shorthand file spec *)

(** X19: a file spec written with the shorthand key [file] or [archive]
    must not have the keys [type] or [source] as well: the key check
    raises the [ValueError] that lists them. *)
Theorem shorthand_excludes_type_and_source
    (urlparse_path : string -> result string) (d : list (value * value))
    (k : string) :
  mem_key "file" d = negb (mem_key "archive" d) ->
  k = "type" \/ k = "source" ->
  In (VStr k) (keys d) ->
  exists extra,
    File._parse_file_spec urlparse_path (VDict d)
    = Raise (ValueError (Unknown_extra_keys_for "File" extra))
    /\ In (VStr k) extra.
Proof.
  intros Hone Hk Hin. unfold File._parse_file_spec. rewrite Hone.
  destruct (mem_key "archive" d); cbn [negb bind].
  - rewrite (check_keys_unknown cFile _ d (VStr k)).
    + eexists. split; [reflexivity|]. apply filter_In. split; [exact Hin|].
      destruct Hk as [-> | ->]; reflexivity.
    + discriminate.
    + exact Hin.
    + destruct Hk as [-> | ->]; reflexivity.
  - rewrite (check_keys_unknown cFile _ d (VStr k)).
    + eexists. split; [reflexivity|]. apply filter_In. split; [exact Hin|].
      destruct Hk as [-> | ->]; reflexivity.
    + discriminate.
    + exact Hin.
    + destruct Hk as [-> | ->]; reflexivity.
Qed.

Lemma shorthand_excludes_type_and_source_witness :
  exists extra,
    File._parse_file_spec urllib.urlparse_path
      (VDict [(VStr "file", VStr "a/b.zip"); (VStr "type", VStr "ARCHIVE")])
    = Raise (ValueError (Unknown_extra_keys_for "File" extra))
    /\ In (VStr "type") extra.
Proof.
  apply (shorthand_excludes_type_and_source urllib.urlparse_path
           [(VStr "file", VStr "a/b.zip"); (VStr "type", VStr "ARCHIVE")]
           "type").
  - reflexivity.
  - left. reflexivity.
  - simpl. auto.
Defined.

(** ** The extension of an archive *)

Lemma length_app (a b : string) :
  String.length (a ++ b) = (String.length a + String.length b)%nat.
Proof. induction a as [|c a IH]; [reflexivity|]. cbn. now rewrite IH. Qed.

Lemma substring_all (b : string) : substring 0 (String.length b) b = b.
Proof. induction b as [|c b IH]; [reflexivity|]. cbn. now rewrite IH. Qed.

Lemma substring_suffix (a b : string) :
  substring (String.length a) (String.length b) (a ++ b) = b.
Proof. induction a as [|c a IH]; [apply substring_all|exact IH]. Qed.

Lemma substring_prefix (a b : string) :
  substring 0 (String.length a) (a ++ b) = a.
Proof.
  induction a as [|c a IH]; [now destruct b|]. cbn. now rewrite IH.
Qed.

Lemma endswith_app (a b : string) : endswith (a ++ b) b = true.
Proof.
  unfold endswith. rewrite length_app.
  replace (String.length a + String.length b - String.length b)%nat
    with (String.length a) by lia.
  rewrite substring_suffix, String.eqb_refl, andb_true_r.
  apply Nat.leb_le. lia.
Qed.

Lemma drop_last_app (a b : string) : drop_last (a ++ b) (String.length b) = a.
Proof.
  unfold drop_last. rewrite length_app.
  replace (String.length a + String.length b - String.length b)%nat
    with (String.length a) by lia.
  apply substring_prefix.
Qed.

Lemma substring_split (s : string) (k : nat) :
  (k <= String.length s)%nat ->
  s = substring 0 k s ++ substring k (String.length s - k) s.
Proof.
  revert k. induction s as [|c s IH]; intros k Hk.
  - now destruct k.
  - destruct k as [|k].
    + cbn [substring append String.length Nat.sub].
      now rewrite substring_all.
    + cbn [String.length] in Hk. cbn. f_equal. apply IH. lia.
Qed.

Lemma endswith_inv (s ext : string) :
  endswith s ext = true -> exists a, s = a ++ ext.
Proof.
  unfold endswith. intros [Hle Heq]%andb_true_iff.
  apply Nat.leb_le in Hle. apply String.eqb_eq in Heq.
  exists (substring 0 (String.length s - String.length ext) s).
  rewrite (substring_split s (String.length s - String.length ext)) at 1
    by lia.
  f_equal.
  replace (String.length s - (String.length s - String.length ext))%nat
    with (String.length ext) by lia.
  exact Heq.
Qed.

(** Two texts that end differently are no suffix of one another. *)
Lemma endswith_other (stem e1 e2 : string) :
  (forall a b, rev (chars e1) ++ a <> rev (chars e2) ++ b)%list ->
  endswith (stem ++ e1) e2 = false.
Proof.
  intros Hdiff. destruct (endswith (stem ++ e1) e2) eqn:H; [|reflexivity].
  apply endswith_inv in H as [a Ha].
  apply (f_equal (fun s => rev (chars s))) in Ha.
  rewrite !chars_app, !rev_app_distr in Ha. now apply Hdiff in Ha.
Qed.

(** X20: an archive whose name ends in [.zip], [.tar.gz] or [.tgz] is
    given the name without that extension as its destination, while a
    file of the same name keeps the extension. *)
Theorem archive_extension_is_stripped
    (urlparse_path : string -> result string) (stem ext : string) :
  In ext [".zip"; ".tar.gz"; ".tgz"] ->
  has_char "/" stem = false ->
  urlparse_path (stem ++ ext) = Ok (stem ++ ext) ->
  File._parse_file_spec urlparse_path
    (VDict [(VStr "archive", VStr (stem ++ ext))])
  = Ok (VStr stem,
        VObj cFile [VStr (stem ++ ext); VStr "ARCHIVE"; VStr "APPLICATION";
                    VInt 0; VInt 0])
  /\ File._parse_file_spec urlparse_path
       (VDict [(VStr "file", VStr (stem ++ ext))])
     = Ok (VStr (stem ++ ext),
           VObj cFile [VStr (stem ++ ext); VStr "FILE"; VStr "APPLICATION";
                       VInt 0; VInt 0]).
Proof.
  intros Hext Hstem Hpath.
  assert (Hsplit : os_path_split (stem ++ ext) = ("", stem ++ ext)).
  { unfold os_path_split. rewrite rsplit_sep_none; [reflexivity|].
    rewrite chars_app, existsb_app. unfold has_char in Hstem.
    rewrite Hstem. destruct Hext as [<-|[<-|[<-|[]]]]; reflexivity. }
  assert (Hstrip : File.strip_ext (stem ++ ext) [".zip"; ".tar.gz"; ".tgz"]
                   = stem).
  { cbn [File.strip_ext]. destruct Hext as [<-|[<-|[<-|[]]]].
    - rewrite endswith_app. apply (drop_last_app stem ".zip").
    - rewrite (endswith_other stem ".tar.gz" ".zip")
        by (intros a b; cbn; discriminate).
      rewrite endswith_app. apply (drop_last_app stem ".tar.gz").
    - rewrite (endswith_other stem ".tgz" ".zip")
        by (intros a b; cbn; discriminate).
      rewrite (endswith_other stem ".tgz" ".tar.gz")
        by (intros a b; cbn; discriminate).
      rewrite endswith_app. apply (drop_last_app stem ".tgz"). }
  unfold File._parse_file_spec.
  cbn -[os_path_split File.strip_ext append File.__init__].
  rewrite Hpath. cbn [bind]. rewrite Hsplit, Hstrip.
  split; reflexivity.
Qed.

Lemma archive_extension_is_stripped_witness :
  File._parse_file_spec urllib.urlparse_path
    (VDict [(VStr "archive", VStr ("env.2" ++ ".tgz"))])
  = Ok (VStr "env.2",
        VObj cFile [VStr ("env.2" ++ ".tgz"); VStr "ARCHIVE";
                    VStr "APPLICATION"; VInt 0; VInt 0])
  /\ File._parse_file_spec urllib.urlparse_path
       (VDict [(VStr "file", VStr ("env.2" ++ ".tgz"))])
     = Ok (VStr ("env.2" ++ ".tgz"),
           VObj cFile [VStr ("env.2" ++ ".tgz"); VStr "FILE";
                       VStr "APPLICATION"; VInt 0; VInt 0]).
Proof.
  apply (archive_extension_is_stripped urllib.urlparse_path "env.2" ".tgz").
  - simpl. auto.
  - reflexivity.
  - reflexivity.
Defined.

(** ** Camel case *)

Lemma has_char_app (c : ascii) (a b : string) :
  has_char c (a ++ b) = has_char c a || has_char c b.
Proof. unfold has_char. now rewrite chars_app, existsb_app. Qed.

Lemma append_empty (s : string) : s ++ "" = s.
Proof. induction s as [|c s IH]; [reflexivity|]. cbn. now rewrite IH. Qed.

Lemma split_on_whole (sep : ascii) (cur l : list ascii) :
  existsb (Ascii.eqb sep) l = false ->
  split_on sep cur l = [str (rev cur ++ l)].
Proof.
  revert cur. induction l as [|c l IH]; intros cur H.
  - cbn [split_on]. now rewrite app_nil_r.
  - cbn [existsb] in H. apply orb_false_iff in H as [Hc Hl].
    cbn [split_on]. rewrite Ascii.eqb_sym, Hc, (IH _ Hl).
    cbn [rev]. now rewrite <- app_assoc.
Qed.

Lemma existsb_rev {A} (p : A -> bool) (l : list A) :
  existsb p (rev l) = existsb p l.
Proof.
  induction l as [|x l IH]; [reflexivity|].
  cbn [rev existsb]. rewrite existsb_app, IH. cbn [existsb].
  rewrite orb_false_r. apply orb_comm.
Qed.

Lemma split_on_parts (sep : ascii) (cur l : list ascii) :
  existsb (Ascii.eqb sep) cur = false ->
  Forall (fun p => has_char sep p = false) (split_on sep cur l).
Proof.
  revert cur. induction l as [|c l IH]; intros cur H.
  - cbn [split_on]. constructor; [|constructor].
    unfold has_char. rewrite chars_str, existsb_rev. exact H.
  - cbn [split_on]. destruct (Ascii.eqb c sep) eqn:Hc.
    + constructor; [|now apply IH].
      unfold has_char. rewrite chars_str, existsb_rev. exact H.
    + apply IH. cbn [existsb]. now rewrite Ascii.eqb_sym, Hc, H.
Qed.

Lemma title_char (c : ascii) (b : bool) :
  Ascii.eqb "_" c = false ->
  Ascii.eqb "_"
    (if is_lower c || is_upper c
     then (if b then to_lower c else to_upper c) else c) = false.
Proof.
  destruct c as [b0 b1 b2 b3 b4 b5 b6 b7].
  destruct b0, b1, b2, b3, b4, b5, b6, b7, b; vm_compute;
    intros H; (exact H || reflexivity).
Qed.

Lemma title_from_chars (b : bool) (l : list ascii) :
  existsb (Ascii.eqb "_") l = false ->
  existsb (Ascii.eqb "_") (title_from b l) = false.
Proof.
  revert b. induction l as [|c l IH]; intros b H; [reflexivity|].
  cbn [existsb] in H. apply orb_false_iff in H as [Hc Hl].
  cbn [title_from]. pose proof (title_char c b Hc) as Ht.
  destruct (is_lower c || is_upper c); cbn [existsb];
    now rewrite Ht, IH.
Qed.

Lemma concat_parts (parts : list string) :
  Forall (fun p => has_char "_" p = false) parts ->
  has_char "_" (String.concat "" (map title parts)) = false.
Proof.
  induction 1 as [|p parts Hp _ IH]; [reflexivity|].
  assert (Ht : has_char "_" (title p) = false).
  { unfold has_char, title. rewrite chars_str. now apply title_from_chars. }
  cbn [map String.concat]. destruct (map title parts) as [|q qs] eqn:Hq.
  - exact Ht.
  - rewrite !has_char_app, Ht. exact IH.
Qed.

(** X21: [_to_camel_case] leaves a name without an underscore as it is,
    and no name that it returns has an underscore. *)
Theorem camel_case_has_no_underscore (x : string) :
  (has_char "_" x = false -> _to_camel_case x = x)
  /\ has_char "_" (_to_camel_case x) = false.
Proof.
  unfold _to_camel_case, split. split.
  - intros H. rewrite (split_on_whole _ [] _ H). cbn [rev app map String.concat].
    fold (chars x). now rewrite str_chars, append_empty.
  - pose proof (split_on_parts "_" [] (chars x) eq_refl) as H.
    destruct (split_on "_" [] (chars x)) as [|p0 parts]; [reflexivity|].
    inversion H as [|? ? Hp0 Hparts]; subst.
    rewrite has_char_app, Hp0. now apply concat_parts.
Qed.

Lemma camel_case_has_no_underscore_witness : _to_camel_case "progress" = "progress".
Proof.
  apply (proj1 (camel_case_has_no_underscore "progress")). reflexivity.
Defined.

(** ** Nulls in a service mapping *)

(** X22: in a service mapping a null for [files], [env] or [depends]
    stands for the empty default, while a null for [instances] does not
    stand for the default 1: it fails the type check. *)
Theorem service_from_dict_nulls (urlparse_path : string -> result string)
    (commands : list value) (memory vcores : Z) :
  commands <> [] ->
  forallb (fun c => isinstance c Tstr) commands = true ->
  1 <= memory -> 1 <= vcores ->
  Service.from_dict urlparse_path
    (VDict [(VStr "commands", VList commands);
            (VStr "resources", resources_mapping memory vcores);
            (VStr "files", VNone); (VStr "env", VNone);
            (VStr "depends", VNone)])
  = Ok (VObj cService
          [VList commands; resources_object memory vcores; VInt 1; VDict [];
           VDict []; VList []])
  /\ Service.from_dict urlparse_path
       (VDict [(VStr "commands", VList commands);
               (VStr "resources", resources_mapping memory vcores);
               (VStr "instances", VNone)])
     = Raise (TypeError (must_be_an_instance_of "instances" "int" false)).
Proof.
  intros Hne Hstr Hm Hv.
  assert (Hr : Resources.from_dict (resources_mapping memory vcores)
               = Ok (resources_object memory vcores)).
  { unfold Resources.from_dict, Base.from_dict. cbn [resources_mapping].
    cbn [Base._check_keys __slots__ map fst filter in_strings mem_str existsb
         String.eqb Ascii.eqb Bool.eqb orb negb bind].
    apply Resources_init_nonnegative; try reflexivity; lia. }
  split.
  - unfold Service.from_dict.
    cbn [Base._check_keys __slots__ map fst filter in_strings mem_str existsb
         String.eqb Ascii.eqb Bool.eqb orb negb bind dict_get assoc is_key
         is_None mem_key resources_mapping].
    change (VDict [(VStr "memory", VInt memory); (VStr "vcores", VInt vcores)])
      with (resources_mapping memory vcores).
    rewrite Hr. cbn [bind]. unfold Service.__init__.
    cbn [check_keywords keys map fst forallb in_strings mem_str existsb
         String.eqb Ascii.eqb Bool.eqb orb andb bind arg assoc is_key
         _if_none resources_object].
    unfold Base._check_required.
    cbn [for_each __slots__ getattr index_of String.eqb Ascii.eqb Bool.eqb
         nth_error bind].
    rewrite (proj2 (Service_validate_iff _ _ _ _ _ _)); [reflexivity|].
    constructor.
    + split; [reflexivity|cbn; lia].
    + split; [reflexivity|].
      apply (Resources_validate_intro (VInt memory) (VInt vcores) true);
        try reflexivity; assumption.
    + repeat split. constructor.
    + split; reflexivity.
    + exists commands. auto.
    + exists []. auto.
  - unfold Service.from_dict.
    cbn [Base._check_keys __slots__ map fst filter in_strings mem_str existsb
         String.eqb Ascii.eqb Bool.eqb orb negb bind dict_get assoc is_key
         is_None mem_key resources_mapping getitem setitem py_eq].
    change (VDict [(VStr "memory", VInt memory); (VStr "vcores", VInt vcores)])
      with (resources_mapping memory vcores).
    rewrite Hr. cbn [bind]. unfold Service.__init__.
    cbn [check_keywords keys map fst forallb in_strings mem_str existsb
         String.eqb Ascii.eqb Bool.eqb orb andb bind arg assoc is_key
         _if_none resources_object].
    reflexivity.
Qed.

Lemma service_from_dict_nulls_witness :
  Service.from_dict urllib.urlparse_path
    (VDict [(VStr "commands", VList [VStr "run"]);
            (VStr "resources", resources_mapping 1024 2);
            (VStr "files", VNone); (VStr "env", VNone);
            (VStr "depends", VNone)])
  = Ok (VObj cService
          [VList [VStr "run"]; resources_object 1024 2; VInt 1; VDict [];
           VDict []; VList []])
  /\ Service.from_dict urllib.urlparse_path
       (VDict [(VStr "commands", VList [VStr "run"]);
               (VStr "resources", resources_mapping 1024 2);
               (VStr "instances", VNone)])
     = Raise (TypeError (must_be_an_instance_of "instances" "int" false)).
Proof.
  apply (service_from_dict_nulls urllib.urlparse_path [VStr "run"] 1024 2).
  - discriminate.
  - reflexivity.
  - lia.
  - lia.
Defined.
